(** * Compliance-alert: the alert rule engine, the store merge, the dashboard
    metrics and the triage workflow, embedded from the TypeScript sources.

    Conventions of the embedding.
    - A JavaScript [number] is an IEEE 754 binary64 value: [JS.number] is the
      [spec_float] of the Standard Library at precision 53 and maximal
      exponent 1024, and [+], [-], [*], [/], [>] are its correctly rounded
      operations, with their infinities, signed zeros and [NaN].  Only the
      values that are valid binary64 numbers occur at run time.
    - A timestamp is an ISO-8601 string in the sources, always written by
      [Date.prototype.toISOString]; the embedding keeps the instant it denotes
      as epoch milliseconds, so that [new Date(s).getTime()] is the number of
      that integer.
    - String-literal union types are erased at run time: an alert type is a
      [string], exactly what [alertTypes.includes] inspects.
    - Reads of the host clock ([new Date()], [Date.now()]), the host time
      zone and the host locale ([toLocaleString()]) go through an explicit
      environment [Env]; an uncaught [TypeError] is the [Throw] completion.
    - A handler that awaits a timer is split at the [await]: the part after
      it is an event of its own, and so is a callback passed to
      [setTimeout]. *)

From Stdlib Require Import Ascii String ZArith QArith Qround Qabs Lqa.
From Stdlib Require Import DecimalString Floats.SpecFloat.
From stdpp Require Import gmap strings list sorting.

Local Open Scope Z_scope.

(** ** JavaScript numbers and their formatting *)

Module JS.

Definition number : Type := spec_float.

Definition prec : Z := 53.
Definition emax : Z := 1024.

Definition add : number -> number -> number := SFadd prec emax.
Definition sub : number -> number -> number := SFsub prec emax.
Definition mul : number -> number -> number := SFmul prec emax.
Definition div : number -> number -> number := SFdiv prec emax.

(** [Math.abs]. *)
Definition abs : number -> number := SFabs.

(** [x > y]; every comparison with [NaN] is false. *)
Definition gt (x y : number) : bool := SFltb y x.

(** The number of an integer: exact up to 2^53 in magnitude, rounded to the
    nearest number (ties to even) beyond. *)
Definition ofZ (z : Z) : number := binary_normalize prec emax z 0 false.

Definition ofNat (n : nat) : number := ofZ (Z.of_nat n).

(** The number nearest to the fraction [n / d], for [0 <= n] and [0 < d]:
    what reading the decimal [n / 10^k] gives. *)
Definition ofRatio (n : Z) (d : positive) : number :=
  match n with
  | Zpos m => div (S754_finite false m 0) (S754_finite false d 0)
  | _ => S754_zero false
  end.

(** Truthiness: every number but [+0], [-0] and [NaN]. *)
Definition truthy (x : number) : bool :=
  match x with
  | S754_zero _ | S754_nan => false
  | S754_infinity _ | S754_finite _ _ _ => true
  end.

(** The rational a finite number denotes. *)
Definition toQ (x : number) : option Q :=
  match x with
  | S754_zero _ => Some 0%Q
  | S754_finite s m e =>
      let mantissa := cond_Zopp s (Zpos m) in
      Some match e with
           | Zneg p => mantissa # (2 ^ p)
           | _ => inject_Z (mantissa * 2 ^ e)
           end
  | S754_infinity _ | S754_nan => None
  end.

Definition Qltb (x y : Q) : bool := negb (Qle_bool y x).

(** [Math.round]: the nearest integer, halves towards +Infinity; [-0] for a
    number in [[-0.5, 0)]; zeros, infinities and [NaN] are returned as they
    are. *)
Definition round (x : number) : number :=
  match x, toQ x with
  | S754_finite s _ _, Some q =>
      let z := Qfloor (q + (1 # 2)) in
      if z =? 0 then S754_zero s else ofZ z
  | _, _ => x
  end.

(** Decimal digits of a natural number. *)
Definition digits (n : N) : string := NilEmpty.string_of_uint (N.to_uint n).

Fixpoint zeros (k : nat) : string :=
  match k with
  | O => EmptyString
  | S k' => String "0"%char (zeros k')
  end.

(** The digits [toFixed(d)] writes for a magnitude [q] below 10^21: the
    integer [n] with [n / 10^d] nearest to [q] (the larger one on a tie),
    with at least one digit before the point. *)
Definition fixedDigits (q : Q) (d : nat) : string :=
  let n := Z.to_N (Qfloor (q * inject_Z (10 ^ Z.of_nat d) + (1 # 2))) in
  let raw := digits n in
  let padded := zeros (S d - String.length raw) +:+ raw in
  let cut := (String.length padded - d)%nat in
  let whole := substring 0 cut padded in
  let frac := substring cut d padded in
  whole +:+ (if Nat.eqb d 0 then EmptyString else "." +:+ frac).

(** Of two decimals [s * 10^p] the one nearer to [N], the one with even [s]
    on a tie. *)
Definition closer (N : Z) (a b : Z * Z) : Z * Z :=
  let da := Z.abs (fst a * 10 ^ snd a - N) in
  let db := Z.abs (fst b * 10 ^ snd b - N) in
  if da <? db then a
  else if db <? da then b
  else if Z.even (fst a) then a else b.

(** The decimals [s * 10^p] with [k] digits [s] that convert to [x]. *)
Definition candidatesAt (x : number) (N : Z) (k p : Z) : list (Z * Z) :=
  List.filter
    (fun c => (10 ^ (k - 1) <=? fst c) && (fst c <? 10 ^ k)
              && SFeqb (ofZ (fst c * 10 ^ p)) x)
    [(N / 10 ^ p, p); (N / 10 ^ p + 1, p)].

(** The shortest decimal that converts to [x], the integer [N] of [D]
    decimal digits: at most 17 digits are needed. *)
Fixpoint shortestFrom (fuel : nat) (x : number) (N D k : Z) : Z * Z :=
  match fuel with
  | O => (N, 0)
  | S fuel' =>
      match candidatesAt x N k (D - k) ++ candidatesAt x N k (D + 1 - k) with
      | [] => shortestFrom fuel' x N D (k + 1)
      | c :: rest => foldl (closer N) c rest
      end
  end.

(** [Number::toString] of a number [x] of magnitude 10^21 or more, the
    integer [N]: its shortest decimal in exponent notation, "d.ddde+n". *)
Definition toStringLarge (x : number) (N : Z) : string :=
  let D := Z.of_nat (String.length (digits (Z.to_N N))) in
  let '(s, p) := shortestFrom 17 x N D 1 in
  let ds := digits (Z.to_N s) in
  let n := Z.of_nat (String.length ds) + p in
  match ds with
  | EmptyString => EmptyString
  | String c rest =>
      String c (if bool_decide (rest = EmptyString) then EmptyString
                else "." +:+ rest)
        +:+ "e+" +:+ digits (Z.to_N (n - 1))
  end.

Definition tenTo21 : Q := inject_Z (10 ^ 21).

(** [Number.prototype.toFixed(d)]. *)
Definition toFixed (x : number) (d : nat) : string :=
  match x with
  | S754_nan => "NaN"
  | S754_infinity s => if s then "-Infinity" else "Infinity"
  | S754_zero _ | S754_finite _ _ _ =>
      let q := default 0%Q (toQ x) in
      (if Qltb q 0 then "-" else EmptyString)
        +:+ (if Qle_bool tenTo21 (Qabs q)
             then toStringLarge (abs x) (Qfloor (Qabs q))
             else fixedDigits (Qabs q) d)
  end.

(** [parseFloat(x.toFixed(d))]: the decimal [toFixed] writes, read back as
    the nearest number.  The texts "NaN", "Infinity" and the shortest
    decimal of a large number read back as [x] itself. *)
Definition parseFloatToFixed (x : number) (d : nat) : number :=
  match toQ x with
  | None => x
  | Some q =>
      if Qle_bool tenTo21 (Qabs q) then x
      else
        let n := Qfloor (Qabs q * inject_Z (10 ^ Z.of_nat d) + (1 # 2)) in
        let magnitude := ofRatio n (Z.to_pos (10 ^ Z.of_nat d)) in
        if Qltb q 0 then SFopp magnitude else magnitude
  end.

(** ASCII [String.prototype.toLowerCase]. *)
Definition lowerChar (c : ascii) : ascii :=
  let n := nat_of_ascii c in
  if (Nat.leb 65 n && Nat.leb n 90)%bool then ascii_of_nat (n + 32) else c.

Fixpoint toLowerCase (s : string) : string :=
  match s with
  | EmptyString => EmptyString
  | String c rest => String (lowerChar c) (toLowerCase rest)
  end.

(** [s.replace(' ', '.')]: only the first space is replaced. *)
Fixpoint replaceFirstSpace (s : string) : string :=
  match s with
  | EmptyString => EmptyString
  | String c rest =>
      if Ascii.eqb c " "%char then String "."%char rest
      else String c (replaceFirstSpace rest)
  end.

(** [s.charCodeAt(0)]: [None] stands for the [NaN] of an empty string. *)
Definition charCodeAt0 (s : string) : option nat :=
  match s with
  | EmptyString => None
  | String c _ => Some (nat_of_ascii c)
  end.

End JS.
(** ** The data model ([types.ts], [services/alphaVantage.ts]) *)

Inductive Severity : Type := Critical | High | Medium | Low.

Inductive Status : Type := New | InReview | Escalated | Dismissed | Resolved.

#[global] Instance Severity_eq_dec : EqDecision Severity.
Proof. solve_decision. Defined.

#[global] Instance Status_eq_dec : EqDecision Status.
Proof. solve_decision. Defined.

Module Trader.
Record t : Type := mk {
  id : string;
  name : string;
  email : string;
  firm : string;
  registrationDate : Z;
}.
End Trader.

Module TimelineEvent.
Record t : Type := mk {
  id : string;
  timestamp : Z;
  action : string;
  user : string;
  notes : option string;
}.
End TimelineEvent.

Module ComplianceAlert.
Record t : Type := mk {
  id : string;
  type : string;
  severity : Severity;
  status : Status;
  trader : Trader.t;
  timestamp : Z;
  description : string;
  detectedBy : string;
  investigationNotes : string;
  timeline : list TimelineEvent.t;
}.
End ComplianceAlert.

Module StockData.
Record t : Type := mk {
  symbol : string;
  price : JS.number;
  volume : JS.number;
  change : JS.number;
  changePercent : JS.number;
  timestamp : Z;
  previousClose : option JS.number;
  averageVolume : option JS.number;
}.
End StockData.

(** One element of the interval history; its time stamp is the provider's
    own key and is never read. *)
Module IntradayPoint.
Record t : Type := mk {
  price : JS.number;
  volume : JS.number;
  timestamp : string;
}.
End IntradayPoint.

Module AlertGenerationContext.
Record t : Type := mk {
  currentData : StockData.t;
  previousData : option StockData.t;
  intradayData : option (list IntradayPoint.t);
  averageVolume : option JS.number;
}.
End AlertGenerationContext.

(** ** The host environment and the effects of the engine *)

(** What the engine reads from its host: the local hour of [new Date()] taken
    at the start of a call, the successive values of [Date.now()], the
    instant of local midnight, 1 January 2020 ([new Date(2020, 0, 1)], which
    depends on the time zone), and the text [toLocaleString()] writes for a
    number in the default locale of the host. *)
Record Env : Type := mkEnv {
  getHours : Z;
  dateNow : nat -> N;
  localNewYear2020 : Z;
  toLocaleString : JS.number -> string;
}.

Inductive Error : Type :=
| TypeError (message : string).

Inductive Completion (A : Type) : Type :=
| Normal (a : A)
| Throw (e : Error).

Arguments Normal {A} a.
Arguments Throw {A} e.

(** A computation started after [k] reads of [Date.now()] either completes
    with a value and the new number of reads, or throws. *)
Definition Eff (A : Type) : Type := nat -> Completion (A * nat).

#[global] Instance Eff_ret : MRet Eff :=
  fun A (a : A) k => Normal (a, k).

#[global] Instance Eff_bind : MBind Eff :=
  fun A B (f : A -> Eff B) (m : Eff A) k =>
    match m k with
    | Normal (a, k') => f a k'
    | Throw e => Throw e
    end.

Definition throw {A : Type} (e : Error) : Eff A := fun _ => Throw e.

Definition readDateNow (env : Env) : Eff N :=
  fun k => Normal (dateNow env k, S k).

(** ** The alert rule engine ([services/alertGenerator.ts]) *)

Section AlertGenerator.

Variable env : Env.

Definition alertTypes : list string :=
  [ "Market Manipulation"; "Wash Trading"; "Spoofing"; "Insider Trading";
    "Position Limit Breach" ]%string.

Definition traderNames : list string :=
  [ "James Mitchell"; "Sarah Chen"; "Michael Rodriguez"; "Emily Johnson";
    "David Kim"; "Lisa Anderson"; "Robert Taylor"; "Jennifer Martinez"
  ]%string.

(** [traderNames[symbol.charCodeAt(0) % traderNames.length]]; [None] is the
    [undefined] read at index [NaN]. *)
Definition traderNameOf (symbol : string) : option string :=
  traderIndex ← (fun c => c mod length traderNames)%nat <$> JS.charCodeAt0 symbol;
  traderNames !! traderIndex.

Definition createAlert (type : string) (severity : Severity)
    (stockData : StockData.t) (description : string)
    (_context : AlertGenerationContext.t) : Eff ComplianceAlert.t :=
  let alertType :=
    if bool_decide (type ∈ alertTypes) then type
    else "Market Manipulation"%string in
  idNow ← readDateNow env;
  match traderNameOf (StockData.symbol stockData) with
  | None =>
      throw (TypeError "Cannot read properties of undefined (reading 'toLowerCase')")
  | Some traderName =>
      eventNow ← readDateNow env;
      mret {|
        ComplianceAlert.id :=
          "ALT" +:+ JS.digits idNow +:+ "-" +:+ StockData.symbol stockData;
        ComplianceAlert.type := alertType;
        ComplianceAlert.severity := severity;
        ComplianceAlert.status := New;
        ComplianceAlert.trader := {|
          Trader.id := "TRD" +:+ StockData.symbol stockData;
          Trader.name := traderName;
          Trader.email :=
            JS.replaceFirstSpace (JS.toLowerCase traderName) +:+ "@trading.com";
          Trader.firm := "Market Participant";
          Trader.registrationDate := localNewYear2020 env;
        |};
        ComplianceAlert.timestamp := StockData.timestamp stockData;
        ComplianceAlert.description :=
          StockData.symbol stockData +:+ ": " +:+ description;
        ComplianceAlert.detectedBy := "Real-Time Market Monitoring System";
        ComplianceAlert.investigationNotes := EmptyString;
        ComplianceAlert.timeline := [
          {|
            TimelineEvent.id := "timeline-" +:+ JS.digits eventNow;
            TimelineEvent.timestamp := StockData.timestamp stockData;
            TimelineEvent.action := "Alert Created";
            TimelineEvent.user := "Automated System";
            TimelineEvent.notes :=
              Some ("Detected from live market data - Price: $"
                      +:+ JS.toFixed (StockData.price stockData) 2
                      +:+ ", Volume: "
                      +:+ toLocaleString env (StockData.volume stockData));
          |}
        ];
      |}
  end.

(** [volumes.reduce((sum, v) => sum + v, 0) / volumes.length], or the
    current volume when there is no history. *)
Definition averageVolumeOf (current : StockData.t)
    (intraday : list IntradayPoint.t) : JS.number :=
  let volumes := IntradayPoint.volume <$> intraday in
  if bool_decide (0 < length volumes)%nat
  then JS.div (foldl (fun sum v => JS.add sum v) (JS.ofZ 0) volumes)
         (JS.ofNat (length volumes))
  else StockData.volume current.

(** Percent change between the last two points of the history. *)
Definition priceChangePercentOf (recent previous : IntradayPoint.t)
  : JS.number :=
  JS.mul
    (JS.div (JS.sub (IntradayPoint.price recent)
               (IntradayPoint.price previous))
       (IntradayPoint.price previous))
    (JS.ofZ 100).

Definition volumeIncreaseOf (current : StockData.t)
    (averageVolume : JS.number) : JS.number :=
  JS.mul
    (JS.div (JS.sub (StockData.volume current) averageVolume) averageVolume)
    (JS.ofZ 100).

(** "Check for price spike > 5% in 15 minutes". *)
Definition checkPriceSpike (current : StockData.t)
    (intraday : list IntradayPoint.t) (context : AlertGenerationContext.t)
    (alerts : list ComplianceAlert.t) : Eff (list ComplianceAlert.t) :=
  if bool_decide (2 <= length intraday)%nat then
    match intraday !! (length intraday - 1)%nat,
          intraday !! (length intraday - 2)%nat with
    | Some recent, Some previous =>
        let priceChangePercent := priceChangePercentOf recent previous in
        if JS.gt (JS.abs priceChangePercent) (JS.ofZ 5) then
          alert ← createAlert "Market Manipulation"
                    (if JS.gt priceChangePercent (JS.ofZ 5)
                     then Critical else High)
                    current
                    ("Significant price movement detected: "
                       +:+ JS.toFixed priceChangePercent 2
                       +:+ "% change in 15 minutes")
                    context;
          mret (alerts ++ [alert])
        else mret alerts
    | _, _ => mret alerts
    end
  else mret alerts.

(** "Check for volume spike > 200% of average". *)
Definition checkVolumeSpike (current : StockData.t)
    (averageVolume : JS.number) (context : AlertGenerationContext.t)
    (alerts : list ComplianceAlert.t) : Eff (list ComplianceAlert.t) :=
  if JS.truthy averageVolume
     && JS.gt (StockData.volume current) (JS.mul averageVolume (JS.ofZ 2))
  then
    let volumeIncrease := volumeIncreaseOf current averageVolume in
    alert ← createAlert "Unusual Activity"
              (if JS.gt volumeIncrease (JS.ofZ 300) then Critical
               else if JS.gt volumeIncrease (JS.ofZ 200) then High
               else Medium)
              current
              ("Unusual trading volume detected: "
                 +:+ JS.toFixed volumeIncrease 0
                 +:+ "% above average ("
                 +:+ toLocaleString env (StockData.volume current)
                 +:+ " vs "
                 +:+ toLocaleString env (JS.round averageVolume)
                 +:+ " avg)")
              context;
    mret (alerts ++ [alert])
  else mret alerts.

(** "Check for after-hours large trades". *)
Definition checkAfterHours (current : StockData.t)
    (context : AlertGenerationContext.t)
    (alerts : list ComplianceAlert.t) : Eff (list ComplianceAlert.t) :=
  let hour := getHours env in
  let isAfterHours := (hour <? 9) || (16 <=? hour) in
  if isAfterHours && JS.gt (StockData.volume current) (JS.ofZ 1000000) then
    alert ← createAlert "Suspicious Trading Pattern" High current
              ("Large after-hours trade detected: "
                 +:+ toLocaleString env (StockData.volume current)
                 +:+ " shares traded outside market hours")
              context;
    mret (alerts ++ [alert])
  else mret alerts.

(** "Check for rapid price changes". *)
Definition checkRapidChange (current : StockData.t)
    (previous : option StockData.t) (context : AlertGenerationContext.t)
    (alerts : list ComplianceAlert.t) : Eff (list ComplianceAlert.t) :=
  if bool_decide (is_Some previous)
     && JS.gt (JS.abs (StockData.changePercent current)) (JS.ofZ 3) then
    alert ← createAlert "Market Manipulation"
              (if JS.gt (JS.abs (StockData.changePercent current)) (JS.ofZ 5)
               then Critical else High)
              current
              ("Rapid price change: "
                 +:+ (if JS.gt (StockData.changePercent current) (JS.ofZ 0)
                      then "+" else EmptyString)
                 +:+ JS.toFixed (StockData.changePercent current) 2
                 +:+ "%")
              context;
    mret (alerts ++ [alert])
  else mret alerts.

(** The body of [stockData.forEach]: the four checks in order, each one
    pushing onto [alerts]. *)
Definition forSnapshot (previousData : gmap string StockData.t)
    (intradayDataMap : gmap string (list IntradayPoint.t))
    (current : StockData.t)
    (alerts : list ComplianceAlert.t) : Eff (list ComplianceAlert.t) :=
  let previous := previousData !! StockData.symbol current in
  let intraday := default [] (intradayDataMap !! StockData.symbol current) in
  let averageVolume := averageVolumeOf current intraday in
  let context := {|
    AlertGenerationContext.currentData := current;
    AlertGenerationContext.previousData := previous;
    AlertGenerationContext.intradayData := Some intraday;
    AlertGenerationContext.averageVolume := Some averageVolume;
  |} in
  alerts ← checkPriceSpike current intraday context alerts;
  alerts ← checkVolumeSpike current averageVolume context alerts;
  alerts ← checkAfterHours current context alerts;
  checkRapidChange current previous context alerts.

Fixpoint forEach (previousData : gmap string StockData.t)
    (intradayDataMap : gmap string (list IntradayPoint.t))
    (stockData : list StockData.t)
    (alerts : list ComplianceAlert.t) : Eff (list ComplianceAlert.t) :=
  match stockData with
  | [] => mret alerts
  | current :: rest =>
      alerts ← forSnapshot previousData intradayDataMap current alerts;
      forEach previousData intradayDataMap rest alerts
  end.

Definition generateAlertsFromStockData (stockData : list StockData.t)
    (previousData : gmap string StockData.t)
    (intradayDataMap : gmap string (list IntradayPoint.t))
  : Eff (list ComplianceAlert.t) :=
  forEach previousData intradayDataMap stockData [].

End AlertGenerator.

(** ** The alert store ([App.tsx]) *)

Section ArraySort.

Context {A : Type}.

Variable compareFn : A -> A -> Z.

(** [Array.prototype.sort] is stable; with a comparator that orders by a
    key the result is the one stable insertion sort computes. *)
Fixpoint insertSorted (x : A) (l : list A) : list A :=
  match l with
  | [] => [x]
  | y :: rest =>
      if compareFn x y <=? 0 then x :: l else y :: insertSorted x rest
  end.

Definition arraySort (l : list A) : list A := foldr insertSorted [] l.

End ArraySort.

Module App.

(** The updater passed to [setAlerts] in [fetchRealData]: "Merge with
    existing alerts (keep old alerts, add new ones)". *)
Definition mergeAlerts (newAlerts prev : list ComplianceAlert.t)
  : list ComplianceAlert.t :=
  let existingIds : gset string :=
    list_to_set (ComplianceAlert.id <$> prev) in
  let newUniqueAlerts :=
    filter (fun a => ComplianceAlert.id a ∉ existingIds) newAlerts in
  arraySort
    (fun a b => ComplianceAlert.timestamp b - ComplianceAlert.timestamp a)
    (prev ++ newUniqueAlerts).

(** The only [Partial<ComplianceAlert>] the application ever passes. *)
Record Updates : Type := mkUpdates {
  status : Status;
  investigationNotes : string;
  timeline : list TimelineEvent.t;
}.

Definition applyUpdates (alert : ComplianceAlert.t) (updates : Updates)
  : ComplianceAlert.t :=
  {|
    ComplianceAlert.id := ComplianceAlert.id alert;
    ComplianceAlert.type := ComplianceAlert.type alert;
    ComplianceAlert.severity := ComplianceAlert.severity alert;
    ComplianceAlert.status := status updates;
    ComplianceAlert.trader := ComplianceAlert.trader alert;
    ComplianceAlert.timestamp := ComplianceAlert.timestamp alert;
    ComplianceAlert.description := ComplianceAlert.description alert;
    ComplianceAlert.detectedBy := ComplianceAlert.detectedBy alert;
    ComplianceAlert.investigationNotes := investigationNotes updates;
    ComplianceAlert.timeline := timeline updates;
  |}.

Definition handleUpdateAlert (alertId : string) (updates : Updates)
    (prev : list ComplianceAlert.t) : list ComplianceAlert.t :=
  (fun alert =>
     if bool_decide (ComplianceAlert.id alert = alertId)
     then applyUpdates alert updates else alert) <$> prev.

Definition countStatus (s : Status) (alerts : list ComplianceAlert.t) : nat :=
  length (filter (fun a => ComplianceAlert.status a = s) alerts).

Definition totalAlerts (alerts : list ComplianceAlert.t) : nat :=
  length alerts.

Definition pendingReview (alerts : list ComplianceAlert.t) : nat :=
  length (filter (fun a => ComplianceAlert.status a = New
                           ∨ ComplianceAlert.status a = InReview) alerts).


(** [new Date(s).getTime()] of a time stamp. *)
Definition getTime (timestamp : Z) : JS.number := JS.ofZ timestamp.

(** *** The metrics of [src/App.tsx] (lines 172-201) *)

Module Metrics.

Definition falsePositiveRate (alerts : list ComplianceAlert.t) : JS.number :=
  if bool_decide (0 < totalAlerts alerts)%nat then
    JS.round
      (JS.mul
         (JS.div (JS.ofNat (countStatus Dismissed alerts))
            (JS.ofNat (totalAlerts alerts)))
         (JS.ofZ 100))
  else JS.ofZ 0.

Definition investigatedAlerts (alerts : list ComplianceAlert.t)
  : list ComplianceAlert.t :=
  filter (fun a => ComplianceAlert.status a = Resolved
                   ∨ ComplianceAlert.status a = Dismissed
                   ∨ ComplianceAlert.status a = Escalated) alerts.

(** One step of the [reduce]: hours between the first and the last
    timeline event, when there are at least two. *)
Definition addHours (sum : JS.number) (alert : ComplianceAlert.t)
  : JS.number :=
  let timeline := ComplianceAlert.timeline alert in
  if bool_decide (1 < length timeline)%nat then
    match timeline !! 0%nat, timeline !! (length timeline - 1)%nat with
    | Some first, Some final =>
        let start := getTime (TimelineEvent.timestamp first) in
        let end_ := getTime (TimelineEvent.timestamp final) in
        JS.add sum
          (JS.div (JS.sub end_ start)
             (JS.mul (JS.mul (JS.ofZ 1000) (JS.ofZ 60)) (JS.ofZ 60)))
    | _, _ => sum
    end
  else sum.

Definition avgInvestigationTime (alerts : list ComplianceAlert.t)
  : JS.number :=
  let investigated := investigatedAlerts alerts in
  if bool_decide (0 < length investigated)%nat then
    JS.round (JS.div (foldl addHours (JS.ofZ 0) investigated)
                (JS.ofNat (length investigated)))
  else JS.ofZ 0.

End Metrics.

(** *** The metrics of the later revision of [App.tsx]
    ([src/unnamed/part_004], lines 180-231), the one the specification
    follows *)

Module MetricsRevised.

Definition processedAlerts (alerts : list ComplianceAlert.t)
  : list ComplianceAlert.t :=
  filter (fun a => ComplianceAlert.status a ≠ New) alerts.

Definition dismissedAlerts (alerts : list ComplianceAlert.t) : nat :=
  countStatus Dismissed alerts.

(** [None] is the [null] shown as "---%". *)
Definition falsePositiveRate (alerts : list ComplianceAlert.t)
  : option JS.number :=
  if bool_decide (0 < length (processedAlerts alerts))%nat then
    Some (JS.parseFloatToFixed
            (JS.mul
               (JS.div (JS.ofNat (dismissedAlerts alerts))
                  (JS.ofNat (length (processedAlerts alerts))))
               (JS.ofZ 100))
            1)
  else None.

Definition resolvedAlerts (alerts : list ComplianceAlert.t)
  : list ComplianceAlert.t :=
  filter (fun a => ComplianceAlert.status a = Resolved) alerts.

Definition isResolution (event : TimelineEvent.t) : Prop :=
  TimelineEvent.action event = "Resolved"%string
  ∨ TimelineEvent.action event = "Mark Resolved"%string.

#[global] Instance isResolution_dec event : Decision (isResolution event).
Proof. unfold isResolution. apply _. Defined.

(** [(eventTime - creationTime) / (1000 * 60)]. *)
Definition timeDiffMinutes (creationTime eventTime : JS.number) : JS.number :=
  JS.div (JS.sub eventTime creationTime) (JS.mul (JS.ofZ 1000) (JS.ofZ 60)).

(** One step of the [reduce]. *)
Definition addMinutes (sum : JS.number) (alert : ComplianceAlert.t)
  : JS.number :=
  let creationTime := getTime (ComplianceAlert.timestamp alert) in
  let timeline := ComplianceAlert.timeline alert in
  match list_find isResolution timeline with
  | Some (_, resolutionEvent) =>
      let resolutionTime :=
        getTime (TimelineEvent.timestamp resolutionEvent) in
      JS.add sum (timeDiffMinutes creationTime resolutionTime)
  | None =>
      if bool_decide (0 < length timeline)%nat then
        match timeline !! (length timeline - 1)%nat with
        | Some lastEvent =>
            let lastEventTime :=
              getTime (TimelineEvent.timestamp lastEvent) in
            JS.add sum (timeDiffMinutes creationTime lastEventTime)
        | None => sum
        end
      else sum
  end.

Definition avgInvestigationTime (alerts : list ComplianceAlert.t)
  : option JS.number :=
  let resolved := resolvedAlerts alerts in
  if bool_decide (0 < length resolved)%nat then
    Some (JS.round (JS.div (foldl addMinutes (JS.ofZ 0) resolved)
                      (JS.ofNat (length resolved))))
  else None.

End MetricsRevised.

End App.
(** ** The triage workflow ([components/AlertDetailModal.tsx], mounted by
    [App.tsx] on [selectedAlert]) *)

Module Workflow.

(** The four buttons of the modal. *)
Inductive Action : Type :=
| StartInvestigation
| Escalate
| Dismiss
| MarkResolved.

(** First argument of [handleAction] on each button. *)
Definition newStatusOf (a : Action) : Status :=
  match a with
  | StartInvestigation => InReview
  | Escalate => Escalated
  | Dismiss => Dismissed
  | MarkResolved => Resolved
  end.

(** Second argument of [handleAction] on each button. *)
Definition actionNameOf (a : Action) : string :=
  match a with
  | StartInvestigation => "Start Investigation"
  | Escalate => "Escalate"
  | Dismiss => "Dismiss"
  | MarkResolved => "Mark Resolved"
  end.

(** The render conditions of the buttons, on the status of the [alert]
    prop. *)
Definition offered (status : Status) (a : Action) : bool :=
  match a with
  | StartInvestigation => bool_decide (status = New)
  | Escalate =>
      bool_decide (status ≠ Escalated) && bool_decide (status ≠ Resolved)
      && bool_decide (status ≠ Dismissed)
  | Dismiss | MarkResolved =>
      bool_decide (status ≠ Resolved) && bool_decide (status ≠ Dismissed)
  end.

(** [notes || undefined]. *)
Definition notesOrUndefined (notes : string) : option string :=
  if bool_decide (notes = EmptyString) then None else Some notes.

(** What [handleAction(newStatus, actionName)] does after its simulated
    call: [alert] and [notes] are the prop and the state of the render in
    which the button was pressed, [idNow] is the value of [Date.now()] and
    [eventTime] the instant of [new Date()]. *)
Definition handleAction (alert : ComplianceAlert.t) (notes : string)
    (newStatus : Status) (actionName : string) (idNow : N) (eventTime : Z)
    (store : list ComplianceAlert.t) : list ComplianceAlert.t :=
  let timelineEvent := {|
    TimelineEvent.id :=
      ComplianceAlert.id alert +:+ "-" +:+ JS.digits idNow;
    TimelineEvent.timestamp := eventTime;
    TimelineEvent.action := actionName;
    TimelineEvent.user := "Current User";
    TimelineEvent.notes := notesOrUndefined notes;
  |} in
  App.handleUpdateAlert (ComplianceAlert.id alert)
    {|
      App.status := newStatus;
      App.investigationNotes := notes;
      App.timeline := ComplianceAlert.timeline alert ++ [timelineEvent];
    |}
    store.

(** A call of [handleAction] that is waiting for its simulated call (800
    ms): the [alert] prop and the [notes] of the render in which the button
    was pressed, the button, and the modal instance it belongs to. *)
Record Waiting : Type := mkWaiting {
  shown : ComplianceAlert.t;
  typed : string;
  pressed : Action;
  instance : nat;
}.

(** The state of the page: the store; the alert the modal was opened on
    ([selectedAlert], the modal's [alert] prop); the [notes] and [isLoading]
    of the mounted modal; the number of modals mounted so far, which tells
    the instances apart; the calls of [handleAction] that wait, oldest
    first; and the number of [onClose] calls scheduled with
    [setTimeout(onClose, 500)]. *)
Record State : Type := mkState {
  alerts : list ComplianceAlert.t;
  selectedAlert : option ComplianceAlert.t;
  notes : string;
  isLoading : bool;
  mounted : nat;
  waiting : list Waiting;
  closing : nat;
}.

Inductive Event : Type :=
| Open (row : nat)
| EditNotes (text : string)
| Press (a : Action)
| Resume (idNow : N) (eventTime : Z)
| Close
| CloseTimer.

(** One event of the page.
    - [Open]: a click on a card; the modal covers the cards, so this needs
      the modal closed.  A new modal is mounted on the stored alert.
    - [EditNotes]: typing in the modal's text area.
    - [Press]: a click on a button, which must be rendered and not disabled
      by [isLoading]; [handleAction] starts and waits.
    - [Resume]: the oldest waiting [handleAction] goes on after its 800 ms:
      it updates the store from what it captured, clears [isLoading] of its
      modal if that is still the mounted one, and after "Dismiss" or "Mark
      Resolved" schedules [onClose] half a second later.  The modal stays
      open, on the same [selectedAlert], until then.
    - [Close]: a click on the cross or beside the modal.
    - [CloseTimer]: a scheduled [onClose] runs and closes whatever modal is
      open. *)
Definition step (st : State) (ev : Event) : State :=
  match ev with
  | Open row =>
      match selectedAlert st, alerts st !! row with
      | None, Some alert =>
          {| alerts := alerts st;
             selectedAlert := Some alert;
             notes := ComplianceAlert.investigationNotes alert;
             isLoading := false;
             mounted := S (mounted st);
             waiting := waiting st;
             closing := closing st |}
      | _, _ => st
      end
  | EditNotes text =>
      match selectedAlert st with
      | Some _ =>
          {| alerts := alerts st;
             selectedAlert := selectedAlert st;
             notes := text;
             isLoading := isLoading st;
             mounted := mounted st;
             waiting := waiting st;
             closing := closing st |}
      | None => st
      end
  | Press a =>
      match selectedAlert st with
      | Some alert =>
          if offered (ComplianceAlert.status alert) a
             && negb (isLoading st) then
            {| alerts := alerts st;
               selectedAlert := selectedAlert st;
               notes := notes st;
               isLoading := true;
               mounted := mounted st;
               waiting :=
                 waiting st
                   ++ [ {| shown := alert;
                           typed := notes st;
                           pressed := a;
                           instance := mounted st |} ];
               closing := closing st |}
          else st
      | None => st
      end
  | Resume idNow eventTime =>
      match waiting st with
      | call :: rest =>
          let newStatus := newStatusOf (pressed call) in
          {| alerts :=
               handleAction (shown call) (typed call) newStatus
                 (actionNameOf (pressed call)) idNow eventTime (alerts st);
             selectedAlert := selectedAlert st;
             notes := notes st;
             isLoading :=
               if bool_decide (instance call = mounted st) then false
               else isLoading st;
             mounted := mounted st;
             waiting := rest;
             closing :=
               if bool_decide (newStatus = Resolved ∨ newStatus = Dismissed)
               then S (closing st) else closing st |}
      | [] => st
      end
  | Close =>
      {| alerts := alerts st;
         selectedAlert := None;
         notes := notes st;
         isLoading := isLoading st;
         mounted := mounted st;
         waiting := waiting st;
         closing := closing st |}
  | CloseTimer =>
      match closing st with
      | S timers =>
          {| alerts := alerts st;
             selectedAlert := None;
             notes := notes st;
             isLoading := isLoading st;
             mounted := mounted st;
             waiting := waiting st;
             closing := timers |}
      | O => st
      end
  end.

Definition run (st : State) (evs : list Event) : State := foldl step st evs.

End Workflow.
(** * Properties *)

(** ** Completions *)

Lemma Eff_bind_Normal {A B : Type} (m : Eff A) (f : A -> Eff B) k a k' :
  m k = Normal (a, k') -> (m ≫= f) k = f a k'.
Proof. intros Hm. unfold mbind, Eff_bind. now rewrite Hm. Qed.

Lemma Eff_bind_Throw {A B : Type} (m : Eff A) (f : A -> Eff B) k e :
  m k = Throw e -> (m ≫= f) k = Throw e.
Proof. intros Hm. unfold mbind, Eff_bind. now rewrite Hm. Qed.

Lemma Eff_bind_inv {A B : Type} (m : Eff A) (f : A -> Eff B) k r :
  (m ≫= f) k = Normal r ->
  exists a k', m k = Normal (a, k') /\ f a k' = Normal r.
Proof.
  unfold mbind, Eff_bind. destruct (m k) as [[a k'] | e]; [| discriminate].
  intros Hf. now exists a, k'.
Qed.

Lemma Eff_ret_Normal {A : Type} (a : A) k : (mret a : Eff A) k = Normal (a, k).
Proof. reflexivity. Qed.

(** ** What [createAlert] returns *)

Section CreateAlert.

Variable env : Env.

(** The alert [createAlert] returns when it is entered after [k] reads of
    the clock, for a symbol that has a first character. *)
Definition builtAlert (type : string) (severity : Severity)
    (stockData : StockData.t) (description : string) (k : nat)
  : ComplianceAlert.t :=
  let traderName := default EmptyString
                      (traderNameOf (StockData.symbol stockData)) in
  {|
    ComplianceAlert.id :=
      "ALT" +:+ JS.digits (dateNow env k) +:+ "-"
        +:+ StockData.symbol stockData;
    ComplianceAlert.type :=
      if bool_decide (type ∈ alertTypes) then type
      else "Market Manipulation"%string;
    ComplianceAlert.severity := severity;
    ComplianceAlert.status := New;
    ComplianceAlert.trader := {|
      Trader.id := "TRD" +:+ StockData.symbol stockData;
      Trader.name := traderName;
      Trader.email :=
        JS.replaceFirstSpace (JS.toLowerCase traderName) +:+ "@trading.com";
      Trader.firm := "Market Participant";
      Trader.registrationDate := localNewYear2020 env;
    |};
    ComplianceAlert.timestamp := StockData.timestamp stockData;
    ComplianceAlert.description :=
      StockData.symbol stockData +:+ ": " +:+ description;
    ComplianceAlert.detectedBy := "Real-Time Market Monitoring System";
    ComplianceAlert.investigationNotes := EmptyString;
    ComplianceAlert.timeline := [
      {|
        TimelineEvent.id := "timeline-" +:+ JS.digits (dateNow env (S k));
        TimelineEvent.timestamp := StockData.timestamp stockData;
        TimelineEvent.action := "Alert Created";
        TimelineEvent.user := "Automated System";
        TimelineEvent.notes :=
          Some ("Detected from live market data - Price: $"
                  +:+ JS.toFixed (StockData.price stockData) 2
                  +:+ ", Volume: "
                  +:+ toLocaleString env (StockData.volume stockData));
      |}
    ];
  |}.

Lemma traderNameOf_nonempty symbol :
  symbol <> EmptyString -> is_Some (traderNameOf symbol).
Proof.
  destruct symbol as [| c rest]; [congruence |]. intros _.
  change (is_Some (traderNames !! (nat_of_ascii c mod length traderNames)%nat)).
  apply lookup_lt_is_Some. apply Nat.mod_upper_bound. discriminate.
Qed.

Lemma traderNameOf_empty : traderNameOf EmptyString = None.
Proof. reflexivity. Qed.

Lemma createAlert_Normal type severity stockData description context k :
  StockData.symbol stockData <> EmptyString ->
  createAlert env type severity stockData description context k
  = Normal (builtAlert type severity stockData description k, S (S k)).
Proof.
  intros Hsym. destruct (traderNameOf_nonempty _ Hsym) as [name Hname].
  unfold createAlert, builtAlert, mbind, Eff_bind, readDateNow.
  rewrite Hname. reflexivity.
Qed.

Lemma createAlert_Throw type severity stockData description context k :
  StockData.symbol stockData = EmptyString ->
  createAlert env type severity stockData description context k
  = Throw (TypeError
             "Cannot read properties of undefined (reading 'toLowerCase')").
Proof.
  intros Hsym. unfold createAlert, mbind, Eff_bind, readDateNow.
  rewrite Hsym, traderNameOf_empty. reflexivity.
Qed.

Lemma createAlert_inv type severity stockData description context k a k' :
  createAlert env type severity stockData description context k
  = Normal (a, k') ->
  StockData.symbol stockData <> EmptyString
  /\ a = builtAlert type severity stockData description k
  /\ k' = S (S k).
Proof.
  intros Hrun.
  destruct (decide (StockData.symbol stockData = EmptyString)) as [He | Hne].
  - rewrite createAlert_Throw in Hrun by assumption. discriminate.
  - rewrite createAlert_Normal in Hrun by assumption.
    inversion Hrun. auto.
Qed.

End CreateAlert.

(** ** The four checks *)

Inductive Rule : Type := PriceSpike | VolumeSpike | AfterHours | RapidChange.

#[global] Instance Rule_eq_dec : EqDecision Rule.
Proof. solve_decision. Defined.

(** The category each check passes to [createAlert]. *)
Definition ruleCategory (r : Rule) : string :=
  match r with
  | PriceSpike | RapidChange => "Market Manipulation"
  | VolumeSpike => "Unusual Activity"
  | AfterHours => "Suspicious Trading Pattern"
  end.

(** The fixed head of the description each check writes. *)
Definition ruleHead (r : Rule) : string :=
  match r with
  | PriceSpike => "Significant price movement detected: "
  | VolumeSpike => "Unusual trading volume detected: "
  | AfterHours => "Large after-hours trade detected: "
  | RapidChange => "Rapid price change: "
  end.

(** An alert of [current] is recognised as raised by rule [r] from its
    description, "<symbol>: <head of r>...". *)
Definition raisedBy (r : Rule) (current : StockData.t)
    (a : ComplianceAlert.t) : bool :=
  String.prefix (StockData.symbol current +:+ ": " +:+ ruleHead r)
    (ComplianceAlert.description a).

Lemma prefix_append_same s a b :
  String.prefix (s +:+ a) (s +:+ b) = String.prefix a b.
Proof.
  induction s as [| c s IH]; simpl; [reflexivity |].
  destruct (ascii_dec c c); [apply IH | congruence].
Qed.

Section Rules.

Variable env : Env.

(** The alert rule [r] raises for [current], with the variable part
    [detail] of its description. *)
Definition raise (r : Rule) (severity : Severity) (current : StockData.t)
    (detail : string) (k : nat) : ComplianceAlert.t :=
  builtAlert env (ruleCategory r) severity current (ruleHead r +:+ detail) k.

Lemma raisedBy_raise r r' severity current detail k :
  raisedBy r' current (raise r severity current detail k)
  = bool_decide (r = r').
Proof.
  unfold raisedBy, raise, builtAlert. cbn [ComplianceAlert.description].
  rewrite prefix_append_same.
  destruct detail, r, r'; reflexivity.
Qed.

Definition priceSpikeSeverity (change : JS.number) : Severity :=
  if JS.gt change (JS.ofZ 5) then Critical else High.

Definition priceSpikeDetail (change : JS.number) : string :=
  JS.toFixed change 2 +:+ "% change in 15 minutes".

(** The percent change the price-spike check looks at: defined when the
    history has at least two points. *)
Definition historyChange (intraday : list IntradayPoint.t)
  : option JS.number :=
  if bool_decide (2 <= length intraday)%nat then
    match intraday !! (length intraday - 1)%nat,
          intraday !! (length intraday - 2)%nat with
    | Some recent, Some previous =>
        Some (priceChangePercentOf recent previous)
    | _, _ => None
    end
  else None.

Lemma historyChange_last_two older previous recent :
  historyChange (older ++ [previous; recent])
  = Some (priceChangePercentOf recent previous).
Proof.
  unfold historyChange.
  assert (Hlen : length (older ++ [previous; recent])
                 = (length older + 2)%nat).
  { rewrite length_app. reflexivity. }
  rewrite Hlen. rewrite bool_decide_eq_true_2 by lia.
  replace (length older + 2 - 1)%nat with (length older + 1)%nat by lia.
  replace (length older + 2 - 2)%nat with (length older + 0)%nat by lia.
  rewrite !lookup_app_r by lia.
  replace (length older + 1 - length older)%nat with 1%nat by lia.
  replace (length older + 0 - length older)%nat with 0%nat by lia.
  reflexivity.
Qed.

Lemma historyChange_short intraday :
  (length intraday < 2)%nat -> historyChange intraday = None.
Proof.
  intros Hlen. unfold historyChange.
  now rewrite bool_decide_eq_false_2 by lia.
Qed.

Definition priceSpikeFires (intraday : list IntradayPoint.t) : bool :=
  match historyChange intraday with
  | Some change => JS.gt (JS.abs change) (JS.ofZ 5)
  | None => false
  end.

Definition priceSpikeAlert (current : StockData.t)
    (intraday : list IntradayPoint.t) (k : nat) : ComplianceAlert.t :=
  let change := default S754_nan (historyChange intraday) in
  raise PriceSpike (priceSpikeSeverity change) current
    (priceSpikeDetail change) k.

(** What a check leaves behind: one more alert and two more reads of the
    clock when it fires, nothing otherwise. *)
Definition pushed (fires : bool) (a : ComplianceAlert.t)
    (alerts : list ComplianceAlert.t) (k : nat)
  : Completion (list ComplianceAlert.t * nat) :=
  if fires then Normal (alerts ++ [a], S (S k)) else Normal (alerts, k).

Lemma checkPriceSpike_spec current intraday context alerts k :
  StockData.symbol current <> EmptyString ->
  checkPriceSpike env current intraday context alerts k
  = pushed (priceSpikeFires intraday) (priceSpikeAlert current intraday k)
      alerts k.
Proof.
  intros Hsym.
  unfold checkPriceSpike, priceSpikeFires, priceSpikeAlert, historyChange,
    pushed.
  destruct (bool_decide (2 <= length intraday)%nat); [| reflexivity].
  destruct (intraday !! (length intraday - 1)%nat) as [recent |];
    [| reflexivity].
  destruct (intraday !! (length intraday - 2)%nat) as [previous |];
    [| reflexivity].
  cbn [default].
  destruct (JS.gt (JS.abs (priceChangePercentOf recent previous)) (JS.ofZ 5));
    [| reflexivity].
  erewrite Eff_bind_Normal; [| apply createAlert_Normal; assumption].
  reflexivity.
Qed.

Definition volumeSpikeFires (current : StockData.t)
    (averageVolume : JS.number) : bool :=
  JS.truthy averageVolume
  && JS.gt (StockData.volume current) (JS.mul averageVolume (JS.ofZ 2)).

Definition volumeSpikeSeverity (volumeIncrease : JS.number) : Severity :=
  if JS.gt volumeIncrease (JS.ofZ 300) then Critical
  else if JS.gt volumeIncrease (JS.ofZ 200) then High else Medium.

Definition volumeSpikeDetail (current : StockData.t)
    (averageVolume : JS.number) : string :=
  JS.toFixed (volumeIncreaseOf current averageVolume) 0
    +:+ "% above average ("
    +:+ toLocaleString env (StockData.volume current)
    +:+ " vs "
    +:+ toLocaleString env (JS.round averageVolume)
    +:+ " avg)".

Definition volumeSpikeAlert (current : StockData.t)
    (averageVolume : JS.number) (k : nat) : ComplianceAlert.t :=
  raise VolumeSpike
    (volumeSpikeSeverity (volumeIncreaseOf current averageVolume))
    current (volumeSpikeDetail current averageVolume) k.

Lemma checkVolumeSpike_spec current averageVolume context alerts k :
  StockData.symbol current <> EmptyString ->
  checkVolumeSpike env current averageVolume context alerts k
  = pushed (volumeSpikeFires current averageVolume)
      (volumeSpikeAlert current averageVolume k) alerts k.
Proof.
  intros Hsym.
  unfold checkVolumeSpike, volumeSpikeFires, volumeSpikeAlert, pushed.
  destruct (JS.truthy averageVolume && _); [| reflexivity].
  erewrite Eff_bind_Normal; [| apply createAlert_Normal; assumption].
  reflexivity.
Qed.

Definition afterHoursFires (current : StockData.t) : bool :=
  ((getHours env <? 9) || (16 <=? getHours env))
  && JS.gt (StockData.volume current) (JS.ofZ 1000000).

Definition afterHoursDetail (current : StockData.t) : string :=
  toLocaleString env (StockData.volume current)
    +:+ " shares traded outside market hours".

Definition afterHoursAlert (current : StockData.t) (k : nat)
  : ComplianceAlert.t :=
  raise AfterHours High current (afterHoursDetail current) k.

Lemma checkAfterHours_spec current context alerts k :
  StockData.symbol current <> EmptyString ->
  checkAfterHours env current context alerts k
  = pushed (afterHoursFires current) (afterHoursAlert current k) alerts k.
Proof.
  intros Hsym.
  unfold checkAfterHours, afterHoursFires, afterHoursAlert, pushed.
  destruct ((_ || _) && _); [| reflexivity].
  erewrite Eff_bind_Normal; [| apply createAlert_Normal; assumption].
  reflexivity.
Qed.

Definition rapidChangeFires (current : StockData.t)
    (previous : option StockData.t) : bool :=
  bool_decide (is_Some previous)
  && JS.gt (JS.abs (StockData.changePercent current)) (JS.ofZ 3).

Definition rapidChangeSeverity (current : StockData.t) : Severity :=
  if JS.gt (JS.abs (StockData.changePercent current)) (JS.ofZ 5)
  then Critical else High.

Definition rapidChangeDetail (current : StockData.t) : string :=
  (if JS.gt (StockData.changePercent current) (JS.ofZ 0)
   then "+" else EmptyString)
    +:+ JS.toFixed (StockData.changePercent current) 2 +:+ "%".

Definition rapidChangeAlert (current : StockData.t) (k : nat)
  : ComplianceAlert.t :=
  raise RapidChange (rapidChangeSeverity current) current
    (rapidChangeDetail current) k.

Lemma checkRapidChange_spec current previous context alerts k :
  StockData.symbol current <> EmptyString ->
  checkRapidChange env current previous context alerts k
  = pushed (rapidChangeFires current previous)
      (rapidChangeAlert current k) alerts k.
Proof.
  intros Hsym.
  unfold checkRapidChange, rapidChangeFires, rapidChangeAlert, pushed.
  destruct (bool_decide _ && _); [| reflexivity].
  erewrite Eff_bind_Normal; [| apply createAlert_Normal; assumption].
  reflexivity.
Qed.

(** *** One snapshot *)

Definition emit (fires : bool) (a : ComplianceAlert.t)
  : list ComplianceAlert.t :=
  if fires then [a] else [].

Definition reads (fires : bool) : nat := if fires then 2 else 0.

Lemma pushed_emit fires a alerts k :
  pushed fires a alerts k = Normal (alerts ++ emit fires a, (k + reads fires)%nat).
Proof.
  destruct fires; simpl.
  - do 2 f_equal. lia.
  - rewrite app_nil_r. do 2 f_equal. lia.
Qed.

Section Snapshot.

Variable previousData : gmap string StockData.t.
Variable intradayDataMap : gmap string (list IntradayPoint.t).
Variable current : StockData.t.

Definition previousOf : option StockData.t :=
  previousData !! StockData.symbol current.

Definition intradayOf : list IntradayPoint.t :=
  default [] (intradayDataMap !! StockData.symbol current).

Definition baselineOf : JS.number := averageVolumeOf current intradayOf.

(** The alerts one pass of the loop body pushes, entered after [k] reads
    of the clock. *)
Definition emittedFor (k : nat) : list ComplianceAlert.t :=
  let f1 := priceSpikeFires intradayOf in
  let f2 := volumeSpikeFires current baselineOf in
  let f3 := afterHoursFires current in
  let f4 := rapidChangeFires current previousOf in
  emit f1 (priceSpikeAlert current intradayOf k)
  ++ emit f2 (volumeSpikeAlert current baselineOf (k + reads f1))
  ++ emit f3 (afterHoursAlert current (k + reads f1 + reads f2))
  ++ emit f4 (rapidChangeAlert current
                (k + reads f1 + reads f2 + reads f3)).

Lemma forSnapshot_spec alerts k :
  StockData.symbol current <> EmptyString ->
  forSnapshot env previousData intradayDataMap current alerts k
  = Normal (alerts ++ emittedFor k,
            (k + 2 * length (emittedFor k))%nat).
Proof.
  intros Hsym. unfold forSnapshot.
  fold previousOf intradayOf. fold baselineOf.
  erewrite Eff_bind_Normal;
    [| rewrite checkPriceSpike_spec by assumption; apply pushed_emit].
  erewrite Eff_bind_Normal;
    [| rewrite checkVolumeSpike_spec by assumption; apply pushed_emit].
  erewrite Eff_bind_Normal;
    [| rewrite checkAfterHours_spec by assumption; apply pushed_emit].
  rewrite checkRapidChange_spec by assumption. rewrite pushed_emit.
  unfold emittedFor. rewrite <- !app_assoc.
  do 2 f_equal. rewrite !length_app.
  destruct (priceSpikeFires intradayOf),
    (volumeSpikeFires current baselineOf), (afterHoursFires current),
    (rapidChangeFires current previousOf); simpl; lia.
Qed.

(** How many of the pushed alerts rule [r] raised. *)
Lemma emittedFor_count r k :
  length (filter (raisedBy r current) (emittedFor k))
  = match r with
    | PriceSpike => if priceSpikeFires intradayOf then 1%nat else 0%nat
    | VolumeSpike =>
        if volumeSpikeFires current baselineOf then 1%nat else 0%nat
    | AfterHours => if afterHoursFires current then 1%nat else 0%nat
    | RapidChange =>
        if rapidChangeFires current previousOf then 1%nat else 0%nat
    end.
Proof.
  unfold emittedFor, priceSpikeAlert, volumeSpikeAlert, afterHoursAlert,
    rapidChangeAlert.
  rewrite !filter_app, !length_app.
  destruct (priceSpikeFires intradayOf),
    (volumeSpikeFires current baselineOf), (afterHoursFires current),
    (rapidChangeFires current previousOf); cbn [emit];
    rewrite ?filter_cons, ?filter_nil, ?raisedBy_raise;
    destruct r; reflexivity.
Qed.

(** Each pushed alert is the one of the rule that raised it. *)
Lemma emittedFor_raisedBy r k a :
  a ∈ emittedFor k -> raisedBy r current a ->
  exists j,
    a = match r with
        | PriceSpike => priceSpikeAlert current intradayOf j
        | VolumeSpike => volumeSpikeAlert current baselineOf j
        | AfterHours => afterHoursAlert current j
        | RapidChange => rapidChangeAlert current j
        end.
Proof.
  unfold emittedFor, emit. intros Hin Hr.
  repeat (apply elem_of_app in Hin as [Hin | Hin]);
    match type of Hin with
    | _ ∈ (if ?c then _ else _) => destruct c
    end;
    try (apply elem_of_nil in Hin; contradiction);
    apply list_elem_of_singleton in Hin; subst a;
    unfold priceSpikeAlert, volumeSpikeAlert, afterHoursAlert,
      rapidChangeAlert in Hr;
    rewrite raisedBy_raise in Hr; apply bool_decide_unpack in Hr;
    subst r; eauto.
Qed.

End Snapshot.

End Rules.

(** ** The engine on a whole refresh cycle *)

Section Engine.

Variable env : Env.
Variable previousData : gmap string StockData.t.
Variable intradayDataMap : gmap string (list IntradayPoint.t).

(** The alerts of a cycle: the blocks of the snapshots, in order. *)
Fixpoint emittedAll (stockData : list StockData.t) (k : nat)
  : list ComplianceAlert.t :=
  match stockData with
  | [] => []
  | current :: rest =>
      let block := emittedFor env previousData intradayDataMap current k in
      block ++ emittedAll rest (k + 2 * length block)
  end.

Lemma forEach_spec stockData alerts k :
  Forall (fun s => StockData.symbol s <> EmptyString) stockData ->
  forEach env previousData intradayDataMap stockData alerts k
  = Normal (alerts ++ emittedAll stockData k,
            (k + 2 * length (emittedAll stockData k))%nat).
Proof.
  intros Hsym. revert alerts k.
  induction Hsym as [| current rest Hcur _ IH]; intros alerts k.
  - simpl. rewrite app_nil_r. rewrite Eff_ret_Normal.
    do 2 f_equal. lia.
  - cbn [forEach emittedAll].
    erewrite Eff_bind_Normal; [| apply forSnapshot_spec; assumption].
    rewrite IH. rewrite <- app_assoc. do 2 f_equal.
    rewrite length_app. lia.
Qed.

Lemma emittedAll_app before after k :
  emittedAll (before ++ after) k
  = emittedAll before k
      ++ emittedAll after (k + 2 * length (emittedAll before k)).
Proof.
  revert k. induction before as [| current rest IH]; intros k.
  - simpl. f_equal. lia.
  - cbn [app emittedAll]. rewrite IH, <- app_assoc. do 3 f_equal.
    rewrite length_app. lia.
Qed.

(** The alerts of a cycle are, snapshot by snapshot, the blocks of the loop
    body. *)
Lemma emittedAll_snapshot before current after k :
  exists j,
    emittedAll (before ++ current :: after) k
    = emittedAll before k
        ++ emittedFor env previousData intradayDataMap current j
        ++ emittedAll after
             (j + 2 * length (emittedFor env previousData intradayDataMap
                                current j)).
Proof.
  exists (k + 2 * length (emittedAll before k))%nat.
  now rewrite emittedAll_app.
Qed.

(** The engine returns normally on every cycle whose snapshots all carry a
    symbol with a first character. *)
Lemma generateAlertsFromStockData_Normal stockData k :
  Forall (fun s => StockData.symbol s <> EmptyString) stockData ->
  generateAlertsFromStockData env stockData previousData intradayDataMap k
  = Normal (emittedAll stockData k,
            (k + 2 * length (emittedAll stockData k))%nat).
Proof.
  intros Hsym. unfold generateAlertsFromStockData.
  now rewrite forEach_spec.
Qed.

End Engine.

(** ** Snapshots with the empty symbol *)

Section EmptySymbol.

Variable env : Env.

Definition undefinedName : Error :=
  TypeError "Cannot read properties of undefined (reading 'toLowerCase')".

(** What a check does for a snapshot with the empty symbol: it throws as
    soon as it fires. *)
Definition thrown (fires : bool) (alerts : list ComplianceAlert.t) (k : nat)
  : Completion (list ComplianceAlert.t * nat) :=
  if fires then Throw undefinedName else Normal (alerts, k).

Lemma push_Throw type severity current description context alerts k :
  StockData.symbol current = EmptyString ->
  (alert ← createAlert env type severity current description context;
   mret (alerts ++ [alert])) k = Throw undefinedName.
Proof.
  intros Hsym. apply Eff_bind_Throw. now apply createAlert_Throw.
Qed.

Lemma checkPriceSpike_empty_symbol current intraday context alerts k :
  StockData.symbol current = EmptyString ->
  checkPriceSpike env current intraday context alerts k
  = thrown (priceSpikeFires intraday) alerts k.
Proof.
  intros Hsym. unfold checkPriceSpike, priceSpikeFires, historyChange, thrown.
  destruct (bool_decide (2 <= length intraday)%nat); [| reflexivity].
  destruct (intraday !! (length intraday - 1)%nat) as [recent |];
    [| reflexivity].
  destruct (intraday !! (length intraday - 2)%nat) as [previous |];
    [| reflexivity].
  destruct (JS.gt (JS.abs (priceChangePercentOf recent previous)) (JS.ofZ 5));
    [| reflexivity].
  now apply push_Throw.
Qed.

Lemma checkVolumeSpike_empty_symbol current averageVolume context alerts k :
  StockData.symbol current = EmptyString ->
  checkVolumeSpike env current averageVolume context alerts k
  = thrown (volumeSpikeFires current averageVolume) alerts k.
Proof.
  intros Hsym. unfold checkVolumeSpike, volumeSpikeFires, thrown.
  destruct (JS.truthy averageVolume && _); [| reflexivity].
  now apply push_Throw.
Qed.

Lemma checkAfterHours_empty_symbol current context alerts k :
  StockData.symbol current = EmptyString ->
  checkAfterHours env current context alerts k
  = thrown (afterHoursFires env current) alerts k.
Proof.
  intros Hsym. unfold checkAfterHours, afterHoursFires, thrown.
  destruct ((_ || _) && _); [| reflexivity].
  now apply push_Throw.
Qed.

Lemma checkRapidChange_empty_symbol current previous context alerts k :
  StockData.symbol current = EmptyString ->
  checkRapidChange env current previous context alerts k
  = thrown (rapidChangeFires current previous) alerts k.
Proof.
  intros Hsym. unfold checkRapidChange, rapidChangeFires, thrown.
  destruct (bool_decide _ && _); [| reflexivity].
  now apply push_Throw.
Qed.

(** Some check fires for the snapshot. *)
Definition anyFires (previousData : gmap string StockData.t)
    (intradayDataMap : gmap string (list IntradayPoint.t))
    (current : StockData.t) : bool :=
  priceSpikeFires (intradayOf intradayDataMap current)
  || volumeSpikeFires current (baselineOf intradayDataMap current)
  || afterHoursFires env current
  || rapidChangeFires current (previousOf previousData current).

Lemma forSnapshot_empty_symbol previousData intradayDataMap current alerts k :
  StockData.symbol current = EmptyString ->
  forSnapshot env previousData intradayDataMap current alerts k
  = thrown (anyFires previousData intradayDataMap current) alerts k.
Proof.
  intros Hsym. unfold forSnapshot, anyFires.
  fold (previousOf previousData current) (intradayOf intradayDataMap current).
  fold (baselineOf intradayDataMap current).
  unfold mbind at 1, Eff_bind.
  rewrite checkPriceSpike_empty_symbol by assumption.
  destruct (priceSpikeFires _); [reflexivity |]. cbn [thrown orb].
  unfold mbind at 1, Eff_bind.
  rewrite checkVolumeSpike_empty_symbol by assumption.
  destruct (volumeSpikeFires _ _); [reflexivity |]. cbn [thrown orb].
  unfold mbind at 1, Eff_bind.
  rewrite checkAfterHours_empty_symbol by assumption.
  destruct (afterHoursFires _ _); [reflexivity |]. cbn [thrown orb].
  now apply checkRapidChange_empty_symbol.
Qed.

(** The engine returns exactly on the cycles in which no check fires for a
    snapshot with the empty symbol. *)
Lemma generateAlertsFromStockData_returns previousData intradayDataMap
    stockData k :
  (exists alerts k',
     generateAlertsFromStockData env stockData previousData intradayDataMap k
     = Normal (alerts, k'))
  <-> Forall (fun current =>
                StockData.symbol current = EmptyString ->
                anyFires previousData intradayDataMap current = false)
        stockData.
Proof.
  unfold generateAlertsFromStockData. generalize (@nil ComplianceAlert.t).
  revert k. induction stockData as [| current rest IH]; intros k alerts.
  - split; [constructor |]. intros _. simpl. rewrite Eff_ret_Normal. eauto.
  - cbn [forEach]. rewrite Forall_cons.
    destruct (decide (StockData.symbol current = EmptyString)) as [He | Hne].
    + unfold mbind, Eff_bind.
      rewrite forSnapshot_empty_symbol by assumption.
      destruct (anyFires previousData intradayDataMap current);
        cbn [thrown].
      * split; [intros (? & ? & [=]) | intros [Hno _]].
        specialize (Hno He). discriminate.
      * fold (@mbind Eff _). rewrite IH. tauto.
    + erewrite Eff_bind_Normal; [| apply forSnapshot_spec; assumption].
      rewrite IH. tauto.
Qed.

(** Whatever the symbol, a loop body that returns has pushed the alerts of
    the checks that fire. *)
Lemma forSnapshot_returned previousData intradayDataMap current alerts k
    out k' :
  forSnapshot env previousData intradayDataMap current alerts k
  = Normal (out, k') ->
  out = alerts ++ emittedFor env previousData intradayDataMap current k.
Proof.
  destruct (decide (StockData.symbol current = EmptyString)) as [He | Hne].
  - rewrite forSnapshot_empty_symbol by assumption. unfold thrown.
    destruct (anyFires previousData intradayDataMap current) eqn:Hany;
      [discriminate |].
    intros [= <- _]. unfold anyFires in Hany.
    apply orb_false_iff in Hany as [Hany H4].
    apply orb_false_iff in Hany as [Hany H3].
    apply orb_false_iff in Hany as [H1 H2].
    unfold emittedFor. rewrite H1, H2, H3, H4. simpl.
    now rewrite app_nil_r.
  - rewrite forSnapshot_spec by assumption. now intros [= <- _].
Qed.

End EmptySymbol.
(** ** What a returning cycle is made of *)

Section EngineFacts.

Variable env : Env.
Variable previousData : gmap string StockData.t.
Variable intradayDataMap : gmap string (list IntradayPoint.t).

(** A loop body that returns has read the clock twice per pushed alert. *)
Lemma forSnapshot_reads current alerts k out k' :
  forSnapshot env previousData intradayDataMap current alerts k
  = Normal (out, k') ->
  k' = (k + 2 * length (emittedFor env previousData intradayDataMap
                          current k))%nat.
Proof.
  destruct (decide (StockData.symbol current = EmptyString)) as [He | Hne].
  - rewrite forSnapshot_empty_symbol by assumption. unfold thrown.
    destruct (anyFires env previousData intradayDataMap current) eqn:Hany;
      [discriminate |].
    intros [= _ <-]. unfold anyFires in Hany.
    apply orb_false_iff in Hany as [Hany H4].
    apply orb_false_iff in Hany as [Hany H3].
    apply orb_false_iff in Hany as [H1 H2].
    unfold emittedFor. rewrite H1, H2, H3, H4. simpl. lia.
  - rewrite forSnapshot_spec by assumption. now intros [= _ <-].
Qed.

Lemma forEach_returned stockData alerts k out k' :
  forEach env previousData intradayDataMap stockData alerts k
  = Normal (out, k') ->
  out = alerts ++ emittedAll env previousData intradayDataMap stockData k
  /\ k' = (k + 2 * length (emittedAll env previousData intradayDataMap
                             stockData k))%nat.
Proof.
  revert alerts k. induction stockData as [| current rest IH]; intros alerts k.
  - simpl. rewrite Eff_ret_Normal. intros [= <- <-].
    split; [now rewrite app_nil_r | lia].
  - cbn [forEach emittedAll]. intros Hrun.
    apply Eff_bind_inv in Hrun as (l1 & k1 & Hhead & Htail).
    pose proof (forSnapshot_reads _ _ _ _ _ Hhead) as ->.
    apply forSnapshot_returned in Hhead as ->.
    apply IH in Htail as [-> ->].
    split; [now rewrite app_assoc | rewrite length_app; lia].
Qed.

Lemma emittedFor_cases current k a :
  a ∈ emittedFor env previousData intradayDataMap current k ->
  exists j,
    a = priceSpikeAlert env current (intradayOf intradayDataMap current) j
    \/ a = volumeSpikeAlert env current (baselineOf intradayDataMap current) j
    \/ a = afterHoursAlert env current j
    \/ a = rapidChangeAlert env current j.
Proof.
  unfold emittedFor, emit. intros Hin.
  repeat (apply elem_of_app in Hin as [Hin | Hin]);
    match type of Hin with
    | _ ∈ (if ?c then _ else _) => destruct c
    end;
    try (apply elem_of_nil in Hin; contradiction);
    apply list_elem_of_singleton in Hin; subst a; eauto 6.
Qed.

Lemma emittedFor_length current k :
  (length (emittedFor env previousData intradayDataMap current k) <= 4)%nat.
Proof.
  unfold emittedFor. rewrite !length_app.
  destruct (priceSpikeFires _), (volumeSpikeFires _ _), (afterHoursFires _ _),
    (rapidChangeFires _ _); simpl; lia.
Qed.

Lemma emittedAll_length stockData k :
  (length (emittedAll env previousData intradayDataMap stockData k)
   <= 4 * length stockData)%nat.
Proof.
  revert k. induction stockData as [| current rest IH]; intros k; simpl;
    [lia |].
  rewrite length_app.
  pose proof (emittedFor_length current k).
  specialize (IH (k + 2 * length (emittedFor env previousData intradayDataMap
                                    current k))%nat).
  simpl in IH. lia.
Qed.

Lemma emittedAll_elem_of stockData k a :
  a ∈ emittedAll env previousData intradayDataMap stockData k ->
  exists current j,
    current ∈ stockData
    /\ a ∈ emittedFor env previousData intradayDataMap current j.
Proof.
  revert k. induction stockData as [| current rest IH]; intros k; simpl.
  - intros H. apply elem_of_nil in H. contradiction.
  - intros H. apply elem_of_app in H as [H | H].
    + exists current, k. split; [left | exact H].
    + apply IH in H as (c & j & Hc & Ha). exists c, j. split; [now right | exact Ha].
Qed.

(** The blocks of a cycle: what the loop body pushes for each snapshot, in
    the order of the snapshots. *)
Fixpoint blocksOf (stockData : list StockData.t) (k : nat)
  : list (list ComplianceAlert.t) :=
  match stockData with
  | [] => []
  | current :: rest =>
      let block := emittedFor env previousData intradayDataMap current k in
      block :: blocksOf rest (k + 2 * length block)
  end.

Lemma emittedAll_concat stockData k :
  emittedAll env previousData intradayDataMap stockData k
  = concat (blocksOf stockData k).
Proof.
  revert k. induction stockData as [| current rest IH]; intros k;
    [reflexivity |].
  cbn [emittedAll blocksOf concat]. now rewrite IH.
Qed.

Lemma emittedFor_silent current k :
  anyFires env previousData intradayDataMap current = false ->
  emittedFor env previousData intradayDataMap current k = [].
Proof.
  unfold anyFires, emittedFor. intros Hany.
  apply orb_false_iff in Hany as [Hany ->].
  apply orb_false_iff in Hany as [Hany ->].
  apply orb_false_iff in Hany as [-> ->]. reflexivity.
Qed.

(** The block of [current] in a call that returns: what the loop body
    pushes for it, which is nothing when its symbol is empty. *)
Definition BlockOf (current : StockData.t) (block : list ComplianceAlert.t)
  : Prop :=
  (exists j, block = emittedFor env previousData intradayDataMap current j)
  /\ (StockData.symbol current = EmptyString -> block = []).

Lemma blocksOf_Forall2 stockData k :
  Forall (fun current =>
            StockData.symbol current = EmptyString ->
            anyFires env previousData intradayDataMap current = false)
    stockData ->
  Forall2 BlockOf stockData (blocksOf stockData k).
Proof.
  intros Hsilent. revert k.
  induction Hsilent as [| current rest Hcur _ IH]; intros k;
    constructor; [| apply IH].
  split; [now exists k |].
  intros Hsym. now apply emittedFor_silent, Hcur.
Qed.

(** The alerts of a returning call are the blocks of its snapshots, one
    after the other. *)
Lemma generateAlertsFromStockData_blocks stockData k alerts k' :
  generateAlertsFromStockData env stockData previousData intradayDataMap k
  = Normal (alerts, k') ->
  exists blocks,
    alerts = concat blocks /\ Forall2 BlockOf stockData blocks.
Proof.
  intros Hrun.
  assert (Hsilent :
            Forall (fun current =>
                      StockData.symbol current = EmptyString ->
                      anyFires env previousData intradayDataMap current
                      = false)
              stockData).
  { apply (generateAlertsFromStockData_returns env previousData
             intradayDataMap stockData k). eauto. }
  unfold generateAlertsFromStockData in Hrun.
  apply forEach_returned in Hrun as [-> _].
  exists (blocksOf stockData k). split.
  - cbn [app]. apply emittedAll_concat.
  - now apply blocksOf_Forall2.
Qed.

End EngineFacts.

(** ** Sample data used to exercise the statements *)

Module Sample.

(** The number a decimal literal [n / d] denotes, [d] a power of ten. *)
Definition decimal (n : Z) (d : positive) : JS.number :=
  if n <? 0 then SFopp (JS.ofRatio (- n) d) else JS.ofRatio n d.

(** Grouping of a digit string in threes, from the right, with separator
    [sep]. *)
Fixpoint group3 (sep : ascii) (rev_digits : list ascii) (k : nat)
    (acc : list ascii) : list ascii :=
  match rev_digits with
  | [] => acc
  | c :: rest =>
      match k with
      | 3%nat => group3 sep rest 1 (c :: sep :: acc)
      | _ => group3 sep rest (S k) (c :: acc)
      end
  end.

Fixpoint dropTrailingZeros (rev_digits : list ascii) : list ascii :=
  match rev_digits with
  | "0"%char :: rest => dropTrailingZeros rest
  | _ => rev_digits
  end.

(** How a host writes a number with [toLocaleString()] when its locale
    groups digits with [sep] and marks decimals with [point]: at most three
    decimals, the last one rounded half away from zero. *)
Definition written (sep point : ascii) (x : JS.number) : string :=
  match x with
  | S754_nan => "NaN"
  | S754_infinity s => if s then "-Infinity" else "Infinity"
  | S754_zero s | S754_finite s _ _ =>
      let q := default 0%Q (JS.toQ x) in
      let thousandths := Qfloor (Qabs q * 1000 + (1 # 2)) in
      let whole := list_ascii_of_string
                     (JS.digits (Z.to_N (thousandths / 1000))) in
      let frac := JS.digits (Z.to_N (thousandths mod 1000)) in
      let frac := list_ascii_of_string
                    (JS.zeros (3 - String.length frac) +:+ frac) in
      let frac := rev (dropTrailingZeros (rev frac)) in
      (if s then "-" else EmptyString)
        +:+ string_of_list_ascii (group3 sep (rev whole) 0 [])
        +:+ match frac with
            | [] => EmptyString
            | _ :: _ => String point (string_of_list_ascii frac)
            end
  end.

Definition enUS : JS.number -> string := written ","%char "."%char.

Definition deDE : JS.number -> string := written "."%char ","%char.

Definition morning : Env :=
  {| getHours := 10;
     dateNow := fun _ => 1700000000000%N;
     localNewYear2020 := 1577836800000;
     toLocaleString := enUS |}.

Definition evening : Env :=
  {| getHours := 17;
     dateNow := fun _ => 1700000000000%N;
     localNewYear2020 := 1577836800000;
     toLocaleString := enUS |}.

(** The host of [morning] with a German locale. *)
Definition berlin : Env :=
  {| getHours := 10;
     dateNow := fun _ => 1700000000000%N;
     localNewYear2020 := 1577836800000;
     toLocaleString := deDE |}.

Definition point (price : JS.number) (volume : Z) : IntradayPoint.t :=
  {| IntradayPoint.price := price;
     IntradayPoint.volume := JS.ofZ volume;
     IntradayPoint.timestamp := "2023-11-14 15:45:00" |}.

Definition quote (symbol : string) (volume : Z) (changePercent : Z)
  : StockData.t :=
  {| StockData.symbol := symbol;
     StockData.price := decimal 2505 10;
     StockData.volume := JS.ofZ volume;
     StockData.change := JS.ofZ 0;
     StockData.changePercent := JS.ofZ changePercent;
     StockData.timestamp := 1700000000000;
     StockData.previousClose := None;
     StockData.averageVolume := None |}.

(** TSLA at 3,000,000 shares against a history that averages 900,000 and
    whose last two prices are 100 and 92. *)
Definition tsla : StockData.t := quote "TSLA" 3000000 4.

Definition tslaHistory : list IntradayPoint.t :=
  [point (JS.ofZ 100) 800000; point (JS.ofZ 100) 1000000;
   point (JS.ofZ 92) 900000].

Definition history : gmap string (list IntradayPoint.t) :=
  {[ "TSLA"%string := tslaHistory ]}.

Definition previous : gmap string StockData.t :=
  {[ "TSLA"%string := tsla ]}.

(** A thinly traded symbol: no share changed hands in the two intervals of
    its history. *)
Definition thin : StockData.t := quote "THIN" 100 0.

Definition thinHistory : gmap string (list IntradayPoint.t) :=
  {[ "THIN"%string := [point (JS.ofZ 10) 0; point (JS.ofZ 10) 0] ]}.

(** A snapshot whose symbol is the empty string. *)
Definition unnamed : StockData.t := quote EmptyString 2000000 4.

(** A price that goes from 61.40 to 64.47: the quotient of the two numbers
    is above 0.05 by less than 10^-17, and the percent change the engine
    computes is the number 5. *)
Definition edgeHistory : gmap string (list IntradayPoint.t) :=
  {[ "TSLA"%string :=
       [point (decimal 6140 100) 900000; point (decimal 6447 100) 900000] ]}.

(** Volumes of 1, 1 and 2 million, whose computed mean is just below
    4,000,000 / 3. *)
Definition unevenHistory : gmap string (list IntradayPoint.t) :=
  {[ "TSLA"%string :=
       [point (JS.ofZ 100) 1000000; point (JS.ofZ 100) 1000000;
        point (JS.ofZ 100) 2000000] ]}.

End Sample.

(** ** The price-spike ("Momentum") check *)

(** C1 -- Momentum rule.  A call of the engine returns whenever every
    snapshot has a symbol with a first character, and the alerts of a call
    that returns are the blocks of its snapshots, in order.  For a snapshot
    whose interval history ends in the points [prior] and [latest], the
    number of price-spike alerts in its block is 1 if the percent change
    between the two points, [(latest.price - prior.price) / prior.price *
    100] as binary64 arithmetic computes it, has an absolute value greater
    than 5, and 0 otherwise; the severity of that alert is [Critical] when
    the signed change is greater than 5 and [High] otherwise.  For a
    snapshot with fewer than two history points the number is 0. *)
Theorem momentum_rule env stockData previousData intradayDataMap k :
  (Forall (fun current => StockData.symbol current <> EmptyString) stockData ->
   exists alerts k',
     generateAlertsFromStockData env stockData previousData intradayDataMap k
     = Normal (alerts, k'))
  /\ (forall alerts k',
        generateAlertsFromStockData env stockData previousData
          intradayDataMap k
        = Normal (alerts, k') ->
        exists blocks,
          alerts = concat blocks
          /\ Forall2
               (fun current block =>
                  (forall older prior latest,
                     intradayDataMap !! StockData.symbol current
                     = Some (older ++ [prior; latest]) ->
                     let change :=
                       JS.mul
                         (JS.div
                            (JS.sub (IntradayPoint.price latest)
                               (IntradayPoint.price prior))
                            (IntradayPoint.price prior))
                         (JS.ofZ 100) in
                     length (filter (raisedBy PriceSpike current) block)
                     = (if JS.gt (JS.abs change) (JS.ofZ 5)
                        then 1 else 0)%nat
                     /\ (forall a,
                           a ∈ block -> raisedBy PriceSpike current a ->
                           ComplianceAlert.severity a
                           = if JS.gt change (JS.ofZ 5)
                             then Critical else High))
                  /\ ((length (default []
                                 (intradayDataMap
                                    !! StockData.symbol current)) < 2)%nat ->
                      length (filter (raisedBy PriceSpike current) block)
                      = 0%nat))
               stockData blocks).
Proof.
  split.
  { intros Hsym. rewrite generateAlertsFromStockData_Normal by exact Hsym.
    eauto. }
  intros alerts k' Hrun.
  apply generateAlertsFromStockData_blocks in Hrun as (blocks & -> & Hblocks).
  exists blocks. split; [reflexivity |].
  eapply Forall2_impl; [exact Hblocks |].
  intros current block [[j ->] _]. split.
  - intros older prior latest Hhist change.
    assert (Hchange :
              historyChange (intradayOf intradayDataMap current)
              = Some change).
    { unfold intradayOf. rewrite Hhist. apply historyChange_last_two. }
    split.
    + rewrite emittedFor_count. unfold priceSpikeFires. now rewrite Hchange.
    + intros a Hin Hr.
      destruct (emittedFor_raisedBy _ _ _ _ _ _ _ Hin Hr) as [i ->].
      unfold priceSpikeAlert. rewrite Hchange. reflexivity.
  - intros Hshort. rewrite emittedFor_count. unfold priceSpikeFires.
    now rewrite historyChange_short.
Qed.

(** A change of -8% (100 to 92) raises one alert, of severity [High]. *)
Lemma momentum_rule_witness :
  exists alerts k',
    generateAlertsFromStockData Sample.morning [Sample.tsla] Sample.previous
      Sample.history 0%nat
    = Normal (alerts, k')
    /\ length (filter (raisedBy PriceSpike Sample.tsla) alerts) = 1%nat
    /\ (forall a, a ∈ alerts -> raisedBy PriceSpike Sample.tsla a ->
        ComplianceAlert.severity a = High).
Proof.
  destruct (momentum_rule Sample.morning [Sample.tsla] Sample.previous
              Sample.history 0%nat) as (Hreturns & Hblocks).
  destruct Hreturns as (alerts & k' & Hrun);
    [repeat constructor; discriminate |].
  destruct (Hblocks alerts k' Hrun) as (blocks & -> & Hrule).
  apply Forall2_cons_inv_l in Hrule as (block & rest & [Hrule _] & Hrest & ->).
  apply Forall2_nil_inv_l in Hrest as ->.
  destruct (Hrule [Sample.point (JS.ofZ 100) 800000]
              (Sample.point (JS.ofZ 100) 1000000)
              (Sample.point (JS.ofZ 92) 900000) eq_refl)
    as [Hcount Hseverity].
  exists (concat [block]), k'. cbn [concat]. rewrite app_nil_r.
  split; [now rewrite Hrun; cbn [concat]; rewrite app_nil_r |].
  split; [exact Hcount | exact Hseverity].
Defined.

(** The change from 100 to 92 is the number -8: the check fires, with
    severity [High]. *)
Example momentum_minus_eight_percent :
  priceChangePercentOf (Sample.point (JS.ofZ 92) 900000)
    (Sample.point (JS.ofZ 100) 1000000)
  = JS.ofZ (-8)
  /\ priceSpikeFires Sample.tslaHistory = true
  /\ ComplianceAlert.severity
       (priceSpikeAlert Sample.morning Sample.tsla Sample.tslaHistory 0%nat)
  = High.
Proof. repeat split. Qed.

(** A zero prior price: the quotient is [Infinity], the check fires with
    severity [Critical]. *)
Example momentum_zero_prior_price :
  priceChangePercentOf (Sample.point (JS.ofZ 5) 1) (Sample.point (JS.ofZ 0) 1)
  = S754_infinity false
  /\ priceSpikeFires [Sample.point (JS.ofZ 0) 1; Sample.point (JS.ofZ 5) 1]
     = true.
Proof. split; reflexivity. Qed.

(** The rounding of binary64 at the threshold.  From 61.40 to 64.47 the
    quotient of the two numbers is above 0.05, by less than 10^-17, but the
    percent change the engine computes is the number 5, which is not greater
    than 5: no price-spike alert is raised. *)
Example momentum_at_the_threshold :
  (exists prior latest,
     JS.toQ (Sample.decimal 6140 100) = Some prior
     /\ JS.toQ (Sample.decimal 6447 100) = Some latest
     /\ (5 < (latest - prior) / prior * 100)%Q)
  /\ priceChangePercentOf (Sample.point (Sample.decimal 6447 100) 900000)
       (Sample.point (Sample.decimal 6140 100) 900000)
     = JS.ofZ 5
  /\ filter (raisedBy PriceSpike Sample.tsla)
       (emittedAll Sample.morning Sample.previous Sample.edgeHistory
          [Sample.tsla] 0)
     = [].
Proof.
  split; [| split; vm_compute; reflexivity].
  eexists _, _. split; [reflexivity |]. split; [reflexivity |].
  vm_compute. reflexivity.
Qed.

(** ** The volume-spike check *)

(** The volume-spike sentence as the specification states it, for a cycle
    of one snapshot: exactly one alert when the volume exceeds twice the
    baseline -- the mean of the history volumes, or the volume itself
    without history -- and none when it does not. *)
Definition volume_spike_as_stated (env : Env)
    (previousData : gmap string StockData.t)
    (intradayDataMap : gmap string (list IntradayPoint.t))
    (current : StockData.t) : Prop :=
  let history :=
    default [] (intradayDataMap !! StockData.symbol current) in
  let volume := StockData.volume current in
  let average :=
    match history with
    | [] => volume
    | _ :: _ =>
        JS.div (foldl JS.add (JS.ofZ 0) (IntradayPoint.volume <$> history))
          (JS.ofNat (length history))
    end in
  exists alerts k',
    generateAlertsFromStockData env [current] previousData intradayDataMap
      0%nat
    = Normal (alerts, k')
    /\ (JS.gt volume (JS.mul average (JS.ofZ 2)) = true ->
        length (filter (raisedBy VolumeSpike current) alerts) = 1%nat)
    /\ (JS.gt volume (JS.mul average (JS.ofZ 2)) = false ->
        length (filter (raisedBy VolumeSpike current) alerts) = 0%nat).

(** 100 shares against a history of two intervals without a trade: the
    volume is above twice the (zero) average, and no alert is raised. *)
Lemma volume_spike_zero_baseline :
  ~ volume_spike_as_stated Sample.morning ∅ Sample.thinHistory Sample.thin.
Proof.
  unfold volume_spike_as_stated. intros (alerts & k' & Hrun & Hfires & _).
  vm_compute in Hrun. injection Hrun as <- <-.
  assert (Habove : JS.gt (JS.ofZ 100) (JS.mul (JS.ofZ 0) (JS.ofZ 2)) = true)
    by reflexivity.
  specialize (Hfires Habove). discriminate Hfires.
Qed.

(** C2 -- Volume-spike rule, amended.  A call of the engine returns whenever
    every snapshot has a symbol with a first character, and the alerts of a
    call that returns are the blocks of its snapshots.  With [average] the
    mean of the history volumes as binary64 arithmetic computes it (their
    sum from left to right, divided by their number; the snapshot's own
    volume when the history is empty), the block of a snapshot holds exactly
    one volume-spike alert if [average] is neither a zero nor [NaN] and
    the volume is greater than [average * 2], and none otherwise; with
    [increase = (volume - average) / average * 100] the severity of the
    alert is [Critical] if [increase > 300], [High] if [increase > 200] and
    [Medium] otherwise. *)
Theorem volume_spike_rule env stockData previousData intradayDataMap k :
  (Forall (fun current => StockData.symbol current <> EmptyString) stockData ->
   exists alerts k',
     generateAlertsFromStockData env stockData previousData intradayDataMap k
     = Normal (alerts, k'))
  /\ (forall alerts k',
        generateAlertsFromStockData env stockData previousData
          intradayDataMap k
        = Normal (alerts, k') ->
        exists blocks,
          alerts = concat blocks
          /\ Forall2
               (fun current block =>
                  let history :=
                    default []
                      (intradayDataMap !! StockData.symbol current) in
                  let volume := StockData.volume current in
                  let average :=
                    match history with
                    | [] => volume
                    | _ :: _ =>
                        JS.div
                          (foldl JS.add (JS.ofZ 0)
                             (IntradayPoint.volume <$> history))
                          (JS.ofNat (length history))
                    end in
                  let increase :=
                    JS.mul (JS.div (JS.sub volume average) average)
                      (JS.ofZ 100) in
                  let usable :=
                    match average with
                    | S754_zero _ | S754_nan => false
                    | S754_infinity _ | S754_finite _ _ _ => true
                    end in
                  length (filter (raisedBy VolumeSpike current) block)
                  = (if usable && JS.gt volume (JS.mul average (JS.ofZ 2))
                     then 1 else 0)%nat
                  /\ (forall a,
                        a ∈ block -> raisedBy VolumeSpike current a ->
                        ComplianceAlert.severity a
                        = if JS.gt increase (JS.ofZ 300) then Critical
                          else if JS.gt increase (JS.ofZ 200) then High
                          else Medium))
               stockData blocks).
Proof.
  split.
  { intros Hsym. rewrite generateAlertsFromStockData_Normal by exact Hsym.
    eauto. }
  intros alerts k' Hrun.
  apply generateAlertsFromStockData_blocks in Hrun as (blocks & -> & Hblocks).
  exists blocks. split; [reflexivity |].
  eapply Forall2_impl; [exact Hblocks |].
  intros current block [[j ->] _] history volume average increase usable.
  assert (Haverage : baselineOf intradayDataMap current = average).
  { unfold baselineOf, averageVolumeOf, intradayOf. fold history.
    subst average. destruct history as [| p rest]; [reflexivity |].
    rewrite length_fmap. now rewrite bool_decide_eq_true_2 by (simpl; lia). }
  split.
  - rewrite emittedFor_count, Haverage. reflexivity.
  - intros a Hin Hr.
    destruct (emittedFor_raisedBy _ _ _ _ _ _ _ Hin Hr) as [i ->].
    rewrite Haverage. reflexivity.
Qed.

(** TSLA at 3,000,000 against an average of 900,000: one alert, of severity
    [High]. *)
Lemma volume_spike_rule_witness :
  exists alerts k',
    generateAlertsFromStockData Sample.morning [Sample.tsla] Sample.previous
      Sample.history 0%nat
    = Normal (alerts, k')
    /\ length (filter (raisedBy VolumeSpike Sample.tsla) alerts) = 1%nat
    /\ (forall a, a ∈ alerts -> raisedBy VolumeSpike Sample.tsla a ->
        ComplianceAlert.severity a = High).
Proof.
  destruct (volume_spike_rule Sample.morning [Sample.tsla] Sample.previous
              Sample.history 0%nat) as (Hreturns & Hblocks).
  destruct Hreturns as (alerts & k' & Hrun);
    [repeat constructor; discriminate |].
  destruct (Hblocks alerts k' Hrun) as (blocks & -> & Hrule).
  apply Forall2_cons_inv_l in Hrule
    as (block & rest & [Hcount Hseverity] & Hrest & ->).
  apply Forall2_nil_inv_l in Hrest as ->.
  exists (concat [block]), k'. cbn [concat]. rewrite app_nil_r.
  split; [now rewrite Hrun; cbn [concat]; rewrite app_nil_r |].
  split; [exact Hcount | exact Hseverity].
Defined.

(** The end-to-end example of the specification: the average is 900,000, the
    increase is the number nearest to 700/3 (about 233.3), the alert is
    raised with severity [High]. *)
Example volume_spike_tsla :
  baselineOf Sample.history Sample.tsla = JS.ofZ 900000
  /\ JS.toFixed
       (volumeIncreaseOf Sample.tsla (baselineOf Sample.history Sample.tsla))
       1
     = "233.3"%string
  /\ volumeSpikeFires Sample.tsla (baselineOf Sample.history Sample.tsla) = true
  /\ ComplianceAlert.severity
       (volumeSpikeAlert Sample.morning Sample.tsla
          (baselineOf Sample.history Sample.tsla) 0%nat) = High.
Proof. repeat split. Qed.

(** The rounding of binary64 at a threshold.  Against volumes of 1, 1 and 2
    million the computed mean is just below 4,000,000 / 3, and for a volume
    of 4,000,000 the computed increase is just above the number 200: the
    alert is [High], where exact arithmetic would give an increase of 200
    and [Medium]. *)
Example volume_spike_at_the_threshold :
  JS.gt
    (volumeIncreaseOf (Sample.quote "TSLA" 4000000 0)
       (baselineOf Sample.unevenHistory (Sample.quote "TSLA" 4000000 0)))
    (JS.ofZ 200)
  = true
  /\ ComplianceAlert.severity
     <$> emittedAll Sample.morning ∅ Sample.unevenHistory
           [Sample.quote "TSLA" 4000000 0] 0
     = [High].
Proof. split; vm_compute; reflexivity. Qed.
(** ** What a returning engine has built *)

Section Returned.

Variable env : Env.

(** [a] is the alert [createAlert] built on behalf of rule [r] for the
    snapshot [current], entered at the [j]-th read of the clock. *)
Definition RaisedAt (current : StockData.t) (j : nat)
    (a : ComplianceAlert.t) : Prop :=
  exists r severity detail,
    StockData.symbol current <> EmptyString
    /\ a = raise env r severity current detail j.

(** [a] was built for [current] with two reads of the clock taken between
    the [k]-th and the [k']-th. *)
Definition RaisedFor (current : StockData.t) (k k' : nat)
    (a : ComplianceAlert.t) : Prop :=
  exists j, (k <= j /\ j + 2 <= k')%nat /\ RaisedAt current j a.

Lemma RaisedFor_widen current k1 k1' k2 k2' a :
  (k2 <= k1)%nat -> (k1' <= k2')%nat ->
  RaisedFor current k1 k1' a -> RaisedFor current k2 k2' a.
Proof.
  intros Hlo Hhi (j & Hj & Ha). exists j. split; [lia | exact Ha].
Qed.

(** A computation that returns has pushed alerts of [current], and read the
    clock only for them. *)
Definition Grown (current : StockData.t)
    (alerts : list ComplianceAlert.t) (k : nat)
    (out : list ComplianceAlert.t) (k' : nat) : Prop :=
  exists pushedAlerts,
    out = alerts ++ pushedAlerts
    /\ (k <= k')%nat
    /\ Forall (RaisedFor current k k') pushedAlerts.

Lemma Grown_refl current alerts k : Grown current alerts k alerts k.
Proof.
  exists []. split; [now rewrite app_nil_r |]. split; [lia | constructor].
Qed.

Lemma Grown_trans current l1 k1 l2 k2 l3 k3 :
  Grown current l1 k1 l2 k2 -> Grown current l2 k2 l3 k3 ->
  Grown current l1 k1 l3 k3.
Proof.
  intros (p & -> & Hk12 & Hp) (q & -> & Hk23 & Hq). exists (p ++ q).
  split; [now rewrite app_assoc |]. split; [lia |].
  apply Forall_app. split.
  - eapply Forall_impl; [exact Hp |]. intros a.
    apply RaisedFor_widen; lia.
  - eapply Forall_impl; [exact Hq |]. intros a.
    apply RaisedFor_widen; lia.
Qed.

Lemma Grown_ret current alerts k out k' :
  (mret alerts : Eff (list ComplianceAlert.t)) k = Normal (out, k') ->
  Grown current alerts k out k'.
Proof.
  rewrite Eff_ret_Normal. intros [= <- <-]. apply Grown_refl.
Qed.

Lemma Grown_push r severity current detail context alerts k out k' :
  (alert ← createAlert env (ruleCategory r) severity current
             (ruleHead r +:+ detail) context;
   mret (alerts ++ [alert])) k = Normal (out, k') ->
  Grown current alerts k out k'.
Proof.
  intros Hrun. apply Eff_bind_inv in Hrun as (a & k1 & Hcreate & Hret).
  apply createAlert_inv in Hcreate as (Hsym & -> & ->).
  rewrite Eff_ret_Normal in Hret. injection Hret as <- <-.
  eexists. split; [reflexivity |]. split; [lia |].
  constructor; [| constructor].
  exists k. split; [lia |]. exists r, severity, detail. now split.
Qed.

Lemma checkPriceSpike_inv current intraday context alerts k out k' :
  checkPriceSpike env current intraday context alerts k = Normal (out, k') ->
  Grown current alerts k out k'.
Proof.
  unfold checkPriceSpike. intros Hrun.
  repeat match type of Hrun with
         | (if ?c then _ else _) _ = _ => destruct c
         | (match ?c with Some _ => _ | None => _ end) _ = _ => destruct c
         end;
    try (apply Grown_ret; exact Hrun).
  eapply (Grown_push PriceSpike). exact Hrun.
Qed.

Lemma checkVolumeSpike_inv current averageVolume context alerts k out k' :
  checkVolumeSpike env current averageVolume context alerts k
  = Normal (out, k') ->
  Grown current alerts k out k'.
Proof.
  unfold checkVolumeSpike. intros Hrun.
  destruct (JS.truthy averageVolume && _).
  - eapply (Grown_push VolumeSpike). exact Hrun.
  - apply Grown_ret. exact Hrun.
Qed.

Lemma checkAfterHours_inv current context alerts k out k' :
  checkAfterHours env current context alerts k = Normal (out, k') ->
  Grown current alerts k out k'.
Proof.
  unfold checkAfterHours. intros Hrun.
  destruct ((_ || _) && _).
  - eapply (Grown_push AfterHours). exact Hrun.
  - apply Grown_ret. exact Hrun.
Qed.

Lemma checkRapidChange_inv current previous context alerts k out k' :
  checkRapidChange env current previous context alerts k = Normal (out, k') ->
  Grown current alerts k out k'.
Proof.
  unfold checkRapidChange. intros Hrun.
  destruct (bool_decide _ && _).
  - eapply (Grown_push RapidChange). exact Hrun.
  - apply Grown_ret. exact Hrun.
Qed.

Lemma forSnapshot_inv previousData intradayDataMap current alerts k out k' :
  forSnapshot env previousData intradayDataMap current alerts k
  = Normal (out, k') ->
  Grown current alerts k out k'.
Proof.
  unfold forSnapshot. intros Hrun.
  apply Eff_bind_inv in Hrun as (l1 & k1 & H1 & Hrun).
  apply Eff_bind_inv in Hrun as (l2 & k2 & H2 & Hrun).
  apply Eff_bind_inv in Hrun as (l3 & k3 & H3 & H4).
  apply checkPriceSpike_inv in H1. apply checkVolumeSpike_inv in H2.
  apply checkAfterHours_inv in H3. apply checkRapidChange_inv in H4.
  eauto using Grown_trans.
Qed.

(** Every alert of a returning cycle was built for one of its snapshots,
    with clock reads taken during the call. *)
Definition RaisedIn (stockData : list StockData.t) (k k' : nat)
    (a : ComplianceAlert.t) : Prop :=
  exists current, current ∈ stockData /\ RaisedFor current k k' a.

Lemma forEach_inv previousData intradayDataMap stockData alerts k out k' :
  forEach env previousData intradayDataMap stockData alerts k
  = Normal (out, k') ->
  exists pushedAlerts,
    out = alerts ++ pushedAlerts
    /\ (k <= k')%nat
    /\ Forall (RaisedIn stockData k k') pushedAlerts.
Proof.
  revert alerts k. induction stockData as [| current rest IH]; intros alerts k.
  - simpl. rewrite Eff_ret_Normal. intros [= <- <-].
    exists []. split; [now rewrite app_nil_r |]. split; [lia | constructor].
  - cbn [forEach]. intros Hrun.
    apply Eff_bind_inv in Hrun as (l1 & k1 & Hhead & Htail).
    apply forSnapshot_inv in Hhead as (p & -> & Hk1 & Hp).
    apply IH in Htail as (q & -> & Hk' & Hq).
    exists (p ++ q). split; [now rewrite app_assoc |]. split; [lia |].
    apply Forall_app. split.
    + eapply Forall_impl; [exact Hp |]. intros a Ha.
      exists current. split; [left |].
      revert Ha. apply RaisedFor_widen; lia.
    + eapply Forall_impl; [exact Hq |]. intros a (c & Hc & Ha).
      exists c. split; [now right |].
      revert Ha. apply RaisedFor_widen; lia.
Qed.

Lemma generateAlertsFromStockData_inv previousData intradayDataMap stockData
    k alerts k' :
  generateAlertsFromStockData env stockData previousData intradayDataMap k
  = Normal (alerts, k') ->
  Forall (RaisedIn stockData k k') alerts.
Proof.
  unfold generateAlertsFromStockData. intros Hrun.
  apply forEach_inv in Hrun as (p & -> & _ & Hp). exact Hp.
Qed.

End Returned.


(** ** Doubling a number *)

(** Doubling a valid finite positive number raises its exponent, or its
    mantissa when it is subnormal; at the top of the range it gives
    [Infinity]. *)
Lemma double_finite m e :
  bounded JS.prec JS.emax m e = true ->
  JS.mul (S754_finite false m e) (JS.ofZ 2)
  = if Z.pos (digits2_pos m) =? 53 then
      if e + 1 <=? 971 then S754_finite false m (e + 1)
      else S754_infinity false
    else S754_finite false m~0 e.
Proof.
  intros Hb.
  unfold bounded, canonical_mantissa, fexp, emin in Hb.
  apply andb_true_iff in Hb as [Hc He].
  apply Z.eqb_eq in Hc. apply Z.leb_le in He.
  unfold JS.prec, JS.emax in *.
  change (JS.ofZ 2) with (S754_finite false 4503599627370496 (-51)).
  unfold JS.mul. cbn [SFmul xorb]. rewrite Pos.mul_comm.
  change (4503599627370496 * m)%positive
    with (Pos.iter xO m 52).
  cbv [Pos.iter].
  unfold binary_round_aux, shr_fexp, fexp, emin.
  unfold JS.prec, JS.emax.
  cbn [Zdigits2 digits2_pos shr_record_of_loc].
  destruct (Z.pos (digits2_pos m) =? 53) eqn:Hd.
  - apply Z.eqb_eq in Hd.
    match goal with
    | |- context [shr _ _ ?n] => replace n with 52 by lia
    end.
    cbn [orb shr SpecFloat.iter_pos shr_1 shr_m loc_of_shr_record
           round_nearest_even Zdigits2].
    match goal with
    | |- context [shr _ _ ?n] => replace n with 0 by lia
    end.
    cbn [shr shr_m]. replace (e + -51 + 52) with (e + 1) by lia.
    reflexivity.
  - apply Z.eqb_neq in Hd.
    match goal with
    | |- context [shr _ _ ?n] => replace n with 51 by lia
    end.
    cbn [orb shr SpecFloat.iter_pos shr_1 shr_m loc_of_shr_record
           round_nearest_even Zdigits2 digits2_pos].
    match goal with
    | |- context [shr _ _ ?n] => replace n with 0 by lia
    end.
    cbn [shr shr_m]. replace (e + -51 + 51) with e by lia.
    now rewrite (proj2 (Z.leb_le _ _)) by lia.
Qed.

(** A valid number that is not negative is never greater than its
    double. *)
Lemma gt_double x :
  valid_binary JS.prec JS.emax x = true ->
  (forall m e, x <> S754_finite true m e) ->
  JS.gt x (JS.mul x (JS.ofZ 2)) = false.
Proof.
  intros Hvalid Hsign. destruct x as [s | s | | s m e].
  - now destruct s.
  - now destruct s.
  - reflexivity.
  - destruct s; [now destruct (Hsign m e) |].
    rewrite double_finite by exact Hvalid. unfold JS.gt, SFltb.
    destruct (Z.pos (digits2_pos m) =? 53).
    + destruct (e + 1 <=? 971); [| reflexivity].
      cbn [SFcompare]. now rewrite (proj2 (Z.compare_gt_iff _ _)) by lia.
    + cbn [SFcompare]. rewrite Z.compare_refl.
      change (Pos.compare_cont Eq m~0 m) with (Pos.compare m~0 m).
      now rewrite (proj2 (Pos.compare_gt_iff _ _)) by lia.
Qed.

(** ** Absent inputs, and the one way the engine fails *)

Section Suppression.

Variable env : Env.
Variable previousData : gmap string StockData.t.
Variable intradayDataMap : gmap string (list IntradayPoint.t).
Variable current : StockData.t.

(** Without a previous snapshot the rapid-change check does not fire,
    whatever [changePercent] is. *)
Lemma rapidChange_needs_previous :
  previousData !! StockData.symbol current = None ->
  rapidChangeFires current (previousOf previousData current) = false.
Proof.
  intros Hnone. unfold rapidChangeFires, previousOf. rewrite Hnone.
  rewrite bool_decide_eq_false_2; [reflexivity |].
  intros [x Hx]. discriminate.
Qed.

(** With fewer than two history points the price-spike check does not
    fire. *)
Lemma priceSpike_needs_two_points :
  (length (intradayOf intradayDataMap current) < 2)%nat ->
  priceSpikeFires (intradayOf intradayDataMap current) = false.
Proof.
  intros Hlen. unfold priceSpikeFires. now rewrite historyChange_short.
Qed.

(** With an empty history the baseline is the snapshot's own volume, and a
    volume that is not negative is never above twice itself. *)
Lemma volumeSpike_self_baseline :
  intradayOf intradayDataMap current = [] ->
  valid_binary JS.prec JS.emax (StockData.volume current) = true ->
  (forall m e, StockData.volume current <> S754_finite true m e) ->
  volumeSpikeFires current (baselineOf intradayDataMap current) = false.
Proof.
  intros Hempty Hvalid Hsign.
  unfold volumeSpikeFires, baselineOf, averageVolumeOf.
  rewrite Hempty. cbn [fmap list_fmap length].
  rewrite bool_decide_eq_false_2 by lia.
  apply andb_false_iff. right. now apply gt_double.
Qed.

(** A symbol with neither history nor previous snapshot can only get the
    after-hours alert. *)
Lemma only_after_hours_without_context k :
  previousData !! StockData.symbol current = None ->
  intradayOf intradayDataMap current = [] ->
  valid_binary JS.prec JS.emax (StockData.volume current) = true ->
  (forall m e, StockData.volume current <> S754_finite true m e) ->
  emittedFor env previousData intradayDataMap current k
  = emit (afterHoursFires env current) (afterHoursAlert env current k).
Proof.
  intros Hprev Hhist Hvalid Hsign. unfold emittedFor.
  rewrite rapidChange_needs_previous by assumption.
  rewrite volumeSpike_self_baseline by assumption.
  rewrite priceSpike_needs_two_points by (rewrite Hhist; simpl; lia).
  cbn [emit reads app]. rewrite app_nil_r. do 2 f_equal. lia.
Qed.

End Suppression.


(** C3 -- the engine on a snapshot with the empty symbol whose after-hours
    check fires (2,000,000 shares at 17h): [createAlert] reads
    [traderNames[NaN]], which is [undefined], calls [toLowerCase] on it and
    the call of the engine ends in a [TypeError] instead of returning. *)
Theorem engine_throws_on_empty_symbol :
  generateAlertsFromStockData Sample.evening [Sample.unnamed] ∅ ∅ 0%nat
  = Throw (TypeError
             "Cannot read properties of undefined (reading 'toLowerCase')").
Proof. vm_compute. reflexivity. Qed.

(** The same snapshot in trading hours, where none of its checks fires, goes
    through. *)
Example engine_silent_on_empty_symbol :
  generateAlertsFromStockData Sample.morning [Sample.unnamed] ∅ ∅ 0%nat
  = Normal ([], 0%nat).
Proof. vm_compute. reflexivity. Qed.

(** ** Alert construction *)

(** The trader profile [createAlert] synthesises for a symbol. *)
Definition traderProfileOf (env : Env) (symbol : string) : Trader.t :=
  let traderName := default EmptyString (traderNameOf symbol) in
  {| Trader.id := "TRD" +:+ symbol;
     Trader.name := traderName;
     Trader.email :=
       JS.replaceFirstSpace (JS.toLowerCase traderName) +:+ "@trading.com";
     Trader.firm := "Market Participant";
     Trader.registrationDate := localNewYear2020 env |}.

Lemma raise_type env r severity current detail j :
  ComplianceAlert.type (raise env r severity current detail j)
  = "Market Manipulation"%string.
Proof. destruct r; reflexivity. Qed.

(** The two auxiliary categories are not members of the taxonomy. *)
Lemma auxiliary_categories_outside :
  (ruleCategory VolumeSpike ∉ alertTypes)
  /\ (ruleCategory AfterHours ∉ alertTypes).
Proof. split; apply (proj1 (bool_decide_eq_false _)); reflexivity. Qed.

Lemma emittedFor_raise env previousData intradayDataMap current k a :
  a ∈ emittedFor env previousData intradayDataMap current k ->
  exists r severity detail j, a = raise env r severity current detail j.
Proof.
  intros Hin. apply emittedFor_cases in Hin as (j & [-> | [-> | [-> | ->]]]);
    eexists _, _, _, j; reflexivity.
Qed.

(** The eight names of the pool with their addresses, by index. *)
Lemma traderDirectory_entry i :
  (i < 8)%nat ->
  exists traderName traderEmail,
    ([ ("James Mitchell", "james.mitchell@trading.com");
       ("Sarah Chen", "sarah.chen@trading.com");
       ("Michael Rodriguez", "michael.rodriguez@trading.com");
       ("Emily Johnson", "emily.johnson@trading.com");
       ("David Kim", "david.kim@trading.com");
       ("Lisa Anderson", "lisa.anderson@trading.com");
       ("Robert Taylor", "robert.taylor@trading.com");
       ("Jennifer Martinez", "jennifer.martinez@trading.com") ]%string
      : list (string * string)) !! i
    = Some (traderName, traderEmail)
    /\ traderNames !! i = Some traderName
    /\ JS.replaceFirstSpace (JS.toLowerCase traderName) +:+ "@trading.com"
       = traderEmail.
Proof.
  intros Hlt.
  destruct i as [| [| [| [| [| [| [| [| more]]]]]]]]; [| | | | | | | | lia];
    eexists _, _; repeat split.
Qed.

(** C4 -- Alert construction.  The alerts of a call that returns are the
    blocks of its snapshots, and every alert in the block of a snapshot has
    the type "Market Manipulation", a member of the five-value taxonomy;
    status [New]; the trader whose name and e-mail address are the entry of
    the eight-name pool at index (code of the first character of the
    snapshot's symbol) mod 8, the address being the name in lower case with
    a dot for the space, followed by "@trading.com", whose identifier is
    "TRD" followed by the symbol, and whose firm and registration date are
    fixed;
    and a timeline of exactly one event, with action "Alert Created", user
    "Automated System" and a note with the price and the volume.
    [createAlert] keeps a category of the taxonomy and turns any other one
    -- "Unusual Activity" of the volume-spike check and "Suspicious Trading
    Pattern" of the after-hours check are not members -- into "Market
    Manipulation". *)
Theorem alert_construction env stockData previousData intradayDataMap
    k alerts k' :
  generateAlertsFromStockData env stockData previousData intradayDataMap k
  = Normal (alerts, k') ->
  (exists blocks,
     alerts = concat blocks
     /\ Forall2
          (fun current block =>
             Forall
               (fun a =>
                  ComplianceAlert.type a = "Market Manipulation"%string
                  /\ ComplianceAlert.type a
                     ∈ [ "Market Manipulation"; "Wash Trading"; "Spoofing";
                         "Insider Trading"; "Position Limit Breach" ]%string
                  /\ ComplianceAlert.status a = New
                  /\ (exists c rest traderName traderEmail,
                        StockData.symbol current = String c rest
                        /\ ([ ("James Mitchell",
                               "james.mitchell@trading.com");
                              ("Sarah Chen", "sarah.chen@trading.com");
                              ("Michael Rodriguez",
                               "michael.rodriguez@trading.com");
                              ("Emily Johnson",
                               "emily.johnson@trading.com");
                              ("David Kim", "david.kim@trading.com");
                              ("Lisa Anderson",
                               "lisa.anderson@trading.com");
                              ("Robert Taylor",
                               "robert.taylor@trading.com");
                              ("Jennifer Martinez",
                               "jennifer.martinez@trading.com") ]%string
                             : list (string * string))
                             !! (nat_of_ascii c mod 8)%nat
                           = Some (traderName, traderEmail)
                        /\ ComplianceAlert.trader a
                           = {| Trader.id :=
                                  "TRD" +:+ StockData.symbol current;
                                Trader.name := traderName;
                                Trader.email := traderEmail;
                                Trader.firm := "Market Participant";
                                Trader.registrationDate :=
                                  localNewYear2020 env |})
                  /\ (exists event,
                        ComplianceAlert.timeline a = [event]
                        /\ TimelineEvent.action event
                           = "Alert Created"%string
                        /\ TimelineEvent.user event
                           = "Automated System"%string
                        /\ TimelineEvent.timestamp event
                           = StockData.timestamp current
                        /\ TimelineEvent.notes event
                           = Some ("Detected from live market data - Price: $"
                                     +:+ JS.toFixed (StockData.price current) 2
                                     +:+ ", Volume: "
                                     +:+ toLocaleString env
                                           (StockData.volume current))))
               block)
          stockData blocks)
  /\ (forall type severity snapshot description context j a j',
        createAlert env type severity snapshot description context j
        = Normal (a, j') ->
        ComplianceAlert.type a
        = if bool_decide
               (type ∈ [ "Market Manipulation"; "Wash Trading"; "Spoofing";
                         "Insider Trading"; "Position Limit Breach" ]%string)
          then type else "Market Manipulation"%string)
  /\ ("Unusual Activity"%string
      ∉ [ "Market Manipulation"; "Wash Trading"; "Spoofing";
          "Insider Trading"; "Position Limit Breach" ]%string)
  /\ ("Suspicious Trading Pattern"%string
      ∉ [ "Market Manipulation"; "Wash Trading"; "Spoofing";
          "Insider Trading"; "Position Limit Breach" ]%string).
Proof.
  intros Hrun. split; [| split; [| exact auxiliary_categories_outside]].
  - apply generateAlertsFromStockData_blocks in Hrun
      as (blocks & -> & Hblocks).
    exists blocks. split; [reflexivity |].
    eapply Forall2_impl; [exact Hblocks |].
    intros current block [[i Hblock] Hempty].
    apply Forall_forall. intros a Ha.
    destruct (StockData.symbol current) as [| c rest] eqn:Hsym.
    { rewrite Hempty in Ha by reflexivity.
      apply elem_of_nil in Ha. contradiction. }
    rewrite Hblock in Ha.
    apply emittedFor_raise in Ha as (r & severity & detail & j & ->).
    rewrite raise_type.
    split; [reflexivity |]. split; [left |]. split; [reflexivity |]. split.
    + pose proof (Nat.mod_upper_bound (nat_of_ascii c) 8 ltac:(lia)) as Hlt.
      destruct (traderDirectory_entry _ Hlt)
        as (traderName & traderEmail & Hentry & Hname & Hemail).
      exists c, rest, traderName, traderEmail. split; [reflexivity |].
      split; [exact Hentry |].
      unfold raise, builtAlert. cbn [ComplianceAlert.trader].
      rewrite Hsym. unfold traderNameOf.
      cbn [JS.charCodeAt0 fmap option_fmap option_map mbind option_bind].
      change (length traderNames) with 8%nat.
      rewrite Hname. cbn [default id]. now rewrite Hemail.
    + eexists. repeat split.
  - intros type severity snapshot description context j a j' Hcreate.
    apply createAlert_inv in Hcreate as (_ & -> & _). reflexivity.
Qed.

Lemma alert_construction_witness :
  exists alerts k',
    generateAlertsFromStockData Sample.morning [Sample.tsla] Sample.previous
      Sample.history 0%nat
    = Normal (alerts, k')
    /\ Forall (fun a =>
                 ComplianceAlert.type a = "Market Manipulation"%string
                 /\ ComplianceAlert.status a = New
                 /\ Trader.name (ComplianceAlert.trader a)
                    = "David Kim"%string
                 /\ Trader.email (ComplianceAlert.trader a)
                    = "david.kim@trading.com"%string)
         alerts.
Proof.
  destruct (generateAlertsFromStockData Sample.morning [Sample.tsla]
              Sample.previous Sample.history 0%nat)
    as [[alerts k'] |] eqn:Hrun; [| discriminate Hrun].
  exists alerts, k'. split; [reflexivity |].
  destruct (alert_construction Sample.morning [Sample.tsla] Sample.previous
              Sample.history 0%nat alerts k' Hrun)
    as ((blocks & -> & Hblocks) & _).
  apply Forall2_cons_inv_l in Hblocks as (block & rest & Hblock & Hrest & ->).
  apply Forall2_nil_inv_l in Hrest as ->.
  cbn [concat]. rewrite app_nil_r.
  eapply Forall_impl; [exact Hblock |].
  intros a (Htype & _ & Hstatus
            & (c & rest & name & email & Hsym & Hname & Htrader) & _).
  injection Hsym as <- <-. injection Hname as <- <-.
  rewrite Htrader. repeat split; assumption.
Defined.

(** The cycle of the witness raises three alerts: price spike, volume spike
    (category "Unusual Activity", type "Market Manipulation") and rapid
    change. *)
Example tsla_cycle :
  (ComplianceAlert.description
     <$> emittedAll Sample.morning Sample.previous Sample.history
           [Sample.tsla] 0)
  = [ "TSLA: Significant price movement detected: -8.00% change in 15 minutes";
      "TSLA: Unusual trading volume detected: 233% above average (3,000,000 vs 900,000 avg)";
      "TSLA: Rapid price change: +4.00%" ]%string.
Proof. vm_compute. reflexivity. Qed.

(** ** Determinism *)

(** The result of a call without the count of clock reads. *)
Definition outcome {A : Type} (c : Completion (A * nat)) : Completion A :=
  match c with
  | Normal (a, _) => Normal a
  | Throw e => Throw e
  end.

(** The purity sentence as the specification states it, for two hosts. *)
Definition engine_pure_as_stated (env1 env2 : Env)
    (stockData : list StockData.t) (previousData : gmap string StockData.t)
    (intradayDataMap : gmap string (list IntradayPoint.t)) : Prop :=
  outcome (generateAlertsFromStockData env1 stockData previousData
             intradayDataMap 0%nat)
  = outcome (generateAlertsFromStockData env2 stockData previousData
               intradayDataMap 0%nat).

(** The same three arguments at 10h and at 17h: the second call raises the
    after-hours alert, the first does not. *)
Lemma engine_depends_on_clock :
  ~ engine_pure_as_stated Sample.morning Sample.evening [Sample.tsla]
      Sample.previous Sample.history.
Proof.
  unfold engine_pure_as_stated. vm_compute. intros H.
  apply (f_equal (fun c => match c with
                           | Normal l => length l
                           | Throw _ => 0%nat
                           end)) in H.
  discriminate H.
Qed.

(** The same three arguments at the same instant under an American and a
    German locale: the volumes in the descriptions and in the notes are
    written differently. *)
Example engine_depends_on_locale :
  ~ engine_pure_as_stated Sample.morning Sample.berlin [Sample.tsla]
      Sample.previous Sample.history.
Proof.
  unfold engine_pure_as_stated. vm_compute. intros H.
  apply (f_equal (fun c => match c with
                           | Normal l => ComplianceAlert.description <$> l
                           | Throw _ => []
                           end)) in H.
  discriminate H.
Qed.

Section Determinism.

Variables env1 env2 : Env.

Hypothesis same_side :
  (getHours env1 <? 9) || (16 <=? getHours env1)
  = (getHours env2 <? 9) || (16 <=? getHours env2).
Hypothesis same_zone : localNewYear2020 env1 = localNewYear2020 env2.
Hypothesis same_locale : forall x, toLocaleString env1 x = toLocaleString env2 x.

(** The two hosts give the same [n] values of [Date.now()] from their
    [k1]-th and [k2]-th read on. *)
Definition sameClock (k1 k2 n : nat) : Prop :=
  forall i, (i < n)%nat -> dateNow env1 (k1 + i) = dateNow env2 (k2 + i).

Lemma sameClock_shift k1 k2 n d m :
  (d + m <= n)%nat -> sameClock k1 k2 n -> sameClock (k1 + d) (k2 + d) m.
Proof.
  intros Hle H i Hi. rewrite <- !Nat.add_assoc. apply H. lia.
Qed.

(** Two completions that agree: the same error, or the same value after the
    same number of reads, at most [budget]. *)
Inductive Agree {A : Type} (k1 k2 budget : nat)
  : Completion (A * nat) -> Completion (A * nat) -> Prop :=
| Agree_Normal a d :
    (d <= budget)%nat ->
    Agree k1 k2 budget (Normal (a, (k1 + d)%nat)) (Normal (a, (k2 + d)%nat))
| Agree_Throw e :
    Agree k1 k2 budget (Throw e) (Throw e).

Lemma Agree_ret {A : Type} (a : A) k1 k2 budget :
  Agree k1 k2 budget ((mret a : Eff A) k1) ((mret a : Eff A) k2).
Proof.
  rewrite !Eff_ret_Normal.
  rewrite <- (Nat.add_0_r k1) at 2. rewrite <- (Nat.add_0_r k2) at 2.
  constructor. lia.
Qed.

Lemma Agree_bind {A B : Type} (m1 m2 : Eff A) (f1 f2 : A -> Eff B) k1 k2
    b1 b2 :
  Agree k1 k2 b1 (m1 k1) (m2 k2) ->
  (forall a d, (d <= b1)%nat ->
               Agree (k1 + d) (k2 + d) b2
                 (f1 a (k1 + d)%nat) (f2 a (k2 + d)%nat)) ->
  Agree k1 k2 (b1 + b2) ((m1 ≫= f1) k1) ((m2 ≫= f2) k2).
Proof.
  intros Hm Hf. unfold mbind, Eff_bind.
  inversion Hm as [a d Hd H1 H2 | e H1 H2]; [| constructor].
  specialize (Hf a d Hd).
  inversion Hf as [b d' Hd' H3 H4 | e H3 H4]; [| constructor].
  rewrite <- !Nat.add_assoc. constructor. lia.
Qed.

Lemma Agree_outcome {A : Type} k1 k2 budget (c1 c2 : Completion (A * nat)) :
  Agree k1 k2 budget c1 c2 -> outcome c1 = outcome c2.
Proof. intros [a d Hd | e]; reflexivity. Qed.

Lemma Agree_createAlert type severity stockData description context k1 k2 :
  sameClock k1 k2 2 ->
  Agree k1 k2 2
    (createAlert env1 type severity stockData description context k1)
    (createAlert env2 type severity stockData description context k2).
Proof.
  intros Hclock.
  destruct (decide (StockData.symbol stockData = EmptyString)) as [He | Hne].
  - rewrite !createAlert_Throw by assumption. constructor.
  - rewrite !createAlert_Normal by assumption.
    assert (Hsame :
              builtAlert env1 type severity stockData description k1
              = builtAlert env2 type severity stockData description k2).
    { unfold builtAlert. rewrite same_zone, same_locale.
      pose proof (Hclock 0%nat ltac:(lia)) as H0.
      pose proof (Hclock 1%nat ltac:(lia)) as H1.
      rewrite !Nat.add_0_r in H0. rewrite !Nat.add_1_r in H1.
      now rewrite H0, H1. }
    rewrite Hsame.
    replace (S (S k1)) with (k1 + 2)%nat by lia.
    replace (S (S k2)) with (k2 + 2)%nat by lia.
    constructor. lia.
Qed.

Lemma Agree_push type severity current description context alerts k1 k2 :
  sameClock k1 k2 2 ->
  Agree k1 k2 2
    ((alert ← createAlert env1 type severity current description context;
      mret (alerts ++ [alert])) k1)
    ((alert ← createAlert env2 type severity current description context;
      mret (alerts ++ [alert])) k2).
Proof.
  intros Hclock. refine (Agree_bind _ _ _ _ k1 k2 2 0 _ _).
  - now apply Agree_createAlert.
  - intros a d _. apply Agree_ret.
Qed.

Lemma Agree_forSnapshot previousData intradayDataMap current alerts k1 k2 :
  sameClock k1 k2 8 ->
  Agree k1 k2 8
    (forSnapshot env1 previousData intradayDataMap current alerts k1)
    (forSnapshot env2 previousData intradayDataMap current alerts k2).
Proof.
  intros Hclock. unfold forSnapshot.
  refine (Agree_bind _ _ _ _ k1 k2 2 (2 + (2 + 2)) _ _).
  { unfold checkPriceSpike.
    repeat match goal with
           | |- Agree _ _ _ ((if ?c then _ else _) _) _ => destruct c
           | |- Agree _ _ _
                  ((match ?c with Some _ => _ | None => _ end) _) _ =>
               destruct c
           end;
      try apply Agree_ret.
    apply Agree_push. now apply (sameClock_shift k1 k2 8 0 2) in Hclock;
      [rewrite !Nat.add_0_r in Hclock | lia]. }
  intros l1 d1 Hd1. apply Agree_bind.
  { unfold checkVolumeSpike. rewrite !same_locale.
    destruct (JS.truthy _ && _).
    - apply Agree_push. apply (sameClock_shift k1 k2 8); [lia | exact Hclock].
    - apply Agree_ret. }
  intros l2 d2 Hd2. apply Agree_bind.
  { unfold checkAfterHours. rewrite same_side, !same_locale.
    destruct ((_ || _) && _).
    - apply Agree_push.
      apply (sameClock_shift (k1 + d1) (k2 + d1) 6); [lia |].
      apply (sameClock_shift k1 k2 8); [lia | exact Hclock].
    - apply Agree_ret. }
  intros l3 d3 Hd3.
  unfold checkRapidChange. destruct (bool_decide _ && _).
  - apply Agree_push.
    apply (sameClock_shift (k1 + d1 + d2) (k2 + d1 + d2) 4); [lia |].
    apply (sameClock_shift (k1 + d1) (k2 + d1) 6); [lia |].
    apply (sameClock_shift k1 k2 8); [lia | exact Hclock].
  - apply Agree_ret.
Qed.

Lemma Agree_forEach previousData intradayDataMap stockData alerts k1 k2 :
  sameClock k1 k2 (8 * length stockData) ->
  Agree k1 k2 (8 * length stockData)
    (forEach env1 previousData intradayDataMap stockData alerts k1)
    (forEach env2 previousData intradayDataMap stockData alerts k2).
Proof.
  revert alerts k1 k2.
  induction stockData as [| current rest IH]; intros alerts k1 k2 Hclock.
  - apply Agree_ret.
  - cbn [forEach].
    replace (8 * length (current :: rest))%nat
      with (8 + 8 * length rest)%nat by (simpl; lia).
    apply Agree_bind.
    + apply Agree_forSnapshot.
      intros i Hi. apply Hclock. simpl. lia.
    + intros l d Hd. apply IH.
      apply (sameClock_shift k1 k2 (8 * length (current :: rest)));
        [simpl; lia | exact Hclock].
Qed.

End Determinism.

(** C5 -- Determinism, amended.  The engine is a deterministic function of
    its three arguments together with what it reads from its host: two calls
    with the same snapshots, previous-snapshot map and history map end in
    the same way -- the same alert sequence, or the same error -- when both
    are made inside trading hours (9h to 16h, local time) or both outside,
    in the same time zone, under the same locale, and when they observe the
    same successive values of [Date.now()], of which a call reads at most
    eight per snapshot. *)
Theorem engine_deterministic env1 env2 k1 k2 stockData previousData
    intradayDataMap :
  (getHours env1 < 9 \/ 16 <= getHours env1
   <-> getHours env2 < 9 \/ 16 <= getHours env2) ->
  localNewYear2020 env1 = localNewYear2020 env2 ->
  (forall x, toLocaleString env1 x = toLocaleString env2 x) ->
  (forall i, (i < 8 * length stockData)%nat ->
             dateNow env1 (k1 + i) = dateNow env2 (k2 + i)) ->
  outcome (generateAlertsFromStockData env1 stockData previousData
             intradayDataMap k1)
  = outcome (generateAlertsFromStockData env2 stockData previousData
               intradayDataMap k2).
Proof.
  intros Hside Hzone Hlocale Hclock.
  apply (Agree_outcome k1 k2 (8 * length stockData)).
  unfold generateAlertsFromStockData.
  apply Agree_forEach; try assumption.
  apply eq_true_iff_eq. rewrite !orb_true_iff.
  rewrite !Z.ltb_lt, !Z.leb_le. exact Hside.
Qed.

(** A host whose clock differs at first and agrees from its third read on,
    and which is asked at 11h instead of 10h. *)
Definition resumedHost : Env :=
  {| getHours := 11;
     dateNow := fun k => if (k <? 3)%nat then 5%N else 1700000000000%N;
     localNewYear2020 := 1577836800000;
     toLocaleString := Sample.enUS |}.

Lemma engine_deterministic_witness :
  outcome (generateAlertsFromStockData Sample.morning [Sample.tsla]
             Sample.previous Sample.history 0%nat)
  = outcome (generateAlertsFromStockData resumedHost [Sample.tsla]
               Sample.previous Sample.history 3%nat).
Proof.
  apply (engine_deterministic Sample.morning resumedHost 0%nat 3%nat).
  - simpl. lia.
  - reflexivity.
  - intros x. reflexivity.
  - intros i _. reflexivity.
Defined.

(** ** Alert identifiers *)

(** [`ALT${Date.now()}-${symbol}`]. *)
Definition alertId (now : N) (symbol : string) : string :=
  "ALT" +:+ JS.digits now +:+ "-" +:+ symbol.

Fixpoint hasDash (s : string) : bool :=
  match s with
  | EmptyString => false
  | String c rest => Ascii.eqb c "-"%char || hasDash rest
  end.

Lemma digits_no_dash n : hasDash (JS.digits n) = false.
Proof.
  unfold JS.digits. generalize (N.to_uint n). intros u.
  induction u; simpl; auto.
Qed.

(** Two strings "<digits>-<rest>" are equal only part by part. *)
Lemma dash_separated d1 d2 s1 s2 :
  hasDash d1 = false -> hasDash d2 = false ->
  d1 +:+ "-" +:+ s1 = d2 +:+ "-" +:+ s2 -> d1 = d2 /\ s1 = s2.
Proof.
  revert d2. induction d1 as [| c1 d1 IH]; intros [| c2 d2] H1 H2 Heq.
  - change (String "-" s1 = String "-" s2) in Heq.
    injection Heq as ->. now split.
  - change (String "-" s1 = String c2 (d2 +:+ "-" +:+ s2)) in Heq.
    injection Heq as <- _. discriminate H2.
  - change (String c1 (d1 +:+ "-" +:+ s1) = String "-" s2) in Heq.
    injection Heq as -> _. discriminate H1.
  - change (String c1 (d1 +:+ "-" +:+ s1) = String c2 (d2 +:+ "-" +:+ s2))
      in Heq.
    injection Heq as -> Heq.
    apply orb_false_iff in H1 as [_ H1]. apply orb_false_iff in H2 as [_ H2].
    destruct (IH d2 H1 H2 Heq) as [-> ->]. now split.
Qed.

Lemma alertId_inj now1 now2 symbol1 symbol2 :
  alertId now1 symbol1 = alertId now2 symbol2 ->
  JS.digits now1 = JS.digits now2 /\ symbol1 = symbol2.
Proof.
  unfold alertId. intros Heq.
  change (String "A" (String "L" (String "T"
            (JS.digits now1 +:+ "-" +:+ symbol1)))
          = String "A" (String "L" (String "T"
              (JS.digits now2 +:+ "-" +:+ symbol2)))) in Heq.
  injection Heq as Heq.
  apply dash_separated; auto using digits_no_dash.
Qed.

Lemma raise_id env r severity current detail j :
  ComplianceAlert.id (raise env r severity current detail j)
  = alertId (dateNow env j) (StockData.symbol current).
Proof. reflexivity. Qed.

(** C10 -- Alert identifiers.  The identifier of every alert the engine
    returns is "ALT", the value of [Date.now()] read when the alert was built
    (one of the reads of this call), "-", and the symbol of the snapshot it
    was built for.  Hence two alerts built for the same symbol while
    [Date.now()] shows the same millisecond carry the same identifier,
    whatever rules raised them, and alerts of different symbols never share
    an identifier. *)
Theorem alert_identifier env stockData previousData intradayDataMap
    k alerts k' :
  generateAlertsFromStockData env stockData previousData intradayDataMap k
  = Normal (alerts, k') ->
  Forall (fun a =>
            exists current j,
              current ∈ stockData
              /\ (k <= j < k')%nat
              /\ RaisedAt env current j a
              /\ ComplianceAlert.id a
                 = ("ALT" +:+ JS.digits (dateNow env j) +:+ "-"
                      +:+ StockData.symbol current)%string) alerts
  /\ (forall currentA currentB jA jB a b,
        RaisedAt env currentA jA a -> RaisedAt env currentB jB b ->
        (StockData.symbol currentA = StockData.symbol currentB ->
         dateNow env jA = dateNow env jB ->
         ComplianceAlert.id a = ComplianceAlert.id b)
        /\ (StockData.symbol currentA <> StockData.symbol currentB ->
            ComplianceAlert.id a <> ComplianceAlert.id b)).
Proof.
  intros Hrun. split.
  - apply generateAlertsFromStockData_inv in Hrun.
    eapply Forall_impl; [exact Hrun |].
    intros a (current & Hin & j & Hj & Ha).
    exists current, j. split; [exact Hin |]. split; [lia |].
    split; [exact Ha |].
    destruct Ha as (r & severity & detail & _ & ->). apply raise_id.
  - intros currentA currentB jA jB a b
      (rA & sevA & detA & _ & ->) (rB & sevB & detB & _ & ->).
    rewrite !raise_id. split.
    + intros -> ->. reflexivity.
    + intros Hne Heq. apply alertId_inj in Heq as [_ Heq]. contradiction.
Qed.

Lemma alert_identifier_witness :
  Forall (fun a =>
            exists current j,
              current ∈ [Sample.tsla]
              /\ (0 <= j < 6)%nat
              /\ RaisedAt Sample.morning current j a
              /\ ComplianceAlert.id a
                 = ("ALT" +:+ JS.digits (dateNow Sample.morning j) +:+ "-"
                      +:+ StockData.symbol current)%string)
    (emittedAll Sample.morning Sample.previous Sample.history
       [Sample.tsla] 0)
  /\ (forall currentA currentB jA jB a b,
        RaisedAt Sample.morning currentA jA a ->
        RaisedAt Sample.morning currentB jB b ->
        (StockData.symbol currentA = StockData.symbol currentB ->
         dateNow Sample.morning jA = dateNow Sample.morning jB ->
         ComplianceAlert.id a = ComplianceAlert.id b)
        /\ (StockData.symbol currentA <> StockData.symbol currentB ->
            ComplianceAlert.id a <> ComplianceAlert.id b)).
Proof.
  apply (alert_identifier Sample.morning [Sample.tsla] Sample.previous
           Sample.history 0%nat).
  rewrite generateAlertsFromStockData_Normal.
  - reflexivity.
  - repeat constructor. discriminate.
Defined.

(** The three alerts of the TSLA cycle, raised by three rules within one
    millisecond, all carry the identifier "ALT1700000000000-TSLA". *)
Example tsla_cycle_identifiers :
  (ComplianceAlert.id
     <$> emittedAll Sample.morning Sample.previous Sample.history
           [Sample.tsla] 0)
  = [ "ALT1700000000000-TSLA"; "ALT1700000000000-TSLA";
      "ALT1700000000000-TSLA" ]%string.
Proof. vm_compute. reflexivity. Qed.

(** ** The store merge *)

Section ArraySortFacts.

Context {A : Type}.

Variable compareFn : A -> A -> Z.

Lemma insertSorted_Permutation x l : insertSorted compareFn x l ≡ₚ x :: l.
Proof.
  induction l as [| y rest IH]; simpl; [reflexivity |].
  destruct (compareFn x y <=? 0); [reflexivity |].
  rewrite IH. apply Permutation_swap.
Qed.

Lemma arraySort_Permutation l : arraySort compareFn l ≡ₚ l.
Proof.
  induction l as [| x rest IH]; simpl; [reflexivity |].
  rewrite insertSorted_Permutation. now rewrite IH.
Qed.

(** Inserting [x] in front of a list leaves in place, behind [x], every
    subsequence of elements that [x] does not have to follow. *)
Lemma insertSorted_sublist x kept l :
  Forall (fun y => compareFn x y <= 0) kept ->
  kept `sublist_of` l ->
  x :: kept `sublist_of` insertSorted compareFn x l.
Proof.
  intros Hkept. induction l as [| y rest IH] in kept, Hkept |- *; intros Hsub.
  - apply sublist_nil_r in Hsub as ->. simpl. reflexivity.
  - simpl. destruct (compareFn x y <=? 0) eqn:Hcmp.
    + now apply sublist_skip.
    + apply Z.leb_gt in Hcmp.
      apply sublist_cons_r in Hsub as [Hsub | (kept' & -> & Hsub)].
      * apply sublist_cons. now apply IH.
      * apply Forall_cons in Hkept as [Hy _]. lia.
Qed.

(** Sorting is stable on a prefix that is already in order: it stays a
    subsequence of the result. *)
Lemma arraySort_keeps_sorted_prefix front back :
  StronglySorted (fun a b => compareFn a b <= 0) front ->
  front `sublist_of` arraySort compareFn (front ++ back).
Proof.
  induction 1 as [| x front Hsorted IH Hx]; simpl.
  - apply sublist_nil_l.
  - apply insertSorted_sublist; assumption.
Qed.

(** With a comparator [key b - key a] the result is in descending order of
    the key. *)
Section Descending.

Variable key : A -> Z.

Hypothesis compareFn_key : forall a b, compareFn a b = key b - key a.

Let above (a b : A) : Prop := key b <= key a.

Lemma insertSorted_descending x l :
  StronglySorted above l -> StronglySorted above (insertSorted compareFn x l).
Proof.
  induction 1 as [| y rest Hrest IH Hy]; simpl.
  - repeat constructor.
  - rewrite compareFn_key. destruct (key y - key x <=? 0) eqn:Hcmp.
    + apply Z.leb_le in Hcmp. constructor; [now constructor |].
      constructor; [unfold above; lia |].
      eapply Forall_impl; [exact Hy |]. unfold above. intros z Hz. lia.
    + apply Z.leb_gt in Hcmp. constructor; [exact IH |].
      rewrite insertSorted_Permutation.
      constructor; [unfold above; lia | exact Hy].
Qed.

Lemma arraySort_descending l : StronglySorted above (arraySort compareFn l).
Proof.
  induction l as [| x rest IH]; simpl; [constructor |].
  now apply insertSorted_descending.
Qed.

End Descending.

End ArraySortFacts.

(** The comparator of the merge and the order it sorts by. *)
Definition newestFirst (a b : ComplianceAlert.t) : Z :=
  ComplianceAlert.timestamp b - ComplianceAlert.timestamp a.

Definition NewestFirst (alerts : list ComplianceAlert.t) : Prop :=
  StronglySorted
    (fun a b => ComplianceAlert.timestamp b <= ComplianceAlert.timestamp a)
    alerts.

Lemma NewestFirst_compare alerts :
  NewestFirst alerts ->
  StronglySorted (fun a b => newestFirst a b <= 0) alerts.
Proof.
  induction 1 as [| a rest Hrest IH Ha]; constructor; [exact IH |].
  eapply Forall_impl; [exact Ha |].
  intros b Hb. unfold newestFirst. simpl in Hb. lia.
Qed.

(** The alerts of the batch that the merge keeps. *)
Definition newUniqueAlerts (newAlerts prev : list ComplianceAlert.t)
  : list ComplianceAlert.t :=
  filter (fun a => ComplianceAlert.id a ∉ ComplianceAlert.id <$> prev)
    newAlerts.

Lemma mergeAlerts_unfold newAlerts prev :
  App.mergeAlerts newAlerts prev
  = arraySort newestFirst (prev ++ newUniqueAlerts newAlerts prev).
Proof.
  unfold App.mergeAlerts, newUniqueAlerts. do 2 f_equal.
  apply list_filter_iff. intros a.
  rewrite elem_of_list_to_set. reflexivity.
Qed.

Lemma mergeAlerts_Permutation newAlerts prev :
  App.mergeAlerts newAlerts prev ≡ₚ prev ++ newUniqueAlerts newAlerts prev.
Proof. rewrite mergeAlerts_unfold. apply arraySort_Permutation. Qed.

Lemma mergeAlerts_NewestFirst newAlerts prev :
  NewestFirst (App.mergeAlerts newAlerts prev).
Proof.
  rewrite mergeAlerts_unfold.
  apply (arraySort_descending newestFirst ComplianceAlert.timestamp).
  reflexivity.
Qed.

Lemma mergeAlerts_NoDup newAlerts prev :
  NoDup (ComplianceAlert.id <$> prev) ->
  NoDup (ComplianceAlert.id <$> newAlerts) ->
  NoDup (ComplianceAlert.id <$> App.mergeAlerts newAlerts prev).
Proof.
  intros Hprev Hnew. rewrite mergeAlerts_Permutation.
  rewrite fmap_app. apply NoDup_app. split; [exact Hprev |]. split.
  - intros i Hi Hi'.
    apply list_elem_of_fmap in Hi' as (a & -> & Ha).
    apply list_elem_of_filter in Ha as [Hnot _]. contradiction.
  - refine (sublist_NoDup _ _ Hnew _).
    apply fmap_sublist. apply sublist_filter.
Qed.

(** The merge sentence as the specification states it. *)
Definition merge_as_stated (newAlerts prev : list ComplianceAlert.t) : Prop :=
  NoDup (ComplianceAlert.id <$> prev) ->
  NoDup (ComplianceAlert.id <$> App.mergeAlerts newAlerts prev)
  /\ (forall a, a ∈ prev -> a ∈ App.mergeAlerts newAlerts prev)
  /\ prev `sublist_of` App.mergeAlerts newAlerts prev.

Module Stored.

(** An alert as it sits in the store, reduced to what the merge reads. *)
Definition alert (id : string) (timestamp : Z) (status : Status)
    (timeline : list TimelineEvent.t) : ComplianceAlert.t :=
  {| ComplianceAlert.id := id;
     ComplianceAlert.type := "Wash Trading";
     ComplianceAlert.severity := Medium;
     ComplianceAlert.status := status;
     ComplianceAlert.trader := traderProfileOf Sample.morning "AAPL";
     ComplianceAlert.timestamp := timestamp;
     ComplianceAlert.description := "Repeated offsetting trades";
     ComplianceAlert.detectedBy := "Pattern Recognition Engine";
     ComplianceAlert.investigationNotes := EmptyString;
     ComplianceAlert.timeline := timeline |}.

Definition older : ComplianceAlert.t := alert "ALT-001" 1000 New [].
Definition newer : ComplianceAlert.t := alert "ALT-002" 2000 New [].

End Stored.

(** A store that lists an alert of 1000 ms before one of 2000 ms, merged
    with an empty batch: the sort puts the newer alert first. *)
Lemma merge_reorders_existing :
  ~ merge_as_stated [] [Stored.older; Stored.newer].
Proof.
  unfold merge_as_stated. intros H.
  assert (Hids : NoDup (ComplianceAlert.id
                          <$> [Stored.older; Stored.newer])).
  { apply (bool_decide_unpack _). vm_compute. exact I. }
  destruct (H Hids) as (_ & _ & Hsub).
  vm_compute in Hsub.
  apply sublist_cons_r in Hsub as [Hsub | (l' & Heq & _)].
  - apply sublist_length in Hsub. simpl in Hsub. lia.
  - discriminate Heq.
Qed.

(** C6 -- Store merge, amended.  Merging a batch into the existing
    collection yields the existing alerts together with the batch alerts
    whose identifier is not in the collection -- each of these as often as
    it occurs, and nothing else -- sorted by descending time stamp: every
    pre-existing alert is still present, every batch alert with an
    identifier that is not stored has been added, every other alert of the
    result comes from the batch and carries an identifier no pre-existing
    alert has, no two alerts share an identifier when that holds of the
    collection and of the batch, and the pre-existing alerts keep their
    relative order when the collection is already ordered by descending
    time stamp. *)
Theorem merge_alerts newAlerts prev :
  App.mergeAlerts newAlerts prev
    ≡ₚ prev ++ filter (fun a => ComplianceAlert.id a
                                ∉ ComplianceAlert.id <$> prev) newAlerts
  /\ StronglySorted
       (fun a b => ComplianceAlert.timestamp b <= ComplianceAlert.timestamp a)
       (App.mergeAlerts newAlerts prev)
  /\ (forall a, a ∈ prev -> a ∈ App.mergeAlerts newAlerts prev)
  /\ (forall a,
        a ∈ newAlerts ->
        ComplianceAlert.id a ∉ ComplianceAlert.id <$> prev ->
        a ∈ App.mergeAlerts newAlerts prev)
  /\ (forall a, a ∈ App.mergeAlerts newAlerts prev ->
      a ∈ prev
      \/ (a ∈ newAlerts
          /\ ComplianceAlert.id a ∉ ComplianceAlert.id <$> prev))
  /\ (NoDup (ComplianceAlert.id <$> prev) ->
      NoDup (ComplianceAlert.id <$> newAlerts) ->
      NoDup (ComplianceAlert.id <$> App.mergeAlerts newAlerts prev))
  /\ (NewestFirst prev -> prev `sublist_of` App.mergeAlerts newAlerts prev).
Proof.
  split; [apply mergeAlerts_Permutation |].
  split; [apply mergeAlerts_NewestFirst |]. repeat split.
  - intros a Ha. rewrite mergeAlerts_Permutation. set_solver.
  - intros a Ha Hfresh. rewrite mergeAlerts_Permutation.
    apply elem_of_app. right. apply list_elem_of_filter. now split.
  - intros a Ha. rewrite mergeAlerts_Permutation in Ha.
    apply elem_of_app in Ha as [Ha | Ha]; [now left | right].
    apply list_elem_of_filter in Ha as [Hnot Hin]. now split.
  - apply mergeAlerts_NoDup.
  - intros Hsorted. rewrite mergeAlerts_unfold.
    apply arraySort_keeps_sorted_prefix.
    now apply NewestFirst_compare.
Qed.

(** A collection already ordered newest first, merged with a batch one of
    whose alerts repeats an identifier of the collection. *)
Lemma merge_alerts_witness :
  [Stored.newer; Stored.older]
    `sublist_of` App.mergeAlerts
                   [Stored.alert "ALT-003" 1500 New [];
                    Stored.alert "ALT-001" 3000 New []]
                   [Stored.newer; Stored.older]
  /\ NoDup (ComplianceAlert.id
              <$> App.mergeAlerts
                    [Stored.alert "ALT-003" 1500 New [];
                     Stored.alert "ALT-001" 3000 New []]
                    [Stored.newer; Stored.older])
  /\ Stored.alert "ALT-003" 1500 New []
     ∈ App.mergeAlerts
         [Stored.alert "ALT-003" 1500 New [];
          Stored.alert "ALT-001" 3000 New []]
         [Stored.newer; Stored.older].
Proof.
  destruct (merge_alerts
              [Stored.alert "ALT-003" 1500 New [];
               Stored.alert "ALT-001" 3000 New []]
              [Stored.newer; Stored.older])
    as (_ & _ & _ & Hadded & _ & Hids & Horder).
  split; [| split].
  - apply Horder. repeat constructor. simpl. lia.
  - apply Hids; apply (bool_decide_unpack _); vm_compute; exact I.
  - apply Hadded; [left |].
    apply (bool_decide_unpack _). vm_compute. exact I.
Defined.

Example merge_alerts_sample :
  ComplianceAlert.id
    <$> App.mergeAlerts
          [Stored.alert "ALT-003" 1500 New [];
           Stored.alert "ALT-001" 3000 New []]
          [Stored.newer; Stored.older]
  = ["ALT-002"; "ALT-003"; "ALT-001"]%string.
Proof. vm_compute. reflexivity. Qed.

(** The batch of the TSLA cycle merged into an empty store: the filter only
    looks at the identifiers already stored, and the three alerts of the
    batch, which share one identifier, are all kept. *)
Example merge_keeps_batch_duplicates :
  ComplianceAlert.id
    <$> App.mergeAlerts
          (emittedAll Sample.morning Sample.previous Sample.history
             [Sample.tsla] 0) []
  = [ "ALT1700000000000-TSLA"; "ALT1700000000000-TSLA";
      "ALT1700000000000-TSLA" ]%string.
Proof. vm_compute. reflexivity. Qed.

(** ** Numbers that are not negative *)

(** A number whose sign bit is not set; [NaN] carries none. *)
Definition notNegative (x : JS.number) : Prop :=
  match x with
  | S754_zero s | S754_infinity s | S754_finite s _ _ => s = false
  | S754_nan => True
  end.

Lemma binary_round_aux_sign s m e l :
  match binary_round_aux JS.prec JS.emax s m e l with
  | S754_zero s' | S754_infinity s' | S754_finite s' _ _ => s' = s
  | S754_nan => True
  end.
Proof.
  unfold binary_round_aux.
  destruct (shr_fexp _ _ _ _ _) as [mrs1 e1].
  destruct (shr_fexp _ _ _ _ _) as [mrs2 e2].
  destruct (shr_m mrs2); [reflexivity | | exact I].
  now destruct (e2 <=? JS.emax - JS.prec).
Qed.

Lemma ofNat_notNegative n : notNegative (JS.ofNat n).
Proof.
  unfold JS.ofNat, JS.ofZ, binary_normalize.
  destruct (Z.of_nat n) as [| m | m] eqn:Hn; [reflexivity | | lia].
  unfold binary_round. destruct (shl_align _ _ _) as [mz ez].
  apply binary_round_aux_sign.
Qed.

Lemma div_notNegative x y :
  notNegative x -> notNegative y -> notNegative (JS.div x y).
Proof.
  destruct x as [sx | sx | | sx mx ex], y as [sy | sy | | sy my ey];
    simpl; intros Hx Hy; subst; try reflexivity; try exact I.
  destruct (SFdiv_core_binary _ _ _ _ _ _) as [[mz ez] lz].
  apply (binary_round_aux_sign false).
Qed.

Lemma mul_notNegative x y :
  notNegative x -> notNegative y -> notNegative (JS.mul x y).
Proof.
  destruct x as [sx | sx | | sx mx ex], y as [sy | sy | | sy my ey];
    simpl; intros Hx Hy; subst; try reflexivity; try exact I.
  apply (binary_round_aux_sign false).
Qed.

Lemma toQ_notNegative x q :
  notNegative x -> JS.toQ x = Some q -> (0 <= q)%Q.
Proof.
  destruct x as [s | s | | s m e]; simpl; try discriminate.
  - intros _ [= <-]. apply Qle_refl.
  - intros -> [= <-]. simpl. destruct e as [| p | p].
    + unfold Qle. simpl. lia.
    + unfold Qle. simpl. pose proof (Z.pow_pos_nonneg 2 (Z.pos p)). lia.
    + unfold Qle. simpl. lia.
Qed.

(** A percentage of counts is not negative. *)
Lemma percent_notNegative part whole :
  notNegative (JS.mul (JS.div (JS.ofNat part) (JS.ofNat whole)) (JS.ofZ 100)).
Proof.
  apply mul_notNegative; [| reflexivity].
  apply div_notNegative; apply ofNat_notNegative.
Qed.

(** [Math.round] of a finite number: the integer nearest to it, the larger
    one on a tie; a number in [[-0.5, 0)], or [-0] itself, gives [-0]. *)
Lemma round_nearest x q :
  JS.toQ x = Some q ->
  exists z : Z,
    (q - (1 # 2) < inject_Z z)%Q
    /\ (inject_Z z <= q + (1 # 2))%Q
    /\ (JS.round x = JS.ofZ z \/ (z = 0 /\ JS.round x = S754_zero true)).
Proof.
  intros Hq.
  assert (Hnear : (q - (1 # 2) < inject_Z (Qfloor (q + (1 # 2))))%Q
                  /\ (inject_Z (Qfloor (q + (1 # 2))) <= q + (1 # 2))%Q).
  { pose proof (Qfloor_le (q + (1 # 2))) as Hle.
    pose proof (Qlt_floor (q + (1 # 2))) as Hlt.
    rewrite inject_Z_plus in Hlt. change (inject_Z 1) with 1%Q in Hlt.
    split; [lra | exact Hle]. }
  destruct x as [s | s | | s m e]; try discriminate Hq.
  - injection Hq as <-. exists 0. split; [reflexivity |].
    split; [discriminate |].
    destruct s; [right; now split | left; reflexivity].
  - exists (Qfloor (q + (1 # 2))).
    split; [apply Hnear |]. split; [apply Hnear |].
    unfold JS.round. rewrite Hq.
    destruct (Qfloor (q + (1 # 2)) =? 0) eqn:Hz; [| now left].
    apply Z.eqb_eq in Hz. rewrite Hz.
    destruct s; [right; now split | left; reflexivity].
Qed.

Lemma round_nearest_notNegative x q :
  notNegative x -> JS.toQ x = Some q ->
  exists z : Z,
    (q - (1 # 2) < inject_Z z)%Q
    /\ (inject_Z z <= q + (1 # 2))%Q
    /\ JS.round x = JS.ofZ z.
Proof.
  intros Hsign Hq.
  destruct (round_nearest x q Hq) as (z & Hlo & Hhi & [Hz | [-> Hz]]).
  - now exists z.
  - exfalso. destruct x as [s | s | | s m e]; try discriminate Hq;
      simpl in Hsign; subst s.
    + discriminate Hz.
    + unfold JS.round in Hz. rewrite Hq in Hz.
      destruct (Qfloor (q + (1 # 2)) =? 0) eqn:Hzero; [discriminate Hz |].
      assert (Hfl : Qfloor (q + (1 # 2)) = 0).
      { pose proof (Qfloor_le (q + (1 # 2))) as Hle.
        pose proof (Qlt_floor (q + (1 # 2))) as Hlt.
        rewrite inject_Z_plus in Hlt. change (inject_Z 1) with 1%Q in Hlt.
        change (inject_Z 0) with 0%Q in Hlo, Hhi.
        assert (H1 : (inject_Z (Qfloor (q + (1 # 2))) < inject_Z 1)%Q)
          by (change (inject_Z 1) with 1%Q; lra).
        assert (H2 : (inject_Z (-1) < inject_Z (Qfloor (q + (1 # 2))))%Q)
          by (change (inject_Z (-1)) with (-1 # 1)%Q; lra).
        rewrite <- Zlt_Qlt in H1, H2. lia. }
      rewrite Hfl in Hzero. discriminate Hzero.
Qed.

(** ** The false-positive rate *)

(** [parseFloat(x.toFixed(1))] of a number that is not negative and below
    10^21: the number nearest to [tenths / 10], where [tenths] is the integer
    nearest to ten times the number (the larger one on a tie). *)
Lemma parseFloatToFixed_tenths x q :
  JS.toQ x = Some q -> (0 <= q)%Q -> Qle_bool JS.tenTo21 q = false ->
  exists tenths : Z,
    JS.parseFloatToFixed x 1 = JS.ofRatio tenths 10
    /\ (q * 10 - (1 # 2) < inject_Z tenths)%Q
    /\ (inject_Z tenths <= q * 10 + (1 # 2))%Q.
Proof.
  intros Hq Hpos Hsmall.
  assert (Habs : Qabs q = q).
  { destruct q as [n d]. unfold Qle in Hpos. simpl in Hpos.
    unfold Qabs. f_equal. lia. }
  assert (Hsign : JS.Qltb q 0 = false).
  { unfold JS.Qltb. apply negb_false_iff. now apply Qle_bool_iff. }
  exists (Qfloor (q * 10 + (1 # 2))). split.
  - unfold JS.parseFloatToFixed. rewrite Hq, Habs, Hsmall, Hsign.
    reflexivity.
  - pose proof (Qfloor_le (q * 10 + (1 # 2))) as Hle.
    pose proof (Qlt_floor (q * 10 + (1 # 2))) as Hlt.
    rewrite inject_Z_plus in Hlt.
    change (inject_Z 1) with 1%Q in Hlt.
    split; [lra | exact Hle].
Qed.

Lemma processed_none_when_all_new alerts :
  Forall (fun a => ComplianceAlert.status a = New) alerts ->
  App.MetricsRevised.processedAlerts alerts = [].
Proof.
  unfold App.MetricsRevised.processedAlerts.
  induction 1 as [| a rest Ha _ IH]; [reflexivity |].
  rewrite filter_cons, decide_False by (intros Hne; contradiction).
  exact IH.
Qed.

(** The sentence of the specification, of a metric that is either a number
    or undefined: undefined when no alert has been processed, and otherwise
    [dismissed / processed * 100] in one decimal. *)
Definition false_positive_rate_as_stated
    (metric : list ComplianceAlert.t -> option JS.number)
    (alerts : list ComplianceAlert.t) : Prop :=
  let processed :=
    length (filter (fun a => ComplianceAlert.status a ≠ New) alerts) in
  let dismissed :=
    length (filter (fun a => ComplianceAlert.status a = Dismissed) alerts) in
  if decide (processed = 0%nat) then metric alerts = None
  else metric alerts
       = Some (JS.parseFloatToFixed
                 (JS.mul (JS.div (JS.ofNat dismissed) (JS.ofNat processed))
                    (JS.ofZ 100)) 1).

(** The metrics of [src/App.tsx] on a store of two [New] alerts: the rate is
    the number 0, not undefined. *)
Lemma false_positive_rate_zero_when_all_new :
  ~ false_positive_rate_as_stated
      (fun alerts => Some (App.Metrics.falsePositiveRate alerts))
      [Stored.older; Stored.newer].
Proof.
  unfold false_positive_rate_as_stated. vm_compute. discriminate.
Qed.

(** C7 -- False-positive rate, amended.  With [processed] the number of
    alerts whose status is not [New], [dismissed] the number of [Dismissed]
    alerts and [total] the number of all alerts:

    - in the later revision of the page ([src/unnamed/part_004]) the metric
      is undefined ([None], the source's [null]) when [processed] is 0 -- in
      particular for a collection, empty or not, all of whose alerts are
      [New] -- and otherwise it is the number [dismissed / processed * 100],
      computed in binary64, in one decimal: that number is not negative, and
      when it is the finite number [q] below 10^21 the metric is the number
      nearest to [tenths / 10], for the integer [tenths] nearest to [10 * q]
      (the larger one on a tie); a number that is not finite or not below
      10^21 is shown as it is;
    - in [src/App.tsx] the metric is never undefined: it is the number 0
      for the empty collection and otherwise [dismissed / total * 100],
      computed in binary64 and rounded by [Math.round]: when that number is
      the finite number [q], the metric is the integer nearest to [q] (the
      larger one on a tie). *)
Theorem false_positive_rate alerts :
  let total := length alerts in
  let processed :=
    length (filter (fun a => ComplianceAlert.status a ≠ New) alerts) in
  let dismissed :=
    length (filter (fun a => ComplianceAlert.status a = Dismissed) alerts) in
  let percent :=
    JS.mul (JS.div (JS.ofNat dismissed) (JS.ofNat processed)) (JS.ofZ 100) in
  let percentOfTotal :=
    JS.mul (JS.div (JS.ofNat dismissed) (JS.ofNat total)) (JS.ofZ 100) in
  ((processed = 0%nat -> App.MetricsRevised.falsePositiveRate alerts = None)
   /\ (Forall (fun a => ComplianceAlert.status a = New) alerts ->
       App.MetricsRevised.falsePositiveRate alerts = None)
   /\ (processed <> 0%nat ->
       App.MetricsRevised.falsePositiveRate alerts
       = Some (JS.parseFloatToFixed percent 1)
       /\ (forall m e, percent <> S754_finite true m e)
       /\ match JS.toQ percent with
          | Some q =>
              if Qle_bool (inject_Z (10 ^ 21)) q then
                App.MetricsRevised.falsePositiveRate alerts = Some percent
              else
                exists tenths : Z,
                  App.MetricsRevised.falsePositiveRate alerts
                  = Some (JS.ofRatio tenths 10)
                  /\ (q * 10 - (1 # 2) < inject_Z tenths)%Q
                  /\ (inject_Z tenths <= q * 10 + (1 # 2))%Q
          | None =>
              App.MetricsRevised.falsePositiveRate alerts = Some percent
          end))
  /\ (total = 0%nat -> App.Metrics.falsePositiveRate alerts = JS.ofZ 0)
  /\ (total <> 0%nat ->
      App.Metrics.falsePositiveRate alerts = JS.round percentOfTotal
      /\ forall q,
           JS.toQ percentOfTotal = Some q ->
           exists whole : Z,
             App.Metrics.falsePositiveRate alerts = JS.ofZ whole
             /\ (q - (1 # 2) < inject_Z whole)%Q
             /\ (inject_Z whole <= q + (1 # 2))%Q).
Proof.
  intros total processed dismissed percent percentOfTotal.
  split; [| split].
  - unfold App.MetricsRevised.falsePositiveRate.
    fold (App.MetricsRevised.processedAlerts alerts) in processed.
    split; [| split].
    + intros Hzero. fold processed.
      now rewrite bool_decide_eq_false_2 by lia.
    + intros Hnew. rewrite processed_none_when_all_new by assumption.
      reflexivity.
    + intros Hpos. fold processed.
      rewrite bool_decide_eq_true_2 by lia.
      pose proof (percent_notNegative dismissed processed) as Hsign.
      fold percent in Hsign.
      change (JS.parseFloatToFixed _ 1)
        with (JS.parseFloatToFixed percent 1).
      split; [reflexivity |]. split.
      * intros m e Heq. rewrite Heq in Hsign. discriminate Hsign.
      * destruct (JS.toQ percent) as [q |] eqn:Hq.
        -- change (inject_Z (10 ^ 21)) with JS.tenTo21.
           pose proof (toQ_notNegative _ _ Hsign Hq) as Hq0.
           destruct (Qle_bool JS.tenTo21 q) eqn:Hsmall.
           ++ f_equal. unfold JS.parseFloatToFixed. rewrite Hq.
              replace (Qabs q) with q; [now rewrite Hsmall |].
              destruct q as [n d]. unfold Qle in Hq0. simpl in Hq0.
              unfold Qabs. f_equal. lia.
           ++ destruct (parseFloatToFixed_tenths percent q Hq Hq0 Hsmall)
                as (tenths & Heq & Hnear).
              exists tenths. split; [| exact Hnear].
              f_equal. exact Heq.
        -- f_equal. unfold JS.parseFloatToFixed. now rewrite Hq.
  - intros Hzero. unfold App.Metrics.falsePositiveRate, App.totalAlerts.
    fold total. now rewrite bool_decide_eq_false_2 by lia.
  - intros Hpos.
    assert (Hrate : App.Metrics.falsePositiveRate alerts
                    = JS.round percentOfTotal).
    { unfold App.Metrics.falsePositiveRate, App.totalAlerts.
      fold total. now rewrite bool_decide_eq_true_2 by lia. }
    split; [exact Hrate |]. intros q Hq.
    destruct (round_nearest_notNegative percentOfTotal q
                (percent_notNegative dismissed total) Hq)
      as (whole & Hlo & Hhi & Hround).
    exists whole. rewrite Hrate. now repeat split.
Qed.

Module Rated.

(** [dismissed] dismissed alerts followed by [others] resolved ones. *)
Definition store (dismissed others : nat) : list ComplianceAlert.t :=
  replicate dismissed (Stored.alert "ALT-004" 4000 Dismissed [])
  ++ replicate others (Stored.alert "ALT-005" 5000 Resolved []).

End Rated.

Lemma false_positive_rate_witness :
  App.MetricsRevised.falsePositiveRate [Stored.older; Stored.newer] = None
  /\ App.MetricsRevised.falsePositiveRate (Stored.older :: Rated.store 1 2)
     = Some (JS.ofRatio 333 10)
  /\ App.Metrics.falsePositiveRate (Stored.older :: Rated.store 1 2)
     = JS.ofZ 25.
Proof.
  split; [| split].
  - apply (false_positive_rate [Stored.older; Stored.newer]).
    repeat constructor.
  - destruct (false_positive_rate (Stored.older :: Rated.store 1 2))
      as [(_ & _ & Hrate) _].
    destruct Hrate as (Hrate & _); [vm_compute; discriminate |].
    rewrite Hrate. vm_compute. reflexivity.
  - destruct (false_positive_rate (Stored.older :: Rated.store 1 2))
      as (_ & _ & Hrate).
    destruct Hrate as (Hrate & _); [vm_compute; discriminate |].
    rewrite Hrate. vm_compute. reflexivity.
Defined.

(** 23 dismissed alerts out of 80 processed ones: the quotient times 100 is
    the number just below 28.75, and the rate is 28.7. *)
Example false_positive_rate_23_of_80 :
  JS.toQ (JS.mul (JS.div (JS.ofNat 23) (JS.ofNat 80)) (JS.ofZ 100))
  = Some (8092405580431359 # 2 ^ 48)
  /\ (8092405580431359 # 2 ^ 48 < 2875 # 100)%Q
  /\ App.MetricsRevised.falsePositiveRate (Rated.store 23 57)
     = Some (JS.ofRatio 287 10).
Proof. split; [| split]; vm_compute; reflexivity. Qed.

(** The same store in [src/App.tsx]: 29. *)
Example false_positive_rate_earlier_revision :
  App.Metrics.falsePositiveRate (Rated.store 23 57) = JS.ofZ 29.
Proof. vm_compute. reflexivity. Qed.

(** ** The average investigation time *)

(** The resolution event in the words of the specification: the first
    timeline event whose action is "Resolved" or "Mark Resolved", or else the
    last timeline event. *)
Fixpoint firstResolution (timeline : list TimelineEvent.t)
  : option TimelineEvent.t :=
  match timeline with
  | [] => None
  | event :: rest =>
      if decide (TimelineEvent.action event = "Resolved"%string
                 ∨ TimelineEvent.action event = "Mark Resolved"%string)
      then Some event
      else firstResolution rest
  end.

Definition resolutionEvent (alert : ComplianceAlert.t)
  : option TimelineEvent.t :=
  match firstResolution (ComplianceAlert.timeline alert) with
  | Some event => Some event
  | None => last (ComplianceAlert.timeline alert)
  end.

(** Minutes from the creation of the alert to an event, in binary64: the
    difference of the two epoch-millisecond numbers, divided by 60000. *)
Definition minutesUntil (alert : ComplianceAlert.t) (event : TimelineEvent.t)
  : JS.number :=
  JS.div
    (JS.sub (JS.ofZ (TimelineEvent.timestamp event))
       (JS.ofZ (ComplianceAlert.timestamp alert)))
    (JS.ofZ 60000).

(** The sum of the minutes to the resolution events, added from the left in
    binary64; an alert without any timeline event adds nothing. *)
Definition totalInvestigationMinutes (alerts : list ComplianceAlert.t)
  : JS.number :=
  foldl (fun sum alert =>
           match resolutionEvent alert with
           | Some event => JS.add sum (minutesUntil alert event)
           | None => sum
           end)
    (JS.ofZ 0) alerts.

(** The same in exact arithmetic. *)
Definition exactMinutes (alert : ComplianceAlert.t) : Q :=
  match resolutionEvent alert with
  | Some event =>
      inject_Z (TimelineEvent.timestamp event
                - ComplianceAlert.timestamp alert) / inject_Z 60000
  | None => 0
  end.

Fixpoint Qsum (l : list Q) : Q :=
  match l with
  | [] => 0
  | x :: rest => x + Qsum rest
  end.

(** The mean of [exactMinutes] over the [Resolved] alerts. *)
Definition meanInvestigationMinutes (alerts : list ComplianceAlert.t) : Q :=
  let resolved := filter (fun a => ComplianceAlert.status a = Resolved) alerts in
  Qsum (exactMinutes <$> resolved) / inject_Z (Z.of_nat (length resolved)).






Module Resolved.

(** A [Resolved] alert created at [t0] whose timeline ends with "Mark
    Resolved" at [t0 + elapsed] milliseconds. *)
Definition alert (id : string) (elapsed : Z) : ComplianceAlert.t :=
  Stored.alert id 1700000000000 Resolved
    [ {| TimelineEvent.id := "timeline-1700000000000";
         TimelineEvent.timestamp := 1700000000000;
         TimelineEvent.action := "Alert Created";
         TimelineEvent.user := "Automated System";
         TimelineEvent.notes := None |};
      {| TimelineEvent.id := id +:+ "-1700000000001";
         TimelineEvent.timestamp := 1700000000000 + elapsed;
         TimelineEvent.action := "Mark Resolved";
         TimelineEvent.user := "Current User";
         TimelineEvent.notes := None |} ].

Definition after (elapsed : Z) : ComplianceAlert.t := alert "ALT-007" elapsed.

End Resolved.



(** The example of the specification: resolved 45 minutes after creation. *)
Example average_investigation_time_45 :
  resolutionEvent (Resolved.after (45 * 60000))
  = last (ComplianceAlert.timeline (Resolved.after (45 * 60000)))
  /\ totalInvestigationMinutes [Resolved.after (45 * 60000)] = JS.ofZ 45
  /\ App.MetricsRevised.avgInvestigationTime [Resolved.after (45 * 60000)]
     = Some (JS.ofZ 45).
Proof. repeat split. Qed.

(** Three alerts resolved after 30, 220 and 20 seconds: the mean is 1.5
    minutes, the binary64 sum of the three quotients divided by 3 is the
    number just below 1.5, and the metric is 1. *)
Example average_investigation_time_below_half :
  let alerts := [Resolved.alert "ALT-007" 30000;
                 Resolved.alert "ALT-008" 220000;
                 Resolved.alert "ALT-009" 20000] in
  (meanInvestigationMinutes alerts == 3 # 2)%Q
  /\ JS.toQ (JS.div (totalInvestigationMinutes alerts) (JS.ofNat 3))
     = Some (6755399441055743 # 2 ^ 52)
  /\ App.MetricsRevised.avgInvestigationTime alerts = Some (JS.ofZ 1).
Proof. split; [| split]; vm_compute; reflexivity. Qed.

(** The metrics of [src/App.tsx] average, over the resolved, dismissed and
    escalated alerts, the hours between the first and the last timeline
    event, and show 0 when there are none: 45 minutes round to 1 hour. *)
Example average_investigation_time_earlier_revision :
  App.Metrics.avgInvestigationTime [Resolved.after (45 * 60000)] = JS.ofZ 1
  /\ App.Metrics.avgInvestigationTime [Stored.older] = JS.ofZ 0.
Proof. split; vm_compute; reflexivity. Qed.

(** ** The workflow *)

(** No button is rendered for a dismissed or resolved alert. *)
Lemma offered_terminal status a :
  status = Dismissed \/ status = Resolved -> Workflow.offered status a = false.
Proof. intros [-> | ->]; destruct a; reflexivity. Qed.

(** "Start Investigation" is rendered exactly for a [New] alert. *)
Lemma offered_StartInvestigation status :
  Workflow.offered status Workflow.StartInvestigation = true <-> status = New.
Proof. destruct status; simpl; split; intros H; congruence. Qed.

(** The event a press of button [a] builds. *)
Definition pressedEvent (alert : ComplianceAlert.t) (notes : string)
    (a : Workflow.Action) (idNow : N) (eventTime : Z) : TimelineEvent.t :=
  {| TimelineEvent.id := ComplianceAlert.id alert +:+ "-" +:+ JS.digits idNow;
     TimelineEvent.timestamp := eventTime;
     TimelineEvent.action := Workflow.actionNameOf a;
     TimelineEvent.user := "Current User";
     TimelineEvent.notes := Workflow.notesOrUndefined notes |}.

(** One press on the alert the modal shows: the stored alerts with its
    identifier get the destination status, the notes, and the timeline of
    the shown alert with one more event; the others are untouched. *)
Lemma handleAction_spec alert notes a idNow eventTime store stored :
  stored ∈ store ->
  let updated :=
    App.applyUpdates stored
      {| App.status := Workflow.newStatusOf a;
         App.investigationNotes := notes;
         App.timeline :=
           ComplianceAlert.timeline alert
             ++ [pressedEvent alert notes a idNow eventTime] |} in
  (if bool_decide (ComplianceAlert.id stored = ComplianceAlert.id alert)
   then updated else stored)
  ∈ Workflow.handleAction alert notes (Workflow.newStatusOf a)
      (Workflow.actionNameOf a) idNow eventTime store.
Proof.
  intros Hin updated. unfold Workflow.handleAction, App.handleUpdateAlert.
  apply list_elem_of_fmap. exists stored. split; [reflexivity | exact Hin].
Qed.

(** The action label that goes with each status. *)
Definition labelOf (status : Status) : string :=
  match status with
  | New => "Alert Created"
  | InReview => "Start Investigation"
  | Escalated => "Escalate"
  | Dismissed => "Dismiss"
  | Resolved => "Mark Resolved"
  end.

Definition Consistent (alert : ComplianceAlert.t) : Prop :=
  TimelineEvent.action <$> last (ComplianceAlert.timeline alert)
  = Some (labelOf (ComplianceAlert.status alert)).

Lemma raise_Consistent env r severity current detail j :
  Consistent (raise env r severity current detail j).
Proof. reflexivity. Qed.

(** Every event of the page keeps the stored alerts consistent. *)
Lemma step_Consistent st ev :
  Forall Consistent (Workflow.alerts st) ->
  Forall Consistent (Workflow.alerts (Workflow.step st ev)).
Proof.
  intros Hst. destruct ev as [row | text | a | idNow eventTime | |]; simpl.
  - destruct (Workflow.selectedAlert st), (Workflow.alerts st !! row);
      exact Hst.
  - destruct (Workflow.selectedAlert st); exact Hst.
  - destruct (Workflow.selectedAlert st) as [alert |]; [| exact Hst].
    destruct (Workflow.offered _ a && negb _); exact Hst.
  - destruct (Workflow.waiting st) as [| call rest]; [exact Hst |]. simpl.
    unfold Workflow.handleAction, App.handleUpdateAlert.
    apply Forall_fmap. eapply Forall_impl; [exact Hst |].
    intros stored Hstored. simpl. case_bool_decide; [| exact Hstored].
    unfold Consistent. simpl. rewrite last_snoc.
    destruct (Workflow.pressed call); reflexivity.
  - exact Hst.
  - destruct (Workflow.closing st); exact Hst.
Qed.

(** Whatever the officers do on the page, and in whatever order the waiting
    calls and timers run, every stored alert stays consistent: the action of
    its last timeline event is the label of its status. *)
Lemma run_Consistent st evs :
  Forall Consistent (Workflow.alerts st) ->
  Forall Consistent (Workflow.alerts (Workflow.run st evs)).
Proof.
  revert st. induction evs as [| ev evs IH]; intros st Hst; [exact Hst |].
  apply IH. now apply step_Consistent.
Qed.

Module Triage.

(** AAPL moving 4% against its previous close, in trading hours, with a
    previous snapshot and no history: one rapid-change alert. *)
Definition aapl : StockData.t := Sample.quote "AAPL" 500000 4.

Definition store : list ComplianceAlert.t :=
  emittedAll Sample.morning {[ "AAPL"%string := aapl ]} ∅ [aapl] 0.

(** The page before the officer opens the alert. *)
Definition initial : Workflow.State :=
  {| Workflow.alerts := store;
     Workflow.selectedAlert := None;
     Workflow.notes := EmptyString;
     Workflow.isLoading := false;
     Workflow.mounted := 0;
     Workflow.waiting := [];
     Workflow.closing := 0 |}.

(** The officer opens the alert and starts the investigation; the call
    returns and the modal stays open. *)
Definition investigating : Workflow.State :=
  Workflow.run initial
    [ Workflow.Open 0;
      Workflow.Press Workflow.StartInvestigation;
      Workflow.Resume 1700000060000%N 1700000060000 ].

(** Then, in the same modal, the officer escalates. *)
Definition escalated : Workflow.State :=
  Workflow.run investigating
    [ Workflow.Press Workflow.Escalate;
      Workflow.Resume 1700000120000%N 1700000120000 ].

(** And presses "Start Investigation", still on screen, once more. *)
Definition reopened : Workflow.State :=
  Workflow.run escalated
    [ Workflow.Press Workflow.StartInvestigation;
      Workflow.Resume 1700000180000%N 1700000180000 ].

(** The officer opens the alert and dismisses it; the call returns and
    schedules the closing of the modal half a second later; before that the
    officer presses "Mark Resolved", still on screen; the modal closes; the
    second call returns. *)
Definition dismissedThenResolved : Workflow.State :=
  Workflow.run initial
    [ Workflow.Open 0;
      Workflow.Press Workflow.Dismiss;
      Workflow.Resume 1700000060000%N 1700000060000;
      Workflow.Press Workflow.MarkResolved;
      Workflow.CloseTimer;
      Workflow.Resume 1700000061000%N 1700000061000 ].

Definition statuses (st : Workflow.State) : list Status :=
  ComplianceAlert.status <$> Workflow.alerts st.

Definition actionLog (st : Workflow.State) : list (list string) :=
  (fun a => TimelineEvent.action <$> ComplianceAlert.timeline a)
    <$> Workflow.alerts st.

End Triage.

(** C9 -- two actions in one modal.  The modal renders and extends the
    [selectedAlert] object captured when it was opened, which
    [handleUpdateAlert] never refreshes.  After "Start Investigation" the
    stored alert is [InReview] with the timeline "Alert Created", "Start
    Investigation"; the escalation that follows writes the timeline "Alert
    Created", "Escalate", so the stored "Start Investigation" entry is gone;
    and "Start Investigation", still rendered, is accepted on the alert
    whose stored status is [Escalated] and takes it back to [InReview]. *)
Theorem second_action_overwrites_timeline :
  Triage.statuses Triage.initial = [New]
  /\ Triage.actionLog Triage.initial = [["Alert Created"]]%string
  /\ Triage.statuses Triage.investigating = [InReview]
  /\ Triage.actionLog Triage.investigating
     = [["Alert Created"; "Start Investigation"]]%string
  /\ Triage.statuses Triage.escalated = [Escalated]
  /\ Triage.actionLog Triage.escalated
     = [["Alert Created"; "Escalate"]]%string
  /\ Triage.statuses Triage.reopened = [InReview]
  /\ Triage.actionLog Triage.reopened
     = [["Alert Created"; "Start Investigation"]]%string.
Proof. vm_compute. repeat split. Qed.

(** The half second between a "Dismiss" and the closing of the modal: the
    buttons are enabled again and still rendered on the alert as it was
    opened, so "Mark Resolved" is accepted; the stored alert ends up
    [Resolved], without its "Dismiss" entry. *)
Example dismissed_alert_resolved_before_the_modal_closes :
  Triage.statuses Triage.dismissedThenResolved = [Resolved]
  /\ Triage.actionLog Triage.dismissedThenResolved
     = [["Alert Created"; "Mark Resolved"]]%string
  /\ Workflow.selectedAlert Triage.dismissedThenResolved = None
  /\ Workflow.closing Triage.dismissedThenResolved = 1%nat.
Proof. vm_compute. repeat split. Qed.

(** *** What does hold of the workflow *)

Definition terminal (status : Status) : Prop :=
  status = Dismissed \/ status = Resolved.

Lemma offered_not_terminal status a :
  Workflow.offered status a = true -> ~ terminal status.
Proof.
  intros Hoff Hterm. rewrite (offered_terminal status a) in Hoff by exact Hterm.
  discriminate.
Qed.

(** A press on the alert the modal was just opened on, once its call has
    returned, has appended exactly one event to its stored timeline and
    moved it to the destination status. *)
Lemma press_appends_one_event st alert a idNow eventTime :
  Workflow.selectedAlert st = Some alert ->
  alert ∈ Workflow.alerts st ->
  Workflow.isLoading st = false ->
  Workflow.waiting st = [] ->
  Workflow.offered (ComplianceAlert.status alert) a = true ->
  exists updated,
    updated ∈ Workflow.alerts
                (Workflow.run st
                   [Workflow.Press a; Workflow.Resume idNow eventTime])
    /\ ComplianceAlert.id updated = ComplianceAlert.id alert
    /\ ComplianceAlert.status updated = Workflow.newStatusOf a
    /\ ComplianceAlert.investigationNotes updated = Workflow.notes st
    /\ ComplianceAlert.timeline updated
       = ComplianceAlert.timeline alert
           ++ [pressedEvent alert (Workflow.notes st) a idNow eventTime].
Proof.
  intros Hsel Hin Hidle Hnone Hoff.
  unfold Workflow.run. cbn [foldl]. unfold Workflow.step at 2.
  rewrite Hsel, Hoff, Hidle, Hnone. simpl.
  pose proof (handleAction_spec alert (Workflow.notes st) a idNow eventTime
                (Workflow.alerts st) alert Hin) as Hupd.
  rewrite bool_decide_eq_true_2 in Hupd by reflexivity.
  eexists. split; [exact Hupd |]. repeat split.
Qed.

(** A modal opened on a dismissed or resolved alert renders no button: a
    press changes nothing. *)
Lemma terminal_offers_nothing st alert a :
  Workflow.selectedAlert st = Some alert ->
  terminal (ComplianceAlert.status alert) ->
  Workflow.step st (Workflow.Press a) = st.
Proof.
  intros Hsel Hterm. simpl.
  now rewrite Hsel, (offered_terminal _ a Hterm).
Qed.

Lemma handleUpdateAlert_ids alertId updates store :
  ComplianceAlert.id <$> App.handleUpdateAlert alertId updates store
  = ComplianceAlert.id <$> store.
Proof.
  unfold App.handleUpdateAlert. rewrite <- list_fmap_compose.
  apply list_fmap_ext. intros i a _. simpl. now case_bool_decide.
Qed.

Lemma step_ids st ev :
  ComplianceAlert.id <$> Workflow.alerts (Workflow.step st ev)
  = ComplianceAlert.id <$> Workflow.alerts st.
Proof.
  destruct ev as [row | text | a | idNow eventTime | |]; simpl.
  - now destruct (Workflow.selectedAlert st), (Workflow.alerts st !! row).
  - now destruct (Workflow.selectedAlert st).
  - destruct (Workflow.selectedAlert st) as [alert |]; [| reflexivity].
    now destruct (Workflow.offered _ a && negb _).
  - destruct (Workflow.waiting st) as [| call rest]; [reflexivity |]. simpl.
    apply handleUpdateAlert_ids.
  - reflexivity.
  - now destruct (Workflow.closing st).
Qed.

(** The alert with identifier [x] is settled on a page when the open modal,
    if it shows an alert with that identifier, shows it as dismissed or
    resolved, and no waiting call was started on an alert with that
    identifier. *)
Definition Settled (st : Workflow.State) (x : string) : Prop :=
  (forall shown,
     Workflow.selectedAlert st = Some shown ->
     ComplianceAlert.id shown = x ->
     terminal (ComplianceAlert.status shown))
  /\ Forall (fun call => ComplianceAlert.id (Workflow.shown call) <> x)
       (Workflow.waiting st).

Lemma step_Settled st ev i stored :
  NoDup (ComplianceAlert.id <$> Workflow.alerts st) ->
  Workflow.alerts st !! i = Some stored ->
  terminal (ComplianceAlert.status stored) ->
  Settled st (ComplianceAlert.id stored) ->
  Workflow.alerts (Workflow.step st ev) !! i = Some stored
  /\ Settled (Workflow.step st ev) (ComplianceAlert.id stored).
Proof.
  intros Hnd Hi Hterm Hsettled. pose proof Hsettled as [Hmodal Hcalls].
  destruct ev as [row | text | a | idNow eventTime | |]; simpl.
  - destruct (Workflow.selectedAlert st) as [shown |] eqn:Hsel;
      [now split |].
    destruct (Workflow.alerts st !! row) as [alert |] eqn:Hrow;
      [| now split].
    simpl. split; [exact Hi |]. split; [| exact Hcalls].
    simpl. intros shown [= <-] Hid.
    assert (row = i) as ->.
    { apply (NoDup_lookup _ _ _ (ComplianceAlert.id stored) Hnd).
      - rewrite list_lookup_fmap, Hrow. simpl. now rewrite Hid.
      - now rewrite list_lookup_fmap, Hi. }
    rewrite Hi in Hrow. now injection Hrow as <-.
  - destruct (Workflow.selectedAlert st) as [shown |] eqn:Hsel;
      [| now split].
    simpl. split; [exact Hi |]. split; [| exact Hcalls].
    simpl. intros shown' [= <-]. now apply Hmodal.
  - destruct (Workflow.selectedAlert st) as [shown |] eqn:Hsel;
      [| now split].
    destruct (Workflow.offered _ a) eqn:Hoff; [| now split].
    destruct (negb _); [| now split].
    simpl. split; [exact Hi |]. split.
    + simpl. intros shown' [= <-]. now apply Hmodal.
    + simpl. apply Forall_app. split; [exact Hcalls |].
      constructor; [| constructor]. simpl. intros Hid.
      apply (offered_not_terminal _ _ Hoff). now apply Hmodal.
  - destruct (Workflow.waiting st) as [| call rest] eqn:Hwait;
      [now split |].
    apply Forall_cons in Hcalls as [Hcall Hrest].
    simpl. split; [| split; [exact Hmodal | exact Hrest]].
    unfold Workflow.handleAction, App.handleUpdateAlert.
    rewrite list_lookup_fmap, Hi. simpl.
    now rewrite bool_decide_eq_false_2 by (intros Hid; now apply Hcall).
  - split; [exact Hi |]. split; [| exact Hcalls].
    simpl. intros shown Hnone. discriminate Hnone.
  - destruct (Workflow.closing st); [now split |].
    simpl. split; [exact Hi |]. split; [| exact Hcalls].
    simpl. intros shown Hnone. discriminate Hnone.
Qed.

(** A settled alert that is dismissed or resolved is never changed again,
    whatever happens on the page: it is rendered without buttons whenever
    the modal is opened on it.  (An alert that is not settled can leave
    [Dismissed]: see [dismissed_alert_resolved_before_the_modal_closes].) *)
Lemma terminal_is_final st evs i stored :
  NoDup (ComplianceAlert.id <$> Workflow.alerts st) ->
  Workflow.alerts st !! i = Some stored ->
  terminal (ComplianceAlert.status stored) ->
  Settled st (ComplianceAlert.id stored) ->
  Workflow.alerts (Workflow.run st evs) !! i = Some stored.
Proof.
  revert st. induction evs as [| ev evs IH]; intros st Hnd Hi Hterm Hsettled;
    [exact Hi |].
  destruct (step_Settled st ev i stored Hnd Hi Hterm Hsettled)
    as [Hi' Hsettled'].
  apply IH; try assumption.
  now rewrite step_ids.
Qed.

(** The after-hours check.  For every snapshot the loop body returns
    (whenever the symbol has a first character), and when it returns it has
    pushed exactly one after-hours alert if the local hour of the call is
    before 9 or from 16 on and the volume is above 1,000,000 ([volume >
    1000000] on numbers, false of [NaN]), and none otherwise; the alert has
    severity [High] and, its category "Suspicious Trading Pattern" being
    outside the taxonomy, type "Market Manipulation". *)
Theorem after_hours_rule env previousData intradayDataMap current alerts k :
  (StockData.symbol current <> EmptyString ->
   exists out k',
     forSnapshot env previousData intradayDataMap current alerts k
     = Normal (out, k'))
  /\ (forall out k',
        forSnapshot env previousData intradayDataMap current alerts k
        = Normal (out, k') ->
        exists emitted,
          out = alerts ++ emitted
          /\ ((getHours env < 9 \/ 16 <= getHours env) ->
              JS.gt (StockData.volume current) (JS.ofZ 1000000) = true ->
              length (filter (raisedBy AfterHours current) emitted) = 1%nat)
          /\ (9 <= getHours env < 16
              \/ JS.gt (StockData.volume current) (JS.ofZ 1000000) = false ->
              length (filter (raisedBy AfterHours current) emitted) = 0%nat)
          /\ (forall a, a ∈ emitted -> raisedBy AfterHours current a ->
              ComplianceAlert.severity a = High
              /\ ComplianceAlert.type a = "Market Manipulation"%string)).
Proof.
  split.
  { intros Hsym. rewrite forSnapshot_spec by assumption. eauto. }
  intros out k' Hrun. apply forSnapshot_returned in Hrun.
  exists (emittedFor env previousData intradayDataMap current k).
  split; [exact Hrun |]. rewrite emittedFor_count. unfold afterHoursFires.
  repeat split.
  - intros Hhour Hvol.
    replace ((getHours env <? 9) || (16 <=? getHours env)) with true
      by (symmetry; apply orb_true_iff; destruct Hhour;
          [left; now apply Z.ltb_lt | right; now apply Z.leb_le]).
    now rewrite Hvol.
  - intros [[Hlo Hhi] | Hvol].
    + replace (getHours env <? 9) with false
        by (symmetry; apply Z.ltb_ge; lia).
      now replace (16 <=? getHours env) with false
        by (symmetry; apply Z.leb_gt; lia).
    + rewrite Hvol. now rewrite andb_false_r.
  - destruct (emittedFor_raisedBy _ _ _ _ _ _ _ H H0) as [j ->]. reflexivity.
  - destruct (emittedFor_raisedBy _ _ _ _ _ _ _ H H0) as [j ->]. reflexivity.
Qed.

(** TSLA at 3,000,000 shares in a call made at 17h. *)
Lemma after_hours_rule_witness :
  exists emitted k',
    forSnapshot Sample.evening Sample.previous Sample.history Sample.tsla []
      0%nat
    = Normal ([] ++ emitted, k')
    /\ length (filter (raisedBy AfterHours Sample.tsla) emitted) = 1%nat.
Proof.
  destruct (after_hours_rule Sample.evening Sample.previous Sample.history
              Sample.tsla [] 0%nat) as (Hreturns & Hpushed).
  destruct Hreturns as (out & k' & Hrun); [discriminate |].
  destruct (Hpushed out k' Hrun) as (emitted & -> & Hone & _).
  exists emitted, k'. split; [exact Hrun |].
  apply Hone; [right; vm_compute; discriminate | reflexivity].
Defined.

(** The rapid-change check.  When the loop body returns it has pushed
    exactly one rapid-change alert if the previous-snapshot map has an entry
    for the symbol and the absolute value of [changePercent] is above 3
    ([Math.abs(changePercent) > 3] on numbers, false of [NaN]), and none
    otherwise; its severity is [Critical] when the absolute value is
    above 5 (so also for a fall of 8%, unlike the price-spike check) and
    [High] otherwise. *)
Theorem rapid_change_rule env previousData intradayDataMap current alerts k :
  (StockData.symbol current <> EmptyString ->
   exists out k',
     forSnapshot env previousData intradayDataMap current alerts k
     = Normal (out, k'))
  /\ (forall out k',
        forSnapshot env previousData intradayDataMap current alerts k
        = Normal (out, k') ->
        exists emitted,
          out = alerts ++ emitted
          /\ (is_Some (previousData !! StockData.symbol current) ->
              JS.gt (JS.abs (StockData.changePercent current)) (JS.ofZ 3)
              = true ->
              length (filter (raisedBy RapidChange current) emitted) = 1%nat)
          /\ (previousData !! StockData.symbol current = None
              \/ JS.gt (JS.abs (StockData.changePercent current)) (JS.ofZ 3)
                 = false ->
              length (filter (raisedBy RapidChange current) emitted) = 0%nat)
          /\ (forall a, a ∈ emitted -> raisedBy RapidChange current a ->
              (JS.gt (JS.abs (StockData.changePercent current)) (JS.ofZ 5)
               = true ->
               ComplianceAlert.severity a = Critical)
              /\ (JS.gt (JS.abs (StockData.changePercent current)) (JS.ofZ 5)
                  = false ->
                  ComplianceAlert.severity a = High))).
Proof.
  split.
  { intros Hsym. rewrite forSnapshot_spec by assumption. eauto. }
  intros out k' Hrun. apply forSnapshot_returned in Hrun.
  exists (emittedFor env previousData intradayDataMap current k).
  split; [exact Hrun |]. rewrite emittedFor_count.
  unfold rapidChangeFires, previousOf.
  split; [| split].
  - intros Hprev Habove.
    now rewrite bool_decide_eq_true_2, Habove.
  - intros [Hnone | Hbelow].
    + rewrite Hnone.
      now rewrite bool_decide_eq_false_2 by (intros [x Hx]; discriminate).
    + rewrite Hbelow. now rewrite andb_false_r.
  - intros a Hin Hr.
    destruct (emittedFor_raisedBy _ _ _ _ _ _ _ Hin Hr) as [j ->].
    unfold rapidChangeAlert, raise, builtAlert, rapidChangeSeverity.
    cbn [ComplianceAlert.severity]. split.
    + intros H5. now rewrite H5.
    + intros H5. now rewrite H5.
Qed.

(** AAPL falling 8% against its previous close, with a previous snapshot on
    file: one rapid-change alert, [Critical]. *)
Lemma rapid_change_rule_witness :
  exists emitted k',
    forSnapshot Sample.morning {[ "AAPL"%string := Sample.quote "AAPL" 1 0 ]}
      ∅ (Sample.quote "AAPL" 500000 (-8)) [] 0%nat
    = Normal ([] ++ emitted, k')
    /\ length (filter (raisedBy RapidChange
                         (Sample.quote "AAPL" 500000 (-8))) emitted) = 1%nat
    /\ (forall a, a ∈ emitted ->
        raisedBy RapidChange (Sample.quote "AAPL" 500000 (-8)) a ->
        ComplianceAlert.severity a = Critical).
Proof.
  destruct (rapid_change_rule Sample.morning
              {[ "AAPL"%string := Sample.quote "AAPL" 1 0 ]} ∅
              (Sample.quote "AAPL" 500000 (-8)) [] 0%nat)
    as (Hreturns & Hpushed).
  destruct Hreturns as (out & k' & Hrun); [discriminate |].
  destruct (Hpushed out k' Hrun) as (emitted & -> & Hone & _ & Hseverity).
  exists emitted, k'. split; [exact Hrun |]. split.
  - apply Hone; [eexists |]; reflexivity.
  - intros a Hin Hr. now apply (Hseverity a Hin Hr).
Defined.

(** The size of a cycle.  A call that returns has raised at most four alerts
    per snapshot and has read [Date.now()] exactly twice per alert. *)
Theorem engine_alert_budget env stockData previousData intradayDataMap
    k alerts k' :
  generateAlertsFromStockData env stockData previousData intradayDataMap k
  = Normal (alerts, k') ->
  (length alerts <= 4 * length stockData)%nat
  /\ k' = (k + 2 * length alerts)%nat.
Proof.
  unfold generateAlertsFromStockData. intros Hrun.
  apply forEach_returned in Hrun as [-> ->]. simpl.
  split; [apply emittedAll_length | reflexivity].
Qed.

Lemma engine_alert_budget_witness :
  (length (emittedAll Sample.evening Sample.previous Sample.history
             [Sample.tsla] 0) <= 4 * length [Sample.tsla])%nat
  /\ 8%nat
     = (0 + 2 * length (emittedAll Sample.evening Sample.previous
                          Sample.history [Sample.tsla] 0))%nat.
Proof.
  apply (engine_alert_budget Sample.evening [Sample.tsla] Sample.previous
           Sample.history 0%nat).
  vm_compute. reflexivity.
Defined.

(** The severities of a cycle.  No alert the engine returns has severity
    [Low], and one of severity [Medium] was raised by the volume-spike
    check. *)
Theorem engine_severities env stockData previousData intradayDataMap
    k alerts k' :
  generateAlertsFromStockData env stockData previousData intradayDataMap k
  = Normal (alerts, k') ->
  Forall (fun a =>
            ComplianceAlert.severity a <> Low
            /\ (ComplianceAlert.severity a = Medium ->
                exists current,
                  current ∈ stockData /\ raisedBy VolumeSpike current a))
    alerts.
Proof.
  unfold generateAlertsFromStockData. intros Hrun.
  apply forEach_returned in Hrun as [-> _]. simpl.
  apply Forall_forall. intros a Ha.
  apply emittedAll_elem_of in Ha as (current & j & Hcur & Ha).
  apply emittedFor_cases in Ha as (i & [-> | [-> | [-> | ->]]]).
  - unfold priceSpikeAlert, priceSpikeSeverity, raise, builtAlert.
    cbn [ComplianceAlert.severity].
    destruct (JS.gt _ (JS.ofZ 5)); split; discriminate.
  - split.
    + unfold volumeSpikeAlert, volumeSpikeSeverity, raise, builtAlert.
      cbn [ComplianceAlert.severity].
      destruct (JS.gt _ (JS.ofZ 300)); [discriminate |].
      destruct (JS.gt _ (JS.ofZ 200)); discriminate.
    + intros _. exists current. split; [exact Hcur |].
      unfold volumeSpikeAlert. now rewrite raisedBy_raise.
  - split; discriminate.
  - unfold rapidChangeAlert, rapidChangeSeverity, raise, builtAlert.
    cbn [ComplianceAlert.severity].
    destruct (JS.gt _ (JS.ofZ 5)); split; discriminate.
Qed.

Lemma engine_severities_witness :
  Forall (fun a =>
            ComplianceAlert.severity a <> Low
            /\ (ComplianceAlert.severity a = Medium ->
                exists current,
                  current ∈ [Sample.tsla] /\ raisedBy VolumeSpike current a))
    (emittedAll Sample.morning Sample.previous Sample.history
       [Sample.tsla] 0).
Proof.
  apply (engine_severities Sample.morning [Sample.tsla] Sample.previous
           Sample.history 0%nat _ 6%nat).
  vm_compute. reflexivity.
Defined.

(** The previous snapshot is only tested for presence. *)
Lemma forSnapshot_previous_presence env previous1 previous2 intradayDataMap
    current alerts k :
  (is_Some (previous1 !! StockData.symbol current)
   <-> is_Some (previous2 !! StockData.symbol current)) ->
  forSnapshot env previous1 intradayDataMap current alerts k
  = forSnapshot env previous2 intradayDataMap current alerts k.
Proof.
  intros Hsame. unfold forSnapshot, checkRapidChange.
  assert (Hdec : bool_decide (is_Some (previous1 !! StockData.symbol current))
                 = bool_decide (is_Some (previous2
                                           !! StockData.symbol current)))
    by (apply bool_decide_ext; exact Hsame).
  rewrite Hdec. reflexivity.
Qed.

(** What the engine takes from the previous-snapshot map.  Two maps that
    hold an entry for the same symbols of the cycle give the same result:
    the prices, volumes and time stamps of the previous snapshots are never
    read. *)
Theorem previous_snapshot_only_presence env stockData previous1 previous2
    intradayDataMap k :
  (forall current,
     current ∈ stockData ->
     is_Some (previous1 !! StockData.symbol current)
     <-> is_Some (previous2 !! StockData.symbol current)) ->
  generateAlertsFromStockData env stockData previous1 intradayDataMap k
  = generateAlertsFromStockData env stockData previous2 intradayDataMap k.
Proof.
  unfold generateAlertsFromStockData. generalize (@nil ComplianceAlert.t).
  revert k. induction stockData as [| current rest IH]; intros k alerts Hsame;
    [reflexivity |].
  cbn [forEach]. unfold mbind, Eff_bind.
  rewrite (forSnapshot_previous_presence env previous1 previous2)
    by (apply Hsame; left).
  destruct (forSnapshot env previous2 intradayDataMap current alerts k)
    as [[l k1] | e]; [| reflexivity].
  apply IH. intros c Hc. apply Hsame. now right.
Qed.

Lemma previous_snapshot_only_presence_witness :
  generateAlertsFromStockData Sample.morning [Sample.tsla]
    {[ "TSLA"%string := Sample.tsla ]} Sample.history 0%nat
  = generateAlertsFromStockData Sample.morning [Sample.tsla]
      {[ "TSLA"%string := Sample.quote "TSLA" 1 (-50) ]} Sample.history 0%nat.
Proof.
  apply (previous_snapshot_only_presence Sample.morning [Sample.tsla]).
  intros current Hin. apply list_elem_of_singleton in Hin. subst current.
  split; intros _; eexists; reflexivity.
Defined.

(** * Further properties of the store *)

Lemma arraySort_sorted_id {A : Type} (compareFn : A -> A -> Z) l :
  StronglySorted (fun a b => compareFn a b <= 0) l ->
  arraySort compareFn l = l.
Proof.
  induction 1 as [| x rest Hrest IH Hx]; simpl; [reflexivity |].
  rewrite IH. destruct Hx as [| y rest' Hy _]; simpl; [reflexivity |].
  now rewrite (proj2 (Z.leb_le _ _) Hy).
Qed.

Lemma filter_none {A : Type} (P : A -> Prop) `{!forall x, Decision (P x)} l :
  Forall (fun x => ~ P x) l -> filter P l = [].
Proof.
  induction 1 as [| x rest Hx _ IH]; [reflexivity |].
  now rewrite filter_cons, decide_False by exact Hx.
Qed.

Lemma mergeAlerts_already_merged newAlerts prev :
  newUniqueAlerts newAlerts (App.mergeAlerts newAlerts prev) = [].
Proof.
  unfold newUniqueAlerts. apply filter_none, Forall_forall.
  intros a Ha Hfresh. apply Hfresh.
  destruct (decide (ComplianceAlert.id a ∈ ComplianceAlert.id <$> prev))
    as [Hold | Hnew].
  - apply list_elem_of_fmap in Hold as (b & -> & Hb).
    apply list_elem_of_fmap_2. rewrite mergeAlerts_Permutation.
    apply elem_of_app. now left.
  - apply list_elem_of_fmap_2. rewrite mergeAlerts_Permutation.
    apply elem_of_app. right. apply list_elem_of_filter. now split.
Qed.

(** Merging is idempotent: a batch that has been merged once adds nothing
    and moves nothing when it is merged again. *)
Theorem merge_idempotent newAlerts prev :
  App.mergeAlerts newAlerts (App.mergeAlerts newAlerts prev)
  = App.mergeAlerts newAlerts prev.
Proof.
  rewrite (mergeAlerts_unfold newAlerts (App.mergeAlerts newAlerts prev)).
  rewrite mergeAlerts_already_merged, app_nil_r.
  apply arraySort_sorted_id, NewestFirst_compare, mergeAlerts_NewestFirst.
Qed.

(** The size of the merged store: the stored alerts plus the alerts of the
    batch whose identifier was not stored -- never fewer than before, never
    more than the two together. *)
Theorem merge_length newAlerts prev :
  length (App.mergeAlerts newAlerts prev)
  = (length prev
     + length (filter (fun a => ComplianceAlert.id a
                                ∉ ComplianceAlert.id <$> prev) newAlerts))%nat
  /\ (length prev <= length (App.mergeAlerts newAlerts prev)
      <= length prev + length newAlerts)%nat.
Proof.
  assert (Hlen : length (App.mergeAlerts newAlerts prev)
                 = (length prev
                    + length (newUniqueAlerts newAlerts prev))%nat).
  { rewrite mergeAlerts_Permutation. apply length_app. }
  split; [exact Hlen |]. rewrite Hlen.
  pose proof (length_filter
                (fun a => ComplianceAlert.id a ∉ ComplianceAlert.id <$> prev)
                newAlerts) as Hfilter.
  unfold newUniqueAlerts. lia.
Qed.

(** A batch without a new identifier leaves a store that is ordered newest
    first exactly as it is. *)
Theorem merge_nothing_new newAlerts prev :
  NewestFirst prev ->
  Forall (fun a => ComplianceAlert.id a ∈ ComplianceAlert.id <$> prev)
    newAlerts ->
  App.mergeAlerts newAlerts prev = prev.
Proof.
  intros Hsorted Hknown. rewrite mergeAlerts_unfold.
  replace (newUniqueAlerts newAlerts prev) with (@nil ComplianceAlert.t).
  - rewrite app_nil_r. now apply arraySort_sorted_id, NewestFirst_compare.
  - symmetry. apply filter_none.
    eapply Forall_impl; [exact Hknown |]. intros a Ha Hfresh. contradiction.
Qed.

Lemma merge_nothing_new_witness :
  App.mergeAlerts [Stored.alert "ALT-001" 9000 Escalated []]
    [Stored.newer; Stored.older]
  = [Stored.newer; Stored.older].
Proof.
  apply (merge_nothing_new [Stored.alert "ALT-001" 9000 Escalated []]
           [Stored.newer; Stored.older]).
  - repeat constructor. simpl. lia.
  - repeat constructor.
Defined.

(** [handleUpdateAlert] keeps the length of the store and every identifier
    in its place, replaces [status], [investigationNotes] and [timeline] of
    every alert that has the identifier (all of them, when several alerts
    share it), leaves the other alerts untouched, and is idempotent. *)
Theorem handleUpdateAlert_spec alertId updates store :
  ComplianceAlert.id <$> App.handleUpdateAlert alertId updates store
  = ComplianceAlert.id <$> store
  /\ (forall i a,
        store !! i = Some a ->
        App.handleUpdateAlert alertId updates store !! i
        = Some (if bool_decide (ComplianceAlert.id a = alertId)
                then App.applyUpdates a updates else a))
  /\ (forall a,
        a ∈ App.handleUpdateAlert alertId updates store ->
        ComplianceAlert.id a = alertId ->
        ComplianceAlert.status a = App.status updates
        /\ ComplianceAlert.investigationNotes a
           = App.investigationNotes updates
        /\ ComplianceAlert.timeline a = App.timeline updates)
  /\ App.handleUpdateAlert alertId updates
       (App.handleUpdateAlert alertId updates store)
     = App.handleUpdateAlert alertId updates store.
Proof.
  split; [apply handleUpdateAlert_ids |]. split; [| split].
  - intros i a Hi. unfold App.handleUpdateAlert.
    now rewrite list_lookup_fmap, Hi.
  - intros a Hin Hid. unfold App.handleUpdateAlert in Hin.
    apply list_elem_of_fmap in Hin as (b & -> & _).
    revert Hid. case_bool_decide as Hb; [now intros _ |].
    intros Hid. contradiction.
  - unfold App.handleUpdateAlert. rewrite <- list_fmap_compose.
    apply list_fmap_ext. intros i a _. simpl.
    destruct (decide (ComplianceAlert.id a = alertId)) as [Ha | Ha].
    + rewrite (bool_decide_eq_true_2 _ Ha). simpl.
      now rewrite (bool_decide_eq_true_2 _ Ha).
    + rewrite (bool_decide_eq_false_2 _ Ha).
      now rewrite (bool_decide_eq_false_2 _ Ha).
Qed.

(** * The filtered and sorted view ([App.tsx], [filteredAndSortedAlerts]) *)

Module View.

(** [s.includes(q)]: [q] occurs in [s]. *)
Fixpoint includes (s q : string) : bool :=
  String.prefix q s
  || match s with
     | EmptyString => false
     | String _ rest => includes rest q
     end.

Inductive SortBy : Type := ByTime | BySeverity.

Inductive SortOrder : Type := Asc | Desc.

(** The five pieces of state the view depends on; [None] is the filter value
    'All'. *)
Record Settings : Type := mkSettings {
  searchQuery : string;
  severityFilter : option Severity;
  statusFilter : option Status;
  sortBy : SortBy;
  sortOrder : SortOrder;
}.

(** The state of a freshly loaded page. *)
Definition initial : Settings :=
  {| searchQuery := EmptyString;
     severityFilter := None;
     statusFilter := None;
     sortBy := ByTime;
     sortOrder := Desc |}.

Definition severityOrder (severity : Severity) : Z :=
  match severity with
  | Critical => 4
  | High => 3
  | Medium => 2
  | Low => 1
  end.

(** The predicate of [alerts.filter]. *)
Definition shown (settings : Settings) (alert : ComplianceAlert.t) : bool :=
  let query := JS.toLowerCase (searchQuery settings) in
  let matchesSearch :=
    includes (JS.toLowerCase (ComplianceAlert.id alert)) query
    || includes (JS.toLowerCase (Trader.name (ComplianceAlert.trader alert)))
         query
    || includes (JS.toLowerCase (Trader.id (ComplianceAlert.trader alert)))
         query in
  let matchesSeverity :=
    match severityFilter settings with
    | None => true
    | Some severity => bool_decide (ComplianceAlert.severity alert = severity)
    end in
  let matchesStatus :=
    match statusFilter settings with
    | None => true
    | Some status => bool_decide (ComplianceAlert.status alert = status)
    end in
  matchesSearch && matchesSeverity && matchesStatus.

(** The comparator of [filtered.sort]. *)
Definition compareFn (settings : Settings) (a b : ComplianceAlert.t) : Z :=
  match sortBy settings with
  | ByTime =>
      let timeA := ComplianceAlert.timestamp a in
      let timeB := ComplianceAlert.timestamp b in
      match sortOrder settings with
      | Asc => timeA - timeB
      | Desc => timeB - timeA
      end
  | BySeverity =>
      let orderA := severityOrder (ComplianceAlert.severity a) in
      let orderB := severityOrder (ComplianceAlert.severity b) in
      match sortOrder settings with
      | Asc => orderA - orderB
      | Desc => orderB - orderA
      end
  end.

Definition filteredAndSortedAlerts (settings : Settings)
    (alerts : list ComplianceAlert.t) : list ComplianceAlert.t :=
  let filtered := filter (fun alert => shown settings alert) alerts in
  arraySort (compareFn settings) filtered.

End View.

(** [includes] finds exactly the strings that occur. *)
Lemma prefix_occurs q s :
  String.prefix q s = true <-> exists rest, s = q +:+ rest.
Proof.
  revert s. induction q as [| c q IH]; intros s.
  - split; [intros _; now exists s | intros _; now destruct s].
  - destruct s as [| d s]; simpl.
    + split; [discriminate | intros [rest Hrest]; discriminate Hrest].
    + destruct (ascii_dec c d) as [-> | Hne].
      * rewrite IH. split; intros [rest Hrest]; exists rest.
        -- change (String d s = String d (q +:+ rest)). now rewrite Hrest.
        -- change (String d s = String d (q +:+ rest)) in Hrest.
           now injection Hrest.
      * split; [discriminate |]. intros [rest Hrest].
        change (String d s = String c (q +:+ rest)) in Hrest.
        injection Hrest as Hcd _. congruence.
Qed.

Lemma includes_occurs s q :
  View.includes s q = true <-> exists before after, s = before +:+ q +:+ after.
Proof.
  induction s as [| c s IH].
  - cbn [View.includes]. rewrite orb_false_r, prefix_occurs. split.
    + intros [rest Hrest]. now exists EmptyString, rest.
    + intros (before & after & Hs). destruct before as [| b before].
      * now exists after.
      * discriminate Hs.
  - cbn [View.includes]. rewrite orb_true_iff, IH, prefix_occurs. split.
    + intros [[rest Hrest] | (before & after & Hs)].
      * now exists EmptyString, rest.
      * exists (String c before), after.
        change (String c s = String c (before +:+ q +:+ after)).
        now rewrite Hs.
    + intros (before & after & Hs). destruct before as [| b before].
      * left. now exists after.
      * right. change (String c s = String b (before +:+ q +:+ after)) in Hs.
        injection Hs as _ Hs. now exists before, after.
Qed.

Lemma includes_empty s : View.includes s EmptyString = true.
Proof. apply includes_occurs. now exists EmptyString, s. Qed.

(** The key the view is in descending order of. *)
Definition viewKey (settings : View.Settings) (a : ComplianceAlert.t) : Z :=
  match View.sortBy settings, View.sortOrder settings with
  | View.ByTime, View.Desc => ComplianceAlert.timestamp a
  | View.ByTime, View.Asc => - ComplianceAlert.timestamp a
  | View.BySeverity, View.Desc =>
      View.severityOrder (ComplianceAlert.severity a)
  | View.BySeverity, View.Asc =>
      - View.severityOrder (ComplianceAlert.severity a)
  end.

Lemma compareFn_viewKey settings a b :
  View.compareFn settings a b = viewKey settings b - viewKey settings a.
Proof.
  unfold View.compareFn, viewKey.
  destruct (View.sortBy settings), (View.sortOrder settings); lia.
Qed.

(** The view in the words of the page: the search text occurs, letter case
    apart, in the identifier of the alert, in the name of its trader or in
    the identifier of its trader, and the alert has the severity and the
    status the filters ask for, if they ask for one. *)
Definition occursIn (text s : string) : Prop :=
  exists before after, s = before +:+ text +:+ after.

Definition passes (settings : View.Settings) (a : ComplianceAlert.t) : Prop :=
  (exists field,
     field ∈ [ComplianceAlert.id a;
              Trader.name (ComplianceAlert.trader a);
              Trader.id (ComplianceAlert.trader a)]
     /\ occursIn (JS.toLowerCase (View.searchQuery settings))
          (JS.toLowerCase field))
  /\ (forall severity,
        View.severityFilter settings = Some severity ->
        ComplianceAlert.severity a = severity)
  /\ (forall status,
        View.statusFilter settings = Some status ->
        ComplianceAlert.status a = status).

(** Critical 4, High 3, Medium 2, Low 1. *)
Definition severityRank (a : ComplianceAlert.t) : Z :=
  match ComplianceAlert.severity a with
  | Critical => 4
  | High => 3
  | Medium => 2
  | Low => 1
  end.

(** [a] may stand before [b] in the order chosen. *)
Definition inViewOrder (settings : View.Settings) (a b : ComplianceAlert.t)
  : Prop :=
  match View.sortBy settings, View.sortOrder settings with
  | View.ByTime, View.Desc =>
      ComplianceAlert.timestamp b <= ComplianceAlert.timestamp a
  | View.ByTime, View.Asc =>
      ComplianceAlert.timestamp a <= ComplianceAlert.timestamp b
  | View.BySeverity, View.Desc => severityRank b <= severityRank a
  | View.BySeverity, View.Asc => severityRank a <= severityRank b
  end.

Lemma shown_passes settings a :
  View.shown settings a = true <-> passes settings a.
Proof.
  unfold View.shown, passes, occursIn.
  rewrite !andb_true_iff, !orb_true_iff, !includes_occurs. split.
  - intros [[Hsearch Hseverity] Hstatus]. split; [| split].
    + destruct Hsearch as [[Hfield | Hfield] | Hfield];
        eexists; (split; [| exact Hfield]).
      * left.
      * right. left.
      * right. right. left.
    + intros severity Hf. rewrite Hf in Hseverity.
      now apply bool_decide_eq_true in Hseverity.
    + intros status Hf. rewrite Hf in Hstatus.
      now apply bool_decide_eq_true in Hstatus.
  - intros ((field & Hin & Hfield) & Hseverity & Hstatus).
    split; [split |].
    + apply elem_of_cons in Hin as [-> | Hin]; [now left; left |].
      apply elem_of_cons in Hin as [-> | Hin]; [now left; right |].
      apply list_elem_of_singleton in Hin as ->. now right.
    + destruct (View.severityFilter settings) as [severity |];
        [| reflexivity].
      apply bool_decide_eq_true. now apply Hseverity.
    + destruct (View.statusFilter settings) as [status |]; [| reflexivity].
      apply bool_decide_eq_true. now apply Hstatus.
Qed.

Lemma filter_split {A : Type} (f : A -> bool) (l : list A) :
  l ≡ₚ filter (fun a => f a) l ++ filter (fun a => f a = false) l.
Proof.
  induction l as [| x rest IH]; [reflexivity |].
  rewrite !filter_cons. destruct (f x) eqn:Hx.
  - rewrite decide_True by exact I.
    rewrite decide_False by discriminate.
    simpl. constructor. exact IH.
  - rewrite decide_False by (intros []).
    rewrite decide_True by reflexivity.
    rewrite <- Permutation_middle. constructor. exact IH.
Qed.

Lemma StronglySorted_weaken {A : Type} (R S : A -> A -> Prop) l :
  (forall a b, R a b -> S a b) -> StronglySorted R l -> StronglySorted S l.
Proof.
  intros HRS. induction 1 as [| x rest _ IH Hall]; constructor.
  - exact IH.
  - eapply Forall_impl; [exact Hall |]. intros b. apply HRS.
Qed.

(** What the view shows.  The view holds exactly the stored alerts that pass
    the search and the two filters, each as often as the store holds it (the
    store is the view together with alerts that do not pass), in the order
    chosen: newest or oldest first by time stamp, or by severity rank
    (Critical 4, High 3, Medium 2, Low 1) downwards or upwards. *)
Theorem view_contents settings alerts :
  (exists hidden,
     alerts ≡ₚ View.filteredAndSortedAlerts settings alerts ++ hidden
     /\ Forall (fun a => ~ passes settings a) hidden)
  /\ (forall a,
        a ∈ View.filteredAndSortedAlerts settings alerts
        <-> a ∈ alerts /\ passes settings a)
  /\ StronglySorted (inViewOrder settings)
       (View.filteredAndSortedAlerts settings alerts).
Proof.
  unfold View.filteredAndSortedAlerts.
  split; [| split].
  - exists (filter (fun a => View.shown settings a = false) alerts). split.
    + rewrite arraySort_Permutation. apply filter_split.
    + apply Forall_forall. intros a Ha.
      apply list_elem_of_filter in Ha as [Hhidden _].
      rewrite <- shown_passes. now rewrite Hhidden.
  - intros a. rewrite arraySort_Permutation, list_elem_of_filter.
    rewrite Is_true_true, shown_passes. tauto.
  - eapply StronglySorted_weaken;
      [| exact (arraySort_descending (View.compareFn settings)
                  (viewKey settings) (compareFn_viewKey settings) _)].
    intros a b. unfold inViewOrder, viewKey, severityRank, View.severityOrder.
    destruct (View.sortBy settings), (View.sortOrder settings); simpl; lia.
Qed.

Lemma filter_all {A : Type} (P : A -> Prop) `{!forall x, Decision (P x)} l :
  Forall P l -> filter P l = l.
Proof.
  induction 1 as [| x rest Hx _ IH]; [reflexivity |].
  now rewrite filter_cons, decide_True, IH by exact Hx.
Qed.

(** With an empty search box and both filters on 'All' the view hides
    nothing. *)
Theorem view_unfiltered settings alerts :
  View.searchQuery settings = EmptyString ->
  View.severityFilter settings = None ->
  View.statusFilter settings = None ->
  View.filteredAndSortedAlerts settings alerts ≡ₚ alerts.
Proof.
  intros Hq Hsev Hst. unfold View.filteredAndSortedAlerts.
  rewrite arraySort_Permutation.
  replace (filter (fun a => View.shown settings a) alerts) with alerts;
    [reflexivity |].
  symmetry. apply filter_all, Forall_forall.
  intros a _. unfold View.shown. rewrite Hq, Hsev, Hst. simpl.
  rewrite includes_empty. simpl. trivial.
Qed.

Lemma view_unfiltered_witness :
  View.filteredAndSortedAlerts View.initial [Stored.older; Stored.newer]
    ≡ₚ [Stored.older; Stored.newer].
Proof.
  apply (view_unfiltered View.initial [Stored.older; Stored.newer]);
    reflexivity.
Defined.

(** What the filters let through.  Every alert of the view has the severity
    and the status the filters ask for, and the search text occurs, letter
    case apart, in its identifier, in its trader's name or in its trader's
    identifier. *)
Theorem view_filters settings alerts a :
  a ∈ View.filteredAndSortedAlerts settings alerts ->
  (forall severity,
     View.severityFilter settings = Some severity ->
     ComplianceAlert.severity a = severity)
  /\ (forall status,
        View.statusFilter settings = Some status ->
        ComplianceAlert.status a = status)
  /\ (exists field before after,
        field ∈ [ComplianceAlert.id a;
                 Trader.name (ComplianceAlert.trader a);
                 Trader.id (ComplianceAlert.trader a)]
        /\ JS.toLowerCase field
           = before +:+ JS.toLowerCase (View.searchQuery settings)
               +:+ after).
Proof.
  unfold View.filteredAndSortedAlerts.
  rewrite arraySort_Permutation, list_elem_of_filter.
  intros [Hshown _]. apply Is_true_true in Hshown.
  unfold View.shown in Hshown.
  apply andb_true_iff in Hshown as [Hshown Hstatus].
  apply andb_true_iff in Hshown as [Hsearch Hseverity].
  split; [| split].
  - intros severity Hf. rewrite Hf in Hseverity.
    now apply bool_decide_eq_true in Hseverity.
  - intros status Hf. rewrite Hf in Hstatus.
    now apply bool_decide_eq_true in Hstatus.
  - apply orb_true_iff in Hsearch as [Hsearch | Hsearch];
      [apply orb_true_iff in Hsearch as [Hsearch | Hsearch] |];
      apply includes_occurs in Hsearch as (before & after & Hfield);
      eexists _, before, after; (split; [| exact Hfield]).
    + left.
    + right. left.
    + right. right. left.
Qed.

Lemma view_filters_witness :
  (forall severity,
     View.severityFilter
       {| View.searchQuery := "alt-00";
          View.severityFilter := Some Medium;
          View.statusFilter := Some New;
          View.sortBy := View.BySeverity;
          View.sortOrder := View.Asc |} = Some severity ->
     ComplianceAlert.severity Stored.older = severity)
  /\ ComplianceAlert.status Stored.older = New.
Proof.
  destruct (view_filters
              {| View.searchQuery := "alt-00";
                 View.severityFilter := Some Medium;
                 View.statusFilter := Some New;
                 View.sortBy := View.BySeverity;
                 View.sortOrder := View.Asc |}
              [Stored.older; Stored.newer] Stored.older)
    as (Hseverity & Hstatus & _).
  - vm_compute. left.
  - split; [exact Hseverity | now apply Hstatus].
Defined.

Section Stability.

Context {A : Type}.

Variable compareFn : A -> A -> Z.
Variable key : A -> Z.

Hypothesis compareFn_key : forall a b, compareFn a b = key b - key a.

Lemma insertSorted_same_key v x l :
  filter (fun a => key a = v) (insertSorted compareFn x l)
  = filter (fun a => key a = v) (x :: l).
Proof.
  induction l as [| y rest IH]; [reflexivity |]. simpl.
  destruct (compareFn x y <=? 0) eqn:Hcmp; [reflexivity |].
  apply Z.leb_gt in Hcmp. rewrite compareFn_key in Hcmp.
  rewrite (filter_cons _ y), IH, !filter_cons.
  destruct (decide (key y = v)), (decide (key x = v)); try reflexivity.
  lia.
Qed.

(** The sort is stable: the elements of one key stay in their order. *)
Lemma arraySort_same_key v l :
  filter (fun a => key a = v) (arraySort compareFn l)
  = filter (fun a => key a = v) l.
Proof.
  induction l as [| x rest IH]; [reflexivity |]. simpl.
  rewrite insertSorted_same_key, !filter_cons, IH. reflexivity.
Qed.

End Stability.

(** Alerts that tie stay in store order.  Among the alerts of one time stamp
    (when the view is sorted by time) or of one severity (when it is sorted
    by severity) the view keeps the order of the store. *)
Theorem view_stable settings alerts v :
  filter (fun a => viewKey settings a = v)
    (View.filteredAndSortedAlerts settings alerts)
  = filter (fun a => viewKey settings a = v)
      (filter (fun a => View.shown settings a) alerts).
Proof.
  unfold View.filteredAndSortedAlerts.
  apply arraySort_same_key, compareFn_viewKey.
Qed.

(** The view of a freshly loaded page shows a merged store as it is: the
    merge has already put it in the order of the view. *)
Theorem view_of_merged_store newAlerts prev :
  View.filteredAndSortedAlerts View.initial (App.mergeAlerts newAlerts prev)
  = App.mergeAlerts newAlerts prev.
Proof.
  unfold View.filteredAndSortedAlerts.
  rewrite filter_all.
  - apply arraySort_sorted_id.
    exact (NewestFirst_compare _ (mergeAlerts_NewestFirst newAlerts prev)).
  - apply Forall_forall. intros a _. unfold View.shown. simpl.
    rewrite includes_empty. simpl. trivial.
Qed.


(** * Further properties of the workflow: sample runs *)

Module Desk.

(** The page of [Triage] with the modal open on its alert. *)
Definition opened : Workflow.State :=
  Workflow.step Triage.initial (Workflow.Open 0).

(** A store with a resolved alert on top of a new one, the modal open on
    the resolved alert. *)
Definition page : Workflow.State :=
  {| Workflow.alerts := [Resolved.after 60000; Stored.older];
     Workflow.selectedAlert := Some (Resolved.after 60000);
     Workflow.notes := EmptyString;
     Workflow.isLoading := false;
     Workflow.mounted := 1;
     Workflow.waiting := [];
     Workflow.closing := 0 |}.

(** The officer tries a button on the resolved alert, closes it, opens the
    other alert, dismisses it and, before the modal closes, marks it
    resolved. *)
Definition session : list Workflow.Event :=
  [ Workflow.Press Workflow.Escalate; Workflow.EditNotes "seen";
    Workflow.Close; Workflow.Open 1;
    Workflow.Press Workflow.Dismiss;
    Workflow.Resume 1700000240000%N 1700000240000;
    Workflow.Press Workflow.MarkResolved;
    Workflow.CloseTimer;
    Workflow.Resume 1700000241000%N 1700000241000 ].

End Desk.

Lemma run_Consistent_witness :
  Forall Consistent
    (Workflow.alerts
       (Workflow.run Triage.initial
          [ Workflow.Open 0;
            Workflow.Press Workflow.StartInvestigation;
            Workflow.Resume 1700000060000%N 1700000060000;
            Workflow.Press Workflow.Escalate;
            Workflow.Resume 1700000120000%N 1700000120000 ])).
Proof.
  apply (run_Consistent Triage.initial).
  constructor; [reflexivity | constructor].
Defined.

Lemma terminal_is_final_witness :
  Workflow.alerts (Workflow.run Desk.page Desk.session) !! 0%nat
  = Some (Resolved.after 60000).
Proof.
  apply (terminal_is_final Desk.page Desk.session 0%nat
           (Resolved.after 60000)).
  - apply (bool_decide_unpack _). vm_compute. exact I.
  - reflexivity.
  - right. reflexivity.
  - split.
    + intros shown [= <-] _. right. reflexivity.
    + constructor.
Defined.

(** In that session the other alert does leave [Dismissed]. *)
Example desk_session_statuses :
  ComplianceAlert.status
  <$> Workflow.alerts (Workflow.run Desk.page Desk.session)
  = [Resolved; Resolved].
Proof. vm_compute. reflexivity. Qed.

Lemma press_appends_one_event_witness :
  exists updated,
    updated ∈ Workflow.alerts
                (Workflow.run Desk.opened
                   [ Workflow.Press Workflow.Escalate;
                     Workflow.Resume 1700000120000%N 1700000120000 ])
    /\ ComplianceAlert.id updated
       = ComplianceAlert.id (rapidChangeAlert Sample.morning Triage.aapl 0)
    /\ ComplianceAlert.status updated = Escalated
    /\ ComplianceAlert.investigationNotes updated = EmptyString
    /\ ComplianceAlert.timeline updated
       = ComplianceAlert.timeline
           (rapidChangeAlert Sample.morning Triage.aapl 0)
           ++ [pressedEvent (rapidChangeAlert Sample.morning Triage.aapl 0)
                 EmptyString Workflow.Escalate
                 1700000120000%N 1700000120000].
Proof.
  apply (press_appends_one_event Desk.opened
           (rapidChangeAlert Sample.morning Triage.aapl 0)
           Workflow.Escalate 1700000120000%N 1700000120000).
  - reflexivity.
  - left.
  - reflexivity.
  - reflexivity.
  - reflexivity.
Defined.

(** * Further properties of the metrics *)


(** The counters add up: every alert is pending review ([New] or
    [InReview]), escalated, dismissed or resolved, and is counted once. *)
Theorem metrics_counts alerts :
  App.pendingReview alerts
  = (App.countStatus New alerts + App.countStatus InReview alerts)%nat
  /\ App.totalAlerts alerts
     = (App.pendingReview alerts + App.countStatus Escalated alerts
        + App.countStatus Dismissed alerts
        + App.countStatus Resolved alerts)%nat.
Proof.
  unfold App.pendingReview, App.totalAlerts, App.countStatus.
  induction alerts as [| a rest [IH1 IH2]]; [split; reflexivity |].
  rewrite !filter_cons. simpl length at 1.
  destruct (ComplianceAlert.status a) eqn:Hstatus;
    repeat (rewrite decide_True by (auto; fail)
            || rewrite decide_False by (intros [?|?]; discriminate)
            || rewrite decide_False by discriminate);
    simpl; lia.
Qed.

(** * The refresh cycle ([App.tsx], [fetchRealData]) *)

Module Refresh.

(** The state a cycle reads and writes: the store, the two maps kept in
    [previousDataRef] and [intradayDataRef], and two indicators. *)
Record Page : Type := mkPage {
  alerts : list ComplianceAlert.t;
  previousData : gmap string StockData.t;
  intradayData : gmap string (list IntradayPoint.t);
  isUsingRealData : bool;
  lastUpdated : option Z;
}.

(** What the two fetches of a cycle answered: the quotes of
    [fetchMultipleStocks] and the history [fetchIntradayData] returned for
    the symbol of the first quote. *)
Record Fetched : Type := mkFetched {
  stockData : list StockData.t;
  intraday : list IntradayPoint.t;
}.

Section FetchRealData.

Variable env : Env.

(** The alerts of [generateMockAlerts()] ([mockData.ts], which is not among
    the sources): whatever they are. *)
Variable generateMockAlerts : list ComplianceAlert.t.

(** [intradayDataRef.current.set(stockData[0].symbol, intraday)], done only
    for a non-empty history. *)
Definition storeIntraday (fetched : Fetched)
    (intradayData : gmap string (list IntradayPoint.t))
  : gmap string (list IntradayPoint.t) :=
  match stockData fetched with
  | first :: _ =>
      if bool_decide (0 < length (intraday fetched))%nat
      then <[StockData.symbol first := intraday fetched]> intradayData
      else intradayData
  | [] => intradayData
  end.

(** [stockData.forEach(stock => previousDataRef.current.set(stock.symbol,
    stock))]. *)
Definition storePrevious (stockData : list StockData.t)
    (previousData : gmap string StockData.t) : gmap string StockData.t :=
  foldl (fun m stock => <[StockData.symbol stock := stock]> m)
    previousData stockData.

(** One run of [fetchRealData], once its fetches have answered; [updatedAt]
    is the instant of [setLastUpdated(new Date())] and [k] the number of
    reads of [Date.now()] so far.  The history map is written before the
    engine runs, so the write stays when the engine throws and the [catch]
    puts the placeholder alerts in the store. *)
Definition fetchRealData (apiKey : string) (fetched : Fetched)
    (updatedAt : Z) (k : nat) (page : Page) : Page :=
  if bool_decide (apiKey = EmptyString) then page
  else if bool_decide (length (stockData fetched) = 0%nat) then
    {| alerts := generateMockAlerts;
       previousData := previousData page;
       intradayData := intradayData page;
       isUsingRealData := false;
       lastUpdated := lastUpdated page |}
  else
    let intradayData' := storeIntraday fetched (intradayData page) in
    match generateAlertsFromStockData env (stockData fetched)
            (previousData page) intradayData' k with
    | Normal (newAlerts, _) =>
        {| alerts := App.mergeAlerts newAlerts (alerts page);
           previousData :=
             storePrevious (stockData fetched) (previousData page);
           intradayData := intradayData';
           isUsingRealData := true;
           lastUpdated := Some updatedAt |}
    | Throw _ =>
        {| alerts := generateMockAlerts;
           previousData := previousData page;
           intradayData := intradayData';
           isUsingRealData := false;
           lastUpdated := lastUpdated page |}
    end.

End FetchRealData.

End Refresh.

Lemma storePrevious_lookup stockData previousData symbol :
  Refresh.storePrevious stockData previousData !! symbol
  = match last (filter (fun stock => StockData.symbol stock = symbol)
                  stockData) with
    | Some stock => Some stock
    | None => previousData !! symbol
    end.
Proof.
  unfold Refresh.storePrevious. revert previousData.
  induction stockData as [| stock rest IH]; intros previousData;
    [reflexivity |].
  cbn [foldl]. rewrite IH, filter_cons.
  destruct (decide (StockData.symbol stock = symbol)) as [<- | Hne].
  - destruct (filter _ rest) as [| s l] eqn:Hf.
    + simpl. apply lookup_insert_eq.
    + rewrite last_cons_cons.
      destruct (last (s :: l)) eqn:Hl; [reflexivity |].
      apply last_None in Hl. discriminate.
  - destruct (last (filter _ rest)); [reflexivity |].
    now apply lookup_insert_ne.
Qed.

(** Sample cycles: a desk with one resolved alert, a fetch that answered a
    quote with its history, and one that also answered a quote without a
    symbol. *)
Module Cycle.

Definition desk : Refresh.Page :=
  {| Refresh.alerts := [Resolved.after 60000];
     Refresh.previousData := ∅;
     Refresh.intradayData := ∅;
     Refresh.isUsingRealData := false;
     Refresh.lastUpdated := None |}.

Definition answered : Refresh.Fetched :=
  {| Refresh.stockData := [Sample.tsla];
     Refresh.intraday := Sample.tslaHistory |}.

Definition unnamedAnswered : Refresh.Fetched :=
  {| Refresh.stockData := [Sample.tsla; Sample.unnamed];
     Refresh.intraday := [] |}.

End Cycle.

(** A cycle that goes wrong empties the desk.  With an API key set, when no
    quote could be fetched, or when a check fires for a fetched quote whose
    symbol is the empty string (the engine then throws), the whole store --
    with the statuses, notes and timelines the officers have entered -- is
    replaced by the placeholder alerts, and the previous-snapshot map is
    left as it was. *)
Theorem refresh_fallback env generateMockAlerts apiKey fetched updatedAt k page :
  apiKey <> EmptyString ->
  Refresh.stockData fetched = []
  \/ (exists current,
        current ∈ Refresh.stockData fetched
        /\ StockData.symbol current = EmptyString
        /\ anyFires env (Refresh.previousData page)
             (Refresh.storeIntraday fetched (Refresh.intradayData page))
             current = true) ->
  let page' :=
    Refresh.fetchRealData env generateMockAlerts apiKey fetched updatedAt k
      page in
  Refresh.alerts page' = generateMockAlerts
  /\ Refresh.isUsingRealData page' = false
  /\ Refresh.previousData page' = Refresh.previousData page
  /\ Refresh.lastUpdated page' = Refresh.lastUpdated page.
Proof.
  intros Hkey Hbad page'. subst page'. unfold Refresh.fetchRealData.
  rewrite bool_decide_eq_false_2 by exact Hkey.
  case_bool_decide as Hempty; [repeat split |].
  destruct Hbad as [Hnil | (current & Hin & Hsym & Hfires)].
  { rewrite Hnil in Hempty. contradiction. }
  destruct (generateAlertsFromStockData _ _ _ _ _) as [[newAlerts k'] | e]
    eqn:Hrun; [| repeat split].
  assert (Hret : exists alerts k',
             generateAlertsFromStockData env (Refresh.stockData fetched)
               (Refresh.previousData page)
               (Refresh.storeIntraday fetched (Refresh.intradayData page)) k
             = Normal (alerts, k')) by eauto.
  apply generateAlertsFromStockData_returns in Hret.
  rewrite Forall_forall in Hret. specialize (Hret current Hin Hsym).
  congruence.
Qed.

Lemma refresh_fallback_witness :
  let page' :=
    Refresh.fetchRealData Sample.evening [Stored.older] "demo"
      Cycle.unnamedAnswered 1700000000000 0%nat Cycle.desk in
  Refresh.alerts page' = [Stored.older]
  /\ Refresh.isUsingRealData page' = false
  /\ Refresh.previousData page' = Refresh.previousData Cycle.desk
  /\ Refresh.lastUpdated page' = Refresh.lastUpdated Cycle.desk.
Proof.
  apply (refresh_fallback Sample.evening [Stored.older] "demo"
           Cycle.unnamedAnswered 1700000000000 0%nat Cycle.desk).
  - discriminate.
  - right. exists Sample.unnamed. split; [right; left |].
    split; reflexivity.
Defined.

(** A cycle that goes well keeps the desk.  With an API key set, at least
    one quote fetched and no check firing for a quote with the empty symbol,
    every stored alert is still in the store after the cycle, the page shows
    live data and the time of the update, and the previous-snapshot map
    holds, for every symbol fetched, the last quote fetched for it, its
    other entries being unchanged. *)
Theorem refresh_keeps_store env generateMockAlerts apiKey fetched updatedAt k page :
  apiKey <> EmptyString ->
  Refresh.stockData fetched <> [] ->
  Forall (fun current =>
            StockData.symbol current = EmptyString ->
            anyFires env (Refresh.previousData page)
              (Refresh.storeIntraday fetched (Refresh.intradayData page))
              current = false)
    (Refresh.stockData fetched) ->
  let page' :=
    Refresh.fetchRealData env generateMockAlerts apiKey fetched updatedAt k
      page in
  (forall a, a ∈ Refresh.alerts page -> a ∈ Refresh.alerts page')
  /\ Refresh.isUsingRealData page' = true
  /\ Refresh.lastUpdated page' = Some updatedAt
  /\ (forall symbol,
        Refresh.previousData page' !! symbol
        = match last (filter (fun stock => StockData.symbol stock = symbol)
                        (Refresh.stockData fetched)) with
          | Some stock => Some stock
          | None => Refresh.previousData page !! symbol
          end).
Proof.
  intros Hkey Hsome Hfine page'. subst page'. unfold Refresh.fetchRealData.
  rewrite bool_decide_eq_false_2 by exact Hkey.
  rewrite bool_decide_eq_false_2
    by (destruct (Refresh.stockData fetched); [congruence | discriminate]).
  apply (proj2 (generateAlertsFromStockData_returns env _ _ _ k)) in Hfine.
  destruct Hfine as (newAlerts & k' & Hrun).
  rewrite Hrun. cbn [Refresh.alerts Refresh.isUsingRealData
                       Refresh.lastUpdated Refresh.previousData].
  repeat split.
  - intros a Ha. rewrite mergeAlerts_Permutation. apply elem_of_app. now left.
  - intros symbol. apply storePrevious_lookup.
Qed.

Lemma refresh_keeps_store_witness :
  let page' :=
    Refresh.fetchRealData Sample.morning [Stored.older] "demo"
      Cycle.answered 1700000000000 0%nat Cycle.desk in
  (forall a, a ∈ Refresh.alerts Cycle.desk -> a ∈ Refresh.alerts page')
  /\ Refresh.isUsingRealData page' = true
  /\ Refresh.lastUpdated page' = Some 1700000000000
  /\ (forall symbol,
        Refresh.previousData page' !! symbol
        = match last (filter (fun stock => StockData.symbol stock = symbol)
                        (Refresh.stockData Cycle.answered)) with
          | Some stock => Some stock
          | None => Refresh.previousData Cycle.desk !! symbol
          end).
Proof.
  apply (refresh_keeps_store Sample.morning [Stored.older] "demo"
           Cycle.answered 1700000000000 0%nat Cycle.desk).
  - discriminate.
  - discriminate.
  - repeat constructor. discriminate.
Defined.





(** ** Several cycles *)

(** What one cycle is run on: the answers of its fetches, the instant of
    its update and the number of clock reads before it. *)
Definition CycleInput : Type := Refresh.Fetched * Z * nat.

(** The page after the cycles of [inputs], in order. *)
Definition cycles (env : Env) (generateMockAlerts : list ComplianceAlert.t)
    (apiKey : string) (inputs : list CycleInput) (page : Refresh.Page)
  : Refresh.Page :=
  foldl (fun page '(fetched, updatedAt, k) =>
           Refresh.fetchRealData env generateMockAlerts apiKey fetched
             updatedAt k page)
    page inputs.

Lemma fetchRealData_intradayData env generateMockAlerts apiKey fetched
    updatedAt k page :
  Refresh.intradayData
    (Refresh.fetchRealData env generateMockAlerts apiKey fetched updatedAt k
       page)
  = Refresh.intradayData page
  \/ Refresh.intradayData
       (Refresh.fetchRealData env generateMockAlerts apiKey fetched updatedAt
          k page)
     = Refresh.storeIntraday fetched (Refresh.intradayData page).
Proof.
  unfold Refresh.fetchRealData.
  repeat case_bool_decide; auto.
  destruct (generateAlertsFromStockData _ _ _ _ _) as [[? ?] |]; auto.
Qed.

Lemma storeIntraday_lookup fetched intradayData symbol history :
  Refresh.storeIntraday fetched intradayData !! symbol = Some history ->
  intradayData !! symbol = Some history
  \/ (history <> []
      /\ history = Refresh.intraday fetched
      /\ StockData.symbol <$> head (Refresh.stockData fetched) = Some symbol).
Proof.
  unfold Refresh.storeIntraday.
  destruct (Refresh.stockData fetched) as [| first rest]; [auto |].
  case_bool_decide as Hlen; [| auto].
  destruct (decide (StockData.symbol first = symbol)) as [<- | Hne].
  - rewrite lookup_insert_eq. intros [= <-]. right.
    split; [| split; reflexivity].
    intros Hnil. rewrite Hnil in Hlen. simpl in Hlen. lia.
  - rewrite lookup_insert_ne by exact Hne. auto.
Qed.

(** Only the first symbol has a history.  Whatever cycles run, an entry of
    the history map that was not there at the start is the non-empty
    history some cycle fetched, stored under the symbol of that cycle's
    first quote; no other symbol ever gets a history, and no empty history
    is ever stored. *)
Theorem history_only_for_first_symbol env generateMockAlerts apiKey inputs
    page symbol history :
  Refresh.intradayData (cycles env generateMockAlerts apiKey inputs page)
    !! symbol = Some history ->
  Refresh.intradayData page !! symbol = Some history
  \/ (history <> []
      /\ exists fetched updatedAt k,
           (fetched, updatedAt, k) ∈ inputs
           /\ history = Refresh.intraday fetched
           /\ StockData.symbol <$> head (Refresh.stockData fetched)
              = Some symbol).
Proof.
  unfold cycles. revert page.
  induction inputs as [| [[fetched updatedAt] k] rest IH]; intros page;
    [now left |].
  cbn [foldl]. intros Hlook. apply IH in Hlook as [Hlook | Hlater].
  - destruct (fetchRealData_intradayData env generateMockAlerts apiKey
                fetched updatedAt k page) as [Heq | Heq];
      rewrite Heq in Hlook; [now left |].
    apply storeIntraday_lookup in Hlook as [Hold | (Hne & Hh & Hfirst)];
      [now left |].
    right. split; [exact Hne |].
    exists fetched, updatedAt, k. split; [left | auto].
  - right. destruct Hlater as (Hne & f & u & j & Hin & Hrest).
    split; [exact Hne |]. exists f, u, j. split; [now right | exact Hrest].
Qed.

Lemma history_only_for_first_symbol_witness :
  Refresh.intradayData Cycle.desk !! "TSLA"%string = Some Sample.tslaHistory
  \/ (Sample.tslaHistory <> []
      /\ exists fetched updatedAt k,
           (fetched, updatedAt, k)
             ∈ [(Cycle.answered, 1700000000000, 0%nat);
                (Cycle.unnamedAnswered, 1700000060000, 2%nat)]
           /\ Sample.tslaHistory = Refresh.intraday fetched
           /\ StockData.symbol <$> head (Refresh.stockData fetched)
              = Some "TSLA"%string).
Proof.
  apply (history_only_for_first_symbol Sample.morning [Stored.older] "demo"
           [(Cycle.answered, 1700000000000, 0%nat);
            (Cycle.unnamedAnswered, 1700000060000, 2%nat)]
           Cycle.desk "TSLA" Sample.tslaHistory).
  vm_compute. reflexivity.
Defined.

(** * Fetching the quotes ([services/alphaVantage.ts], [fetchMultipleStocks]) *)

Module AlphaVantage.

(** What the loop does to the outside: it waits, and it asks for the quote
    of a symbol. *)
Inductive Effect : Type :=
| Wait (ms : Z)
| Request (symbol : string).

Section FetchMultipleStocks.

(** [fetchStockQuote(apiKey, symbol)] catches every error and resolves to a
    quote or to [null]; [answer i symbol] is what the [i]-th call of the
    loop resolves to. *)
Variable answer : nat -> string -> option StockData.t.

(** The [for] loop from index [i] on, [symbols] being what is left of the
    array; [results] is the array filled so far and [trace] what has been
    done so far. *)
Fixpoint loop (i : nat) (symbols : list string)
    (results : list StockData.t) (trace : list Effect)
  : list StockData.t * list Effect :=
  match symbols with
  | [] => (results, trace)
  | symbol :: rest =>
      let trace := if bool_decide (0 < i)%nat
                   then trace ++ [Wait 12000] else trace in
      let trace := trace ++ [Request symbol] in
      match answer i symbol with
      | Some data => loop (S i) rest (results ++ [data]) trace
      | None => loop (S i) rest results trace
      end
  end.

Definition fetchMultipleStocks (symbols : list string)
  : list StockData.t * list Effect :=
  loop 0 symbols [] [].

End FetchMultipleStocks.

(** The time a trace spends waiting. *)
Definition waited (trace : list Effect) : Z :=
  foldr (fun e total =>
           match e with
           | Wait ms => ms + total
           | Request _ => total
           end)
    0 trace.

(** The symbols a trace asks for, in order. *)
Definition requested (trace : list Effect) : list string :=
  omap (fun e =>
          match e with
          | Request symbol => Some symbol
          | Wait _ => None
          end)
    trace.

End AlphaVantage.

(** The schedule the comment of [fetchMultipleStocks] describes: one request
    per symbol, twelve seconds before each request but the first. *)
Definition paced (symbols : list string) : list AlphaVantage.Effect :=
  match symbols with
  | [] => []
  | first :: rest =>
      AlphaVantage.Request first
      :: flat_map (fun symbol =>
                     [AlphaVantage.Wait 12000; AlphaVantage.Request symbol])
           rest
  end.

Lemma loop_later answer i symbols results trace :
  AlphaVantage.loop answer (S i) symbols results trace
  = (results ++ omap id (imap (fun j => answer (S i + j)%nat) symbols),
     trace ++ flat_map (fun symbol =>
                          [AlphaVantage.Wait 12000;
                           AlphaVantage.Request symbol])
                symbols).
Proof.
  revert i results trace.
  induction symbols as [| symbol rest IH]; intros i results trace.
  - simpl. now rewrite !app_nil_r.
  - cbn [AlphaVantage.loop imap omap flat_map].
    rewrite bool_decide_eq_true_2 by lia.
    replace (S i + 0)%nat with (S i) by lia.
    assert (Hshift : imap ((fun j => answer (S i + j)%nat) ∘ S) rest
                     = imap (fun j => answer (S (S i) + j)%nat) rest).
    { apply imap_ext. intros j x _. simpl. f_equal. lia. }
    rewrite Hshift.
    destruct (answer (S i) symbol) as [data |]; rewrite IH; simpl;
      rewrite <- ?app_assoc; reflexivity.
Qed.

Lemma waited_app t1 t2 :
  AlphaVantage.waited (t1 ++ t2)
  = AlphaVantage.waited t1 + AlphaVantage.waited t2.
Proof.
  unfold AlphaVantage.waited.
  induction t1 as [| [ms | symbol] t1 IH]; simpl; lia.
Qed.

Lemma paced_summary symbols :
  AlphaVantage.requested (paced symbols) = symbols
  /\ AlphaVantage.waited (paced symbols)
     = 12000 * Z.of_nat (length symbols - 1).
Proof.
  destruct symbols as [| first rest]; [split; reflexivity |].
  unfold paced. cbn [AlphaVantage.requested omap length].
  replace (S (length rest) - 1)%nat with (length rest) by lia.
  cbn [AlphaVantage.waited foldr].
  induction rest as [| symbol rest [IHr IHw]]; [split; reflexivity |].
  split.
  - simpl. simpl in IHr. congruence.
  - cbn [flat_map length app foldr]. cbn [AlphaVantage.waited] in IHw.
    rewrite IHw. lia.
Qed.

(** The pacing of the quote requests.  [fetchMultipleStocks] asks for the
    symbols in the order given, once each, and waits twelve seconds before
    every request but the first -- not before the first and not after the
    last -- so it waits 12 (n - 1) seconds for n symbols; the quotes it
    returns are the answers that were not [null], in the order of the
    requests. *)
Theorem fetch_pacing answer symbols :
  let (results, trace) := AlphaVantage.fetchMultipleStocks answer symbols in
  trace = paced symbols
  /\ AlphaVantage.requested trace = symbols
  /\ AlphaVantage.waited trace = 12000 * Z.of_nat (length symbols - 1)
  /\ results = omap id (imap answer symbols).
Proof.
  unfold AlphaVantage.fetchMultipleStocks.
  destruct symbols as [| first rest].
  { simpl. repeat split. }
  cbn [AlphaVantage.loop]. rewrite bool_decide_eq_false_2 by lia.
  assert (Hshift : imap (answer ∘ S) rest
                   = imap (fun j => answer (1 + j)%nat) rest)
    by (apply imap_ext; reflexivity).
  assert (Hres : omap id (imap answer (first :: rest))
                 = match answer 0%nat first with
                   | Some data => [data]
                   | None => []
                   end ++ omap id (imap (fun j => answer (1 + j)%nat) rest)).
  { cbn [imap omap]. rewrite Hshift.
    destruct (answer 0%nat first); reflexivity. }
  destruct (paced_summary (first :: rest)) as [Hreq Hwait].
  destruct (answer 0%nat first) as [data |]; rewrite loop_later;
    (split; [reflexivity |]); (split; [exact Hreq |]);
    (split; [exact Hwait | now rewrite Hres]).
Qed.
